(** * Barcode scanner: a shallow embedding of barcode_scanner.py and
      barcode_scanner_v2.py, and the properties of the scan pipeline.

    Conventions of the embedding.
    - A Python value that comes from JSON, or is put into a JSON payload, is
      a [pyval].  Python's [int] and [float] are one constructor, [VNum],
      holding the exact rational value of the number.  The one arithmetic
      operation of the program, the division of the weight by 100, is the
      division of doubles: its result is rounded to the nearest double
      ([float_div]); doubles are finite, overflow is not modelled.
      Comparisons of numbers go through [Qeq_bool] and [Qle_bool], so the
      fraction chosen to write a number is immaterial.
    - A Python [dict] with string keys is a [gmap string pyval]; the dicts
      whose iteration order is observable ([MEAL_WINDOWS], [NUTRIENT_MAP])
      are association lists in source order.
    - Strings are sequences of characters of one byte.  What Python does
      to a text within ASCII is computed; [isupper] and [title] of a text
      with characters above 127 follow Unicode's case tables, which the
      model does not hold: they are builtins of [PyBuiltins], and what is
      proved holds whatever they answer.
    - A Python exception is [Raise] in the [result] type.  Code that calls
      the network runs in [io], which threads the list of requests sent so
      far and keeps it when an exception is raised.
    - The process environment is a [gmap string string]; the .env file is
      the list of its lines; the input devices are a [devices] record that
      says what opening each path gives.  What stops the start-up
      ([sys.exit], a device that does not open) is a [start_exn].
    - Log lines are not modelled: they have no effect on the data. *)

From Stdlib Require Import QArith Qround Qpower Qabs ZArith Lqa String Ascii.
From stdpp Require Import gmap strings list fin_maps.

Set Warnings "-register-all".
Open Scope string_scope.

(** ** Python values *)

Inductive pyval : Type :=
| VNone
| VBool (b : bool)
| VNum (q : Q)
| VStr (s : string)
| VList (l : list pyval)
| VDict (d : gmap string pyval).

Inductive exn : Type :=
| AttributeError
| TypeError
| ValueError
| KeyError
| IndexError
| JSONDecodeError
| RequestException.

Inductive result (A : Type) : Type :=
| Ok (a : A)
| Raise (e : exn).
Arguments Ok {A} a.
Arguments Raise {A} e.

#[export] Instance result_ret : MRet result := λ A a, Ok a.
#[export] Instance result_bind : MBind result := λ A B f m,
  match m with Ok a => f a | Raise e => Raise e end.
#[export] Instance result_fmap : FMap result := λ A B f m,
  match m with Ok a => Ok (f a) | Raise e => Raise e end.

(** A [for] loop whose body updates a dict in place: the dict as the loop
    leaves it, and the exception that ended the loop early, if any.  A body
    that raises has not yet written to the dict. *)
Fixpoint for_each {A B : Type} (body : A → B → result A) (acc : A) (l : list B)
  : A * option exn :=
  match l with
  | [] => (acc, None)
  | x :: l' =>
      match body acc x with
      | Ok acc' => for_each body acc' l'
      | Raise e => (acc, Some e)
      end
  end.

(** The value of a local dict once the loop is over; an exception
    propagates and the local is lost. *)
Definition finish {A : Type} (r : A * option exn) : result A :=
  match r.2 with None => Ok r.1 | Some e => Raise e end.

(** The builtins whose code is outside the repository and whose result the
    model does not compute: [float] on a string, the text [str] gives for a
    number, a list or a dict (used by the f-string of the query), and
    [isupper] and [title] on a text that is not within ASCII. *)
Class PyBuiltins : Type := {
  float_of_str : string → option Q;
  repr_other : pyval → string;
  isupper_other : string → bool;
  title_other : string → string;
}.

(** ** Builtin operations *)

Definition Qlt_bool (x y : Q) : bool := negb (Qle_bool y x).

(** [bool(v)] *)
Definition truthy (v : pyval) : bool :=
  match v with
  | VNone => false
  | VBool b => b
  | VNum q => negb (Qeq_bool q 0)
  | VStr s => negb (String.eqb s "")
  | VList l => match l with [] => false | _ => true end
  | VDict d => match map_to_list d with [] => false | _ => true end
  end.

(** [a or b] *)
Definition py_or (a b : pyval) : pyval := if truthy a then a else b.

(** [v.get(k, dflt)]: only a dict has [get]. *)
Definition py_get (v : pyval) (k : string) (dflt : pyval) : result pyval :=
  match v with
  | VDict d => Ok (default dflt (d !! k))
  | _ => Raise AttributeError
  end.

(** [d.get(k, 0)] on a dict held in a local variable. *)
Definition get0 (d : gmap string pyval) (k : string) : pyval :=
  default (VNum 0) (d !! k).

(** [v is None] *)
Definition is_none (v : pyval) : bool :=
  match v with VNone => true | _ => false end.

(** [v == 0] ([False == 0] holds in Python; other types are unequal). *)
Definition py_is_zero (v : pyval) : bool :=
  match v with
  | VNum q => Qeq_bool q 0
  | VBool b => negb b
  | _ => false
  end.

(** [v == n] for an integer literal [n]. *)
Definition py_eq_int (v : pyval) (n : Z) : bool :=
  match v with
  | VNum q => Qeq_bool q (inject_Z n)
  | VBool b => Qeq_bool (if b then 1 else 0)%Q (inject_Z n)
  | _ => false
  end.

(** [v > 0]: ordering a non-number against an int raises TypeError. *)
Definition py_gt0 (v : pyval) : result bool :=
  match v with
  | VNum q => Ok (Qlt_bool 0 q)
  | VBool b => Ok b
  | _ => Raise TypeError
  end.

(** [float(v)] *)
Definition py_float `{PyBuiltins} (v : pyval) : result Q :=
  match v with
  | VNum q => Ok q
  | VBool b => Ok (if b then 1 else 0)%Q
  | VStr s => match float_of_str s with Some q => Ok q | None => Raise ValueError end
  | _ => Raise TypeError
  end.

(** [str(v)] as an f-string field prints it. *)
Definition py_str `{PyBuiltins} (v : pyval) : string :=
  match v with
  | VStr s => s
  | VNone => "None"
  | VBool true => "True"
  | VBool false => "False"
  | _ => repr_other v
  end.

(** Round half to even to an integer, then [round(x, 2)]. *)
Definition round_half_even (x : Q) : Z :=
  let f := Qfloor x in
  match (x - inject_Z f ?= 1 # 2)%Q with
  | Lt => f
  | Gt => (f + 1)%Z
  | Eq => if Z.even f then f else (f + 1)%Z
  end.

Definition round2 (x : Q) : Q := Qred (round_half_even (x * 100) # 100).

(** ** Doubles *)

Definition pow2 (e : Z) : Q := (2 ^ e)%Q.

(** The exponent of a positive number: the largest [e] with [2^e ≤ a]. *)
Definition Qlog2 (a : Q) : Z :=
  let l := (Z.log2 (Qnum a) - Z.log2 (Zpos (Qden a)))%Z in
  if Qle_bool (pow2 l) a then l else (l - 1)%Z.

(** The double nearest to [x], ties to the even significand: 53 bits of
    precision, the spacing never below that of the subnormal numbers. *)
Definition to_double (x : Q) : Q :=
  if Qeq_bool x 0 then 0%Q
  else
    let a := Qabs x in
    let ulp := pow2 (Z.max (Qlog2 a - 52) (-1074)) in
    let m := round_half_even (a / ulp) in
    Qred ((if Qle_bool 0 x then 1 else -1) * (inject_Z m * ulp)).

(** [x / y] on floats: both operands as doubles, the quotient rounded to
    the nearest double. *)
Definition float_div (x y : Q) : Q := to_double (to_double x / to_double y).

(** ** Strings: [isupper] and [title] *)

Definition is_upper (c : ascii) : bool :=
  let n := nat_of_ascii c in (65 <=? n)%nat && (n <=? 90)%nat.
Definition is_lower (c : ascii) : bool :=
  let n := nat_of_ascii c in (97 <=? n)%nat && (n <=? 122)%nat.
Definition is_cased (c : ascii) : bool := is_upper c || is_lower c.
Definition to_upper (c : ascii) : ascii :=
  if is_lower c then ascii_of_nat (nat_of_ascii c - 32) else c.
Definition to_lower (c : ascii) : ascii :=
  if is_upper c then ascii_of_nat (nat_of_ascii c + 32) else c.

(** Text within ASCII. *)
Definition is_ascii (s : string) : bool :=
  forallb (λ c, (nat_of_ascii c <? 128)%nat) (list_ascii_of_string s).

(** [s.isupper()]: no lower-case letter and at least one upper-case one;
    outside ASCII the letters and their case are Unicode's. *)
Definition str_isupper `{PyBuiltins} (s : string) : bool :=
  if is_ascii s then
    let cs := list_ascii_of_string s in
    forallb (λ c, negb (is_lower c)) cs && existsb is_upper cs
  else isupper_other s.

(** [s.title()]: a letter after a letter is lowered, any other is raised;
    outside ASCII the result is Unicode's. *)
Fixpoint title_from (prev_cased : bool) (s : string) : string :=
  match s with
  | EmptyString => EmptyString
  | String c s' =>
      String (if prev_cased then to_lower c else to_upper c)
             (title_from (is_cased c) s')
  end.
Definition str_title `{PyBuiltins} (s : string) : string :=
  if is_ascii s then title_from false s else title_other s.

(** [x.title() if x.isupper() else x]; a non-string has no [isupper]. *)
Definition title_if_upper `{PyBuiltins} (v : pyval) : result pyval :=
  match v with
  | VStr s => Ok (VStr (if str_isupper s then str_title s else s))
  | _ => Raise AttributeError
  end.

(** ** The nutrient tables *)

Definition NUTRIENT_MAP : list (string * string) :=
  [ ("energy-kcal_100g", "calories");
    ("proteins_100g", "protein");
    ("carbohydrates_100g", "carbs");
    ("fat_100g", "fat");
    ("saturated-fat_100g", "saturated_fat");
    ("polyunsaturated-fat_100g", "polyunsaturated_fat");
    ("monounsaturated-fat_100g", "monounsaturated_fat");
    ("trans-fat_100g", "trans_fat");
    ("cholesterol_100g", "cholesterol");
    ("sodium_100g", "sodium");
    ("potassium_100g", "potassium");
    ("fiber_100g", "dietary_fiber");
    ("sugars_100g", "sugars");
    ("vitamin-a_100g", "vitamin_a");
    ("vitamin-c_100g", "vitamin_c");
    ("calcium_100g", "calcium");
    ("iron_100g", "iron") ].

Definition USDA_NUTRIENT_MAP : list (Z * string) :=
  [ (1008, "calories");
    (1003, "protein");
    (1005, "carbs");
    (1004, "fat");
    (1258, "saturated_fat");
    (1293, "polyunsaturated_fat");
    (1292, "monounsaturated_fat");
    (1257, "trans_fat");
    (1253, "cholesterol");
    (1093, "sodium");
    (1092, "potassium");
    (1079, "dietary_fiber");
    (2000, "sugars");
    (1106, "vitamin_a");
    (1162, "vitamin_c");
    (1087, "calcium");
    (1089, "iron") ]%Z.

(** The recognized nutrient keys of a food record. *)
Definition nutrient_keys : list string := NUTRIENT_MAP.*2.

(** ** Building and enriching the food record (barcode_scanner_v2.py) *)

Section Enrichment.
Context `{PyBuiltins}.

(** Iterating a value with [for]: a list yields its items, a string its
    characters, a dict its keys; None, a bool or a number is not iterable. *)
Definition py_iter (v : pyval) : result (list pyval) :=
  match v with
  | VList l => Ok l
  | VStr s => Ok ((λ c, VStr (String c "")) <$> list_ascii_of_string s)
  | VDict d => Ok (VStr <$> (map_to_list d).*1)
  | _ => Raise TypeError
  end.

(** [USDA_NUTRIENT_MAP.get(nutrient_id)]: a list or a dict is unhashable;
    a number finds the entry of the equal integer. *)
Definition usda_key (nutrient_id : pyval) : result (option string) :=
  let find_id q :=
    snd <$> List.find (λ e, Qeq_bool q (inject_Z e.1)) USDA_NUTRIENT_MAP in
  match nutrient_id with
  | VNum q => Ok (find_id q)
  | VBool b => Ok (find_id (if b then 1 else 0)%Q)
  | VNone | VStr _ => Ok None
  | VList _ | VDict _ => Raise TypeError
  end.

(** The literal of lines 174-186. *)
Definition base_suggestion (name brand barcode : pyval) : gmap string pyval :=
  list_to_map
    [ ("name", name);
      ("brand", brand);
      ("barcode", barcode);
      ("provider_type", VStr "openfoodfacts");
      ("provider_external_id", VNone);
      ("shared_with_public", VBool false);
      ("glycemic_index", VNone);
      ("custom_nutrients", VDict ∅);
      ("serving_size", VNum 100);
      ("serving_unit", VStr "g");
      ("is_custom", VBool true) ].

(** Lines 190-191: one turn of the loop over the measured block. *)
Definition populate_step (nutriments : pyval) (suggestion : gmap string pyval)
    (entry : string * string) : result (gmap string pyval) :=
  let '(off_key, sparky_key) := entry in
  val ← py_get nutriments off_key VNone;
  if is_none val then Ok (<[sparky_key := VNum 0]> suggestion)
  else x ← py_float val; Ok (<[sparky_key := VNum (round2 x)]> suggestion).

(** [if val is not None and float(val) > 0: suggestion[key] = round(float(val), 2)] *)
Definition set_if_positive (suggestion : gmap string pyval) (key : string)
    (val : pyval) : result (gmap string pyval) :=
  if is_none val then Ok suggestion
  else
    x ← py_float val;
    Ok (if Qlt_bool 0 x then <[key := VNum (round2 x)]> suggestion
        else suggestion).

(** Lines 197-200: one turn of the loop over the estimated block. *)
Definition estimated_step (estimated : pyval) (suggestion : gmap string pyval)
    (entry : string * string) : result (gmap string pyval) :=
  let '(off_key, sparky_key) := entry in
  if py_is_zero (get0 suggestion sparky_key) then
    val ← py_get estimated off_key VNone;
    set_if_positive suggestion sparky_key val
  else Ok suggestion.

(** Lines 195-200: the estimated-block fill, on the dict being built. *)
Definition fill_estimated (suggestion : gmap string pyval) (estimated : pyval)
  : gmap string pyval * option exn :=
  if truthy estimated
  then for_each (estimated_step estimated) suggestion NUTRIENT_MAP
  else (suggestion, None).

Definition build_food_suggestion (product : pyval)
  : result (gmap string pyval) :=
  nutriments ← py_get product "nutriments" (VDict ∅);
  product_name ← py_get product "product_name" VNone;
  let raw_name := py_or product_name (VStr "Unknown Product") in
  brands ← py_get product "brands" VNone;
  let raw_brand := py_or brands (VStr "") in
  name ← title_if_upper raw_name;
  brand ← title_if_upper raw_brand;
  code ← py_get product "code" VNone;
  let suggestion := base_suggestion name brand (py_or code (VStr "")) in
  suggestion ← finish (for_each (populate_step nutriments) suggestion NUTRIENT_MAP);
  estimated ← py_get product "nutriments_estimated" (VDict ∅);
  finish (fill_estimated suggestion estimated).

(** [any(suggestion.get(k, 0) > 0 for k in keys)], left to right, stopping
    at the first true comparison. *)
Fixpoint any_positive (suggestion : gmap string pyval) (keys : list string)
  : result bool :=
  match keys with
  | [] => Ok false
  | k :: keys' =>
      b ← py_gt0 (get0 suggestion k);
      if b : bool then Ok true else any_positive suggestion keys'
  end.

Definition is_nutrition_complete (suggestion : gmap string pyval) : result bool :=
  any_positive suggestion ["protein"; "carbs"; "fat"].

(** Lines 231-236: one turn of the loop over the USDA nutrient list. *)
Definition usda_step (suggestion : gmap string pyval) (nutrient : pyval)
  : result (gmap string pyval) :=
  nutrient_id ← py_get nutrient "nutrientId" VNone;
  sparky_key ← usda_key nutrient_id;
  match sparky_key with
  | Some key =>
      if py_is_zero (get0 suggestion key) then
        val ← py_get nutrient "value" VNone;
        set_if_positive suggestion key val
      else Ok suggestion
  | None => Ok suggestion
  end.

(** The caller's dict after the call, and the exception raised, if any. *)
Definition enrich_from_usda (suggestion : gmap string pyval) (usda_food : pyval)
  : gmap string pyval * option exn :=
  match py_get usda_food "foodNutrients" (VList []) ≫= py_iter with
  | Ok nutrients => for_each usda_step suggestion nutrients
  | Raise e => (suggestion, Some e)
  end.

End Enrichment.

(** ** The outside world: requests, responses, configuration *)

(** A call of [SESSION.get], [requests.get] or [SESSION.post].  [headers]
    holds the headers given at the call, not those of the session. *)
Inductive request : Type :=
| GET (url : string) (params : list (string * pyval)) (headers : list (string * string))
| POST (url : string) (payload : pyval).

(** What the code reads of a response: [resp.status_code] and
    [resp.json()], which raises on a body that is not JSON. *)
Record response : Type := {
  status_code : Z;
  json : result pyval;
}.

(** [datetime.time]: compared field by field, hour first. *)
Record time : Type := {
  hour : Z;
  minute : Z;
  second : Z;
  microsecond : Z;
}.

(** The module-level configuration and the state of the world a scan
    reads.  [server] answers a request given the requests sent before it,
    or raises (no connection, timeout). *)
Record environ : Type := {
  SPARKY_URL : string;
  USDA_PROVIDER_ID : string;
  BREAKFAST_WINDOW : string;
  LUNCH_WINDOW : string;
  DINNER_WINDOW : string;
  SCALE_URL : option string;
  now : time;
  today : string;
  server : list request → request → result response;
}.

(** Code that talks to the network: from the requests sent so far to a
    result and the requests sent by the end. *)
Definition io (A : Type) : Type := list request → result A * list request.

#[export] Instance io_ret : MRet io := λ A a sent, (Ok a, sent).
#[export] Instance io_bind : MBind io := λ A B f m sent,
  match m sent with
  | (Ok a, sent') => f a sent'
  | (Raise e, sent') => (Raise e, sent')
  end.

Definition lift {A : Type} (r : result A) : io A := λ sent, (r, sent).

(** [try: m  except Exception: handler] *)
Definition try_except {A : Type} (m : io A) (handler : io A) : io A := λ sent,
  match m sent with
  | (Ok a, sent') => (Ok a, sent')
  | (Raise _, sent') => handler sent'
  end.

(** ** Meal windows *)

Definition time_compare (a b : time) : comparison :=
  match (hour a ?= hour b)%Z with
  | Eq =>
      match (minute a ?= minute b)%Z with
      | Eq =>
          match (second a ?= second b)%Z with
          | Eq => (microsecond a ?= microsecond b)%Z
          | c => c
          end
      | c => c
      end
  | c => c
  end.

Definition time_le (a b : time) : bool :=
  match time_compare a b with Gt => false | _ => true end.
Definition time_lt (a b : time) : bool :=
  match time_compare a b with Lt => true | _ => false end.

(** [s.split(sep)] for a one-character separator. *)
Fixpoint split_on (sep : ascii) (s : string) : list string :=
  match s with
  | EmptyString => [EmptyString]
  | String c s' =>
      if Ascii.eqb c sep then EmptyString :: split_on sep s'
      else match split_on sep s' with
           | [] => [String c EmptyString]
           | piece :: pieces => String c piece :: pieces
           end
  end.

(** Blank characters of [str.strip()] within ASCII. *)
Definition is_space (c : ascii) : bool :=
  let n := nat_of_ascii c in
  ((9 <=? n)%nat && (n <=? 13)%nat) || ((28 <=? n)%nat && (n <=? 32)%nat).

Fixpoint lstrip (s : string) : string :=
  match s with
  | String c s' => if is_space c then lstrip s' else s
  | EmptyString => EmptyString
  end.

Fixpoint rstrip (s : string) : string :=
  match s with
  | EmptyString => EmptyString
  | String c s' =>
      match rstrip s' with
      | EmptyString => if is_space c then EmptyString else String c EmptyString
      | t => String c t
      end
  end.

Definition strip (s : string) : string := rstrip (lstrip s).

Definition digit_val (c : ascii) : option Z :=
  let n := nat_of_ascii c in
  if (48 <=? n)%nat && (n <=? 57)%nat then Some (Z.of_nat n - 48)%Z else None.

(** One or two decimal digits. *)
Definition one_or_two_digits (s : string) : option Z :=
  match s with
  | String a EmptyString => digit_val a
  | String a (String b EmptyString) =>
      x ← digit_val a; y ← digit_val b; Some (10 * x + y)%Z
  | _ => None
  end.

(** [datetime.strptime(s, "%H:%M").time()]: an hour of one or two digits
    below 24, a colon, a minute of one or two digits below 60, and nothing
    else; anything else raises ValueError. *)
Definition strptime_HM (s : string) : result time :=
  match split_on ":" s with
  | [h; m] =>
      match one_or_two_digits h, one_or_two_digits m with
      | Some h, Some m =>
          if (h <? 24)%Z && (m <? 60)%Z
          then Ok {| hour := h; minute := m; second := 0; microsecond := 0 |}
          else Raise ValueError
      | _, _ => Raise ValueError
      end
  | _ => Raise ValueError
  end.

(** Lines 92-98: the loop over the windows at time [t]. *)
Fixpoint meal_of_windows (t : time) (windows : list (string * string))
  : result string :=
  match windows with
  | [] => Ok "Snack"
  | (meal, window) :: rest =>
      match split_on "-" window with
      | [start_str; end_str] =>
          start ← strptime_HM (strip start_str);
          stop ← strptime_HM (strip end_str);
          if time_le start t && time_lt t stop then Ok meal
          else meal_of_windows t rest
      | _ => Raise ValueError
      end
  end.

Definition MEAL_WINDOWS (env : environ) : list (string * string) :=
  [ ("Breakfast", BREAKFAST_WINDOW env);
    ("Lunch", LUNCH_WINDOW env);
    ("Dinner", DINNER_WINDOW env) ].

Definition current_meal_type (env : environ) : result string :=
  meal_of_windows (now env) (MEAL_WINDOWS env).

(** ** The pipeline of barcode_scanner_v2.py *)

(** [v[0]]: the first item of a list, the first character of a string;
    a dict from JSON has no key 0; the other types are not subscriptable. *)
Definition py_first (v : pyval) : result pyval :=
  match v with
  | VList (x :: _) => Ok x
  | VList [] => Raise IndexError
  | VStr (String c _) => Ok (VStr (String c ""))
  | VStr EmptyString => Raise IndexError
  | VDict _ => Raise KeyError
  | _ => Raise TypeError
  end.

(** [quantity] of lines 264-267: [round(weight_grams / 100, 2)], the
    division being that of doubles. *)
Definition quantity_of (weight_grams : option Q) : Q :=
  match weight_grams with
  | Some w => round2 (float_div w 100)
  | None => 1
  end.

(** The four [suggestion[...]] reads of the log line (lines 344-350). *)
Definition log_macros (suggestion : gmap string pyval) : result unit :=
  if forallb (λ k, bool_decide (is_Some (suggestion !! k)))
             ["calories"; "protein"; "carbs"; "fat"]
  then Ok tt else Raise KeyError.

(** Lines 339-342: [suggestion["name"] += " [REVIEW]"] and
    [suggestion.setdefault("custom_nutrients", {})["needs_review"] = True]. *)
Definition mark_for_review (suggestion : gmap string pyval)
  : result (gmap string pyval) :=
  name ← match suggestion !! "name" with
         | None => Raise KeyError
         | Some (VStr s) => Ok (VStr (s +:+ " [REVIEW]"))
         | Some (VList l) =>
             Ok (VList (l ++ ((λ c, VStr (String c "")) <$>
                                list_ascii_of_string " [REVIEW]"))%list)
         | Some _ => Raise TypeError
         end;
  let suggestion := <["name" := name]> suggestion in
  match suggestion !! "custom_nutrients" with
  | None =>
      Ok (<["custom_nutrients" := VDict {["needs_review" := VBool true]}]> suggestion)
  | Some (VDict d) =>
      Ok (<["custom_nutrients" := VDict (<["needs_review" := VBool true]> d)]> suggestion)
  | Some _ => Raise TypeError
  end.

Section Pipeline.
Context `{PyBuiltins} (env : environ).

Definition http (r : request) : io response :=
  λ sent, (server env sent r, (sent ++ [r])%list).

Definition lookup_barcode (barcode : string) : io pyval :=
  resp ← http (GET (SPARKY_URL env +:+ "/api/foods/openfoodfacts/barcode/" +:+ barcode) [] []);
  if negb (status_code resp =? 200)%Z then mret VNone else
  data ← lift (json resp);
  match data with
  | VDict d =>
      if negb (py_eq_int (default VNone (d !! "status")) 1)
         || negb (bool_decide (is_Some (d !! "product")))
      then mret VNone
      else mret (default VNone (d !! "product"))
  | _ => lift (Raise AttributeError)
  end.

Definition lookup_usda (query : pyval) : io pyval :=
  if String.eqb (USDA_PROVIDER_ID env) "" then mret VNone else
  resp ← http (GET (SPARKY_URL env +:+ "/api/food-integration/usda/search")
                   [("query", query)]
                   [("x-provider-id", USDA_PROVIDER_ID env)]);
  if negb (status_code resp =? 200)%Z then mret VNone else
  data ← lift (json resp);
  foods ← lift (py_get data "foods" (VList []));
  if truthy foods then lift (py_first foods) else mret VNone.

(** [f"{brand} {name}" if brand else name] *)
Definition brand_and_name (brand name : pyval) : pyval :=
  if truthy brand then VStr (py_str brand +:+ " " +:+ py_str name) else name.

(** Lines 327-331: the chain of [or]; a later lookup runs only when the
    earlier ones gave a false value. *)
Definition search_usda (barcode : string) (brand name : pyval) : io pyval :=
  by_barcode ← lookup_usda (VStr barcode);
  if truthy by_barcode then mret by_barcode else
  by_brand ← lookup_usda (brand_and_name brand name);
  if truthy by_brand then mret by_brand else
  lookup_usda name.

(** Lines 325-336. *)
Definition enrich_if_incomplete (barcode : string) (brand name : pyval)
    (suggestion : gmap string pyval) : io (gmap string pyval) :=
  complete ← lift (is_nutrition_complete suggestion);
  if complete : bool then mret suggestion else
  usda_food ← search_usda barcode brand name;
  if truthy usda_food
  then lift (finish (enrich_from_usda suggestion usda_food))
  else mret suggestion.

(** Lines 339-342. *)
Definition flag_if_incomplete (suggestion : gmap string pyval)
  : result (gmap string pyval) :=
  complete ← is_nutrition_complete suggestion;
  if complete : bool then Ok suggestion else mark_for_review suggestion.

Definition create_or_get_food (suggestion : gmap string pyval)
  : io (pyval * pyval) :=
  resp ← http (POST (SPARKY_URL env +:+ "/api/foods") (VDict suggestion));
  if negb ((status_code resp =? 200)%Z || (status_code resp =? 201)%Z)
  then mret (VNone, VNone) else
  data ← lift (json resp);
  variant ← lift (py_get data "default_variant" (VDict ∅));
  food_id ← lift (py_get data "id" VNone);
  variant_id ← lift (py_get variant "id" VNone);
  mret (food_id, variant_id).

(** The body of the diary entry (lines 268-275). *)
Definition entry_body (food_id variant_id : pyval) (meal_type : string)
    (weight_grams : option Q) : gmap string pyval :=
  list_to_map
    [ ("food_id", food_id);
      ("variant_id", variant_id);
      ("meal_type", VStr meal_type);
      ("quantity", VNum (quantity_of weight_grams));
      ("unit", VStr "serving");
      ("entry_date", VStr (today env)) ].

Definition log_food_entry (food_id variant_id : pyval) (meal_type : string)
    (weight_grams : option Q) : io bool :=
  resp ← http (POST (SPARKY_URL env +:+ "/api/food-entries")
                    (VDict (entry_body food_id variant_id meal_type weight_grams)));
  mret ((status_code resp =? 200)%Z || (status_code resp =? 201)%Z).

(** What the [try] block of [get_scale_weight] computes from the response:
    the weight when the status is 200 and the value is positive. *)
Definition read_weight (scale_url : string) : io (option Q) :=
  resp ← http (GET scale_url [] []);
  if (status_code resp =? 200)%Z then
    data ← lift (json resp);
    value ← lift (py_get data "value" (VNum 0));
    weight ← lift (py_float value);
    mret (if Qlt_bool 0 weight then Some weight else None)
  else mret None.

Definition get_scale_weight : io (option Q) :=
  match SCALE_URL env with
  | None | Some EmptyString => mret None
  | Some scale_url => try_except (read_weight scale_url) (mret None)
  end.

Definition process_barcode (barcode : string) (meal_type : option string)
  : io unit :=
  meal_type ← match meal_type with
              | None => lift (current_meal_type env)
              | Some m => mret m
              end;
  product ← lookup_barcode barcode;
  if negb (truthy product) then mret tt else
  name ← lift (py_get product "product_name" (VStr "?"));
  brand ← lift (py_get product "brands" (VStr ""));
  suggestion ← lift (build_food_suggestion product);
  suggestion ← enrich_if_incomplete barcode brand name suggestion;
  suggestion ← lift (flag_if_incomplete suggestion);
  _ ← lift (log_macros suggestion);
  ids ← create_or_get_food suggestion;
  if negb (truthy ids.1) || negb (truthy ids.2) then mret tt else
  weight ← get_scale_weight;
  _ ← log_food_entry ids.1 ids.2 meal_type weight;
  mret tt.

(** The parts of [process_barcode], named for the statements below: the
    meal slot of lines 309-310, the record of the scan of lines 313-336 (None
    when the barcode is not found), and lines 344-366, which create the
    food and log the entry. *)
Definition resolve_meal (meal_type : option string) : result string :=
  match meal_type with
  | None => current_meal_type env
  | Some m => Ok m
  end.

Definition gather_record (barcode : string) : io (option (gmap string pyval)) :=
  product ← lookup_barcode barcode;
  if negb (truthy product) then mret None else
  name ← lift (py_get product "product_name" (VStr "?"));
  brand ← lift (py_get product "brands" (VStr ""));
  suggestion ← lift (build_food_suggestion product);
  suggestion ← enrich_if_incomplete barcode brand name suggestion;
  mret (Some suggestion).

Definition create_and_log (meal_type : string) (suggestion : gmap string pyval)
  : io unit :=
  _ ← lift (log_macros suggestion);
  ids ← create_or_get_food suggestion;
  if negb (truthy ids.1) || negb (truthy ids.2) then mret tt else
  weight ← get_scale_weight;
  _ ← log_food_entry ids.1 ids.2 meal_type weight;
  mret tt.

(** The simpler variant as the specification describes it: the pipeline
    above with steps 3 and 4 of the enrichment (the USDA lookup and the
    review flag, lines 324-342) left out. *)
Definition process_barcode_without_steps_3_4 (barcode : string)
    (meal_type : option string) : io unit :=
  meal_type ← lift (resolve_meal meal_type);
  product ← lookup_barcode barcode;
  if negb (truthy product) then mret tt else
  name ← lift (py_get product "product_name" (VStr "?"));
  brand ← lift (py_get product "brands" (VStr ""));
  suggestion ← lift (build_food_suggestion product);
  create_and_log meal_type suggestion.

(** The requests of the primary and of the secondary lookup. *)
Definition off_request (barcode : string) : request :=
  GET (SPARKY_URL env +:+ "/api/foods/openfoodfacts/barcode/" +:+ barcode) [] [].

Definition usda_request (query : pyval) : request :=
  GET (SPARKY_URL env +:+ "/api/food-integration/usda/search")
      [("query", query)] [("x-provider-id", USDA_PROVIDER_ID env)].

End Pipeline.


(** A primary lookup that finds nothing: a status other than 200, or a
    body whose status flag is not 1 or that has no product. *)
Definition is_not_found (answer : result response) : bool :=
  match answer with
  | Ok resp =>
      negb (status_code resp =? 200)%Z
      || match json resp with
         | Ok (VDict d) =>
             negb (py_eq_int (default VNone (d !! "status")) 1)
             || negb (bool_decide (is_Some (d !! "product")))
         | _ => false
         end
  | Raise _ => false
  end.

(** ** The pipeline of barcode_scanner.py, where it differs *)

Module Legacy.
Section Legacy.
Context `{PyBuiltins} (env : environ).

(** The literal of lines 150-161. *)
Definition base_suggestion (name brand barcode : pyval) : gmap string pyval :=
  list_to_map
    [ ("name", name);
      ("brand", brand);
      ("barcode", barcode);
      ("provider_type", VStr "openfoodfacts");
      ("provider_external_id", VNone);
      ("shared_with_public", VBool false);
      ("glycemic_index", VNone);
      ("custom_nutrients", VDict ∅);
      ("serving_size", VNum 100);
      ("serving_unit", VStr "g") ].

Definition build_food_suggestion (product : pyval)
  : result (gmap string pyval) :=
  nutriments ← py_get product "nutriments" (VDict ∅);
  product_name ← py_get product "product_name" VNone;
  brands ← py_get product "brands" VNone;
  code ← py_get product "code" VNone;
  let suggestion :=
    base_suggestion (py_or product_name (VStr "Unknown Product"))
                    (py_or brands (VStr "")) (py_or code (VStr "")) in
  finish (for_each (populate_step nutriments) suggestion NUTRIENT_MAP).

Definition create_or_get_food (suggestion : gmap string pyval) : io pyval :=
  resp ← http env (POST (SPARKY_URL env +:+ "/api/foods/create-or-get")
                        (VDict {["foodSuggestion" := VDict suggestion]}));
  if negb (status_code resp =? 200)%Z then mret VNone else
  data ← lift (json resp);
  lift (py_get data "foodId" VNone).

Definition get_default_variant (food_id : pyval) : io pyval :=
  resp ← http env (GET (SPARKY_URL env +:+ "/api/foods/food-variants")
                       [("food_id", food_id)] []);
  if negb (status_code resp =? 200)%Z then mret VNone else
  variants ← lift (json resp);
  if negb (truthy variants) then mret VNone else
  first ← lift (py_first variants);
  lift (py_get first "id" VNone).

Definition process_barcode (barcode : string) (meal_type : option string)
  : io unit :=
  meal_type ← match meal_type with
              | None => lift (current_meal_type env)
              | Some m => mret m
              end;
  product ← lookup_barcode env barcode;
  if negb (truthy product) then mret tt else
  name ← lift (py_get product "product_name" (VStr "?"));
  brand ← lift (py_get product "brands" (VStr ""));
  suggestion ← lift (build_food_suggestion product);
  _ ← lift (log_macros suggestion);
  food_id ← create_or_get_food suggestion;
  if negb (truthy food_id) then mret tt else
  variant_id ← get_default_variant food_id;
  if negb (truthy variant_id) then mret tt else
  weight ← get_scale_weight env;
  _ ← log_food_entry env food_id variant_id meal_type weight;
  mret tt.

End Legacy.
End Legacy.

(** ** Reading barcodes from the scanner *)

(** An [evdev] input event; for a key event [value] is the key state and
    [code] the scan code. *)
Record input_event : Type := {
  ev_type : Z;
  code : Z;
  value : Z;
}.

(** The constants of the Linux input layer the reader uses. *)
Definition EV_KEY : Z := 1.
Definition key_down : Z := 1.
Definition KEY_ENTER : Z := 28.

Definition KEY_MAP : list (Z * string) :=
  [ (11, "0"); (2, "1"); (3, "2"); (4, "3"); (5, "4");
    (6, "5"); (7, "6"); (8, "7"); (9, "8"); (10, "9") ]%Z.

(** [KEY_MAP[scancode]] when [scancode in KEY_MAP]. *)
Definition key_char (scancode : Z) : option string :=
  snd <$> List.find (λ e, (e.1 =? scancode)%Z) KEY_MAP.

(** Lines 409-422: the loop over the events read from the device, with the
    buffer of characters typed since the last Enter.  [process] is the
    pipeline run on a finished barcode; an exception it raises ends the
    loop. *)
Fixpoint read_loop (process : string → io unit) (buffer : list string)
    (events : list input_event) : io unit :=
  match events with
  | [] => mret tt
  | event :: rest =>
      if negb (ev_type event =? EV_KEY)%Z then read_loop process buffer rest
      else if negb (value event =? key_down)%Z then read_loop process buffer rest
      else if (code event =? KEY_ENTER)%Z then
        let barcode := String.concat "" buffer in
        _ ← (if negb (String.eqb barcode "") then process barcode else mret tt);
        read_loop process [] rest
      else
        match key_char (code event) with
        | Some c => read_loop process (buffer ++ [c])%list rest
        | None => read_loop process buffer rest
        end
  end.

Definition read_barcodes_evdev (process : string → io unit)
    (events : list input_event) : io unit :=
  read_loop process [] events.

(** ** Start-up: the .env file, the configuration, the input source *)

(** [s.lstrip(chars)] and [s.rstrip(chars)] for the characters [p] holds of. *)
Fixpoint lstrip_of (p : ascii → bool) (s : string) : string :=
  match s with
  | String c s' => if p c then lstrip_of p s' else s
  | EmptyString => EmptyString
  end.

Fixpoint rstrip_of (p : ascii → bool) (s : string) : string :=
  match s with
  | EmptyString => EmptyString
  | String c s' =>
      match rstrip_of p s' with
      | EmptyString => if p c then EmptyString else String c EmptyString
      | t => String c t
      end
  end.

Definition strip_of (p : ascii → bool) (s : string) : string :=
  rstrip_of p (lstrip_of p s).

(** The two characters of the argument of [strip] on line 46: the double
    and the single quote. *)
Definition is_quote (c : ascii) : bool :=
  Ascii.eqb c (ascii_of_nat 34) || Ascii.eqb c (ascii_of_nat 39).

Definition is_slash (c : ascii) : bool := Ascii.eqb c "/".

(** [s.partition(sep)] without its middle component: the text before the
    first [sep] and the text after it, the whole text and nothing when
    there is no [sep]. *)
Fixpoint partition_at (sep : ascii) (s : string) : string * string :=
  match s with
  | EmptyString => (EmptyString, EmptyString)
  | String c s' =>
      if Ascii.eqb c sep then (EmptyString, s')
      else let '(before, after) := partition_at sep s' in (String c before, after)
  end.

(** [line.startswith("#")] *)
Definition is_comment (line : string) : bool :=
  match line with
  | String c _ => Ascii.eqb c "#"
  | EmptyString => false
  end.

(** Lines 41-47: what a line of the file defines, if anything. *)
Definition parse_env_line (line : string) : option (string * string) :=
  let line := strip line in
  if String.eqb line "" || is_comment line then None
  else
    let '(key, value) := partition_at "=" line in
    let key := strip key in
    let value := strip_of is_quote (strip value) in
    if String.eqb key "" then None else Some (key, value).

Definition has_nul (s : string) : bool :=
  existsb (λ c, Ascii.eqb c zero) (list_ascii_of_string s).

(** [os.environ.setdefault(key, value)]: a variable that is set stays as it
    is; setting a new one raises ValueError on an embedded null character. *)
Definition environ_setdefault (vars : gmap string string) (key value : string)
  : result (gmap string string) :=
  match vars !! key with
  | Some _ => Ok vars
  | None =>
      if has_nul key || has_nul value then Raise ValueError
      else Ok (<[key := value]> vars)
  end.

Definition dotenv_step (vars : gmap string string) (line : string)
  : result (gmap string string) :=
  match parse_env_line line with
  | Some (key, value) => environ_setdefault vars key value
  | None => Ok vars
  end.

(** [load_dotenv(path)] on the process environment [vars]; [file] is None
    when the path is not a file, else the lines of the file.  The result is
    the environment as the call leaves it and the exception it raised. *)
Definition load_dotenv (file : option (list string)) (vars : gmap string string)
  : gmap string string * option exn :=
  match file with
  | None => (vars, None)
  | Some lines => for_each dotenv_step vars lines
  end.

(** [os.environ.get(name, dflt)] *)
Definition getenv (vars : gmap string string) (name dflt : string) : string :=
  default dflt (vars !! name).

(** Lines 53-67 of barcode_scanner_v2.py: the module-level settings read
    from the environment; [inl] is the message of [sys.exit].  The clock,
    the date and the server are not settings and are passed through. *)
Definition configure (vars : gmap string string) (clock : time) (date : string)
    (srv : list request → request → result response)
  : string + environ * string :=
  if String.eqb (getenv vars "SPARKY_API_KEY" "") ""
  then inl "ERROR: SPARKY_API_KEY is not set. Export it or add to .env"
  else
    inr ({| SPARKY_URL := rstrip_of is_slash (getenv vars "SPARKY_URL" "http://localhost:3010");
            USDA_PROVIDER_ID := getenv vars "USDA_PROVIDER_ID" "";
            BREAKFAST_WINDOW := getenv vars "BREAKFAST_WINDOW" "05:00-10:00";
            LUNCH_WINDOW := getenv vars "LUNCH_WINDOW" "11:00-13:00";
            DINNER_WINDOW := getenv vars "DINNER_WINDOW" "14:00-16:00";
            SCALE_URL := vars !! "SCALE_URL";
            now := clock;
            today := date;
            server := srv |},
         getenv vars "SCANNER_DEVICE" "").

(** What stops the start-up: the exceptions [main] names, and any other. *)
Inductive start_exn : Type :=
| FileNotFoundError
| PermissionError
| SystemExit (message : string)
| OtherError.

(** The input devices: [evdev.list_devices()] and, for each path, what
    [evdev.InputDevice(path)] gives: an exception, or a device with its
    name (which may be None). *)
Record devices : Type := {
  list_devices : list string;
  open_device : string → start_exn + option string;
}.

(** [s.lower()] *)
Definition str_lower (s : string) : string :=
  string_of_list_ascii (to_lower <$> list_ascii_of_string s).

(** [needle in hay] *)
Fixpoint is_substring (needle hay : string) : bool :=
  String.prefix needle hay
  || match hay with
     | String _ hay' => is_substring needle hay'
     | EmptyString => false
     end.

(** Lines 376-378: the test on the name of a device. *)
Definition looks_like_scanner (name : option string) : bool :=
  let name_lower := str_lower (default "" name) in
  existsb (λ kw, is_substring kw name_lower) ["barcode"; "scanner"; "hid"].

(** Line 374: every listed device is opened before any name is looked at. *)
Fixpoint open_all (world : devices) (paths : list string)
  : start_exn + list (string * option string) :=
  match paths with
  | [] => inr []
  | path :: rest =>
      match open_device world path with
      | inl e => inl e
      | inr name =>
          match open_all world rest with
          | inl e => inl e
          | inr opened => inr ((path, name) :: opened)
          end
      end
  end.

Definition find_scanner_device (world : devices) : start_exn + string :=
  match open_all world (list_devices world) with
  | inl e => inl e
  | inr opened =>
      match List.find (λ dev, looks_like_scanner dev.2) opened with
      | Some dev => inr dev.1
      | None =>
          inl (SystemExit "Set SCANNER_DEVICE in .env to the correct /dev/input/eventN path")
      end
  end.

(** Lines 427-437: the fallback reader, on the lines typed until the end
    of the input. *)
Fixpoint read_barcodes_stdin (process : string → io unit) (lines : list string)
  : io unit :=
  match lines with
  | [] => mret tt
  | typed_line :: rest =>
      let line := strip typed_line in
      _ ← (if negb (String.eqb line "") then process line else mret tt);
      read_barcodes_stdin process rest
  end.

(** Lines 449-459: the input source [main] settles on. *)
Inductive input_source : Type :=
| FromDevice (path : string)
| FromStdin.

Definition choose_input (scanner_device : string) (world : devices)
  : start_exn + input_source :=
  if negb (String.eqb scanner_device "") then inr (FromDevice scanner_device)
  else
    match find_scanner_device world with
    | inr path => inr (FromDevice path)
    | inl FileNotFoundError | inl PermissionError | inl (SystemExit _) => inr FromStdin
    | inl e => inl e
    end.

(** [main], given the events each device delivers and the lines typed on
    the standard input: the reader opens the device it is given, which can
    fail, and runs [process] on each barcode. *)
Definition main (scanner_device : string) (world : devices)
    (events_of : string → list input_event) (lines : list string)
    (process : string → io unit) : start_exn + io unit :=
  match choose_input scanner_device world with
  | inl e => inl e
  | inr FromStdin => inr (read_barcodes_stdin process lines)
  | inr (FromDevice path) =>
      match open_device world path with
      | inl e => inl e
      | inr _ => inr (read_barcodes_evdev process (events_of path))
      end
  end.

(** ** The data of the specification *)

(** A food record: every recognized nutrient key holds a number. *)
Definition is_nutrient_record (suggestion : gmap string pyval) : bool :=
  forallb (λ key, match suggestion !! key with Some (VNum _) => true | _ => false end)
          nutrient_keys.

(** The number a field gives: none when the field is absent or null, else
    what [float] makes of it. *)
Definition number_of `{PyBuiltins} (v : option pyval) : option Q :=
  match v with
  | None => None
  | Some x =>
      if is_none x then None
      else match py_float x with Ok q => Some q | Raise _ => None end
  end.

(** A field that is absent, null, or a value [float] accepts. *)
Definition is_number_or_null `{PyBuiltins} (v : option pyval) : bool :=
  match v with
  | None => true
  | Some x =>
      is_none x || match py_float x with Ok _ => true | Raise _ => false end
  end.

Definition is_text_or_null (v : option pyval) : bool :=
  match v with None | Some VNone | Some (VStr _) => true | _ => false end.

(** A per-100g nutrient block: absent, or an object whose recognized
    fields are numbers (or null). *)
Definition is_nutrient_block `{PyBuiltins} (v : option pyval) : bool :=
  match v with
  | None => true
  | Some (VDict block) =>
      forallb (λ off_key, is_number_or_null (block !! off_key)) NUTRIENT_MAP.*1
  | Some _ => false
  end.

(** The product object of the primary source: name and brand are text,
    the measured and the estimated block are nutrient blocks. *)
Definition is_product_record `{PyBuiltins} (product : pyval) : bool :=
  match product with
  | VDict d =>
      is_text_or_null (d !! "product_name")
      && is_text_or_null (d !! "brands")
      && is_nutrient_block (d !! "nutriments")
      && is_nutrient_block (d !! "nutriments_estimated")
  | _ => false
  end.

(** The number a block of the product gives for a field, if any. *)
Definition block_number `{PyBuiltins} (product : pyval) (block off_key : string)
  : option Q :=
  match product with
  | VDict d =>
      match d !! block with
      | Some (VDict b) => number_of (b !! off_key)
      | _ => None
      end
  | _ => None
  end.

(** Step 1 of the enrichment: the measured value rounded, or zero. *)
Definition measured `{PyBuiltins} (product : pyval) (off_key : string) : Q :=
  match block_number product "nutriments" off_key with
  | Some q => round2 q
  | None => 0
  end.

(** Step 2: a value still zero takes a strictly positive estimate. *)
Definition with_estimate `{PyBuiltins} (product : pyval) (off_key : string)
    (current : Q) : Q :=
  if Qeq_bool current 0 then
    match block_number product "nutriments_estimated" off_key with
    | Some q => if Qlt_bool 0 q then round2 q else current
    | None => current
    end
  else current.

(** A window of the configuration once parsed: its name, start and end. *)
Definition parse_window (window : string) : result (time * time) :=
  match split_on "-" window with
  | [start_str; end_str] =>
      start ← strptime_HM (strip start_str);
      stop ← strptime_HM (strip end_str);
      Ok (start, stop)
  | _ => Raise ValueError
  end.

(** [start ≤ t < end] *)
Definition contains (w : string * (time * time)) (t : time) : bool :=
  time_le w.2.1 t && time_lt t w.2.2.

(** The resolver as the specification words it: the name of the first
    window that contains [t], the default category when there is none. *)
Definition resolveMeal (windows : list (string * (time * time))) (t : time) : string :=
  match List.find (λ w, contains w t) windows with
  | Some w => w.1
  | None => "Snack"
  end.

(** The reader as a list of scans: the barcodes the loop hands over, in
    order, when it starts with [buffer]. *)
Definition is_key_down (event : input_event) : bool :=
  (ev_type event =? EV_KEY)%Z && (value event =? key_down)%Z.

Definition is_enter_down (event : input_event) : bool :=
  is_key_down event && (code event =? KEY_ENTER)%Z.

(** The characters a run of events types: the digits of its key-down
    events, other keys and other events left out. *)
Definition typed (events : list input_event) : list string :=
  omap (λ event, if is_key_down event then key_char (code event) else None) events.

Definition nonempty (barcode : string) : list string :=
  if String.eqb barcode "" then [] else [barcode].

Fixpoint scans (buffer : list string) (events : list input_event) : list string :=
  match events with
  | [] => []
  | event :: rest =>
      if is_enter_down event
      then (nonempty (String.concat "" buffer) ++ scans [] rest)%list
      else scans (buffer ++ typed [event])%list rest
  end.

Fixpoint run_each (process : string → io unit) (barcodes : list string) : io unit :=
  match barcodes with
  | [] => mret tt
  | barcode :: rest => _ ← process barcode; run_each process rest
  end.

Definition is_digit (c : ascii) : bool :=
  let n := nat_of_ascii c in (48 <=? n)%nat && (n <=? 57)%nat.

Definition is_digits (s : string) : bool :=
  forallb is_digit (list_ascii_of_string s).

(** A key the fills must leave alone: one outside the nutrient keys, or
    one that already holds a value different from zero. *)
Definition protected (s : gmap string pyval) (k : string) : Prop :=
  k ∉ nutrient_keys ∨ ∃ v, s !! k = Some v ∧ py_is_zero v = false.

Definition keeps (k : string) (s s' : gmap string pyval) : Prop :=
  protected s k → s' !! k = s !! k.

(** The food object of the secondary source: its nutrient list, when
    present, is a list of objects whose id can be looked up in
    [USDA_NUTRIENT_MAP] and whose value is a number (or null). *)
Definition is_usda_nutrient `{PyBuiltins} (nutrient : pyval) : bool :=
  match nutrient with
  | VDict n =>
      match n !! "nutrientId" with
      | Some (VList _) | Some (VDict _) => false
      | _ => true
      end
      && is_number_or_null (n !! "value")
  | _ => false
  end.

Definition is_usda_food `{PyBuiltins} (food : pyval) : bool :=
  match food with
  | VDict f =>
      match f !! "foodNutrients" with
      | None => true
      | Some (VList nutrients) => forallb is_usda_nutrient nutrients
      | Some _ => false
      end
  | _ => false
  end.

Definition food_nutrients (food : pyval) : list pyval :=
  match food with
  | VDict f =>
      match f !! "foodNutrients" with
      | Some (VList nutrients) => nutrients
      | _ => []
      end
  | _ => []
  end.

(** The strictly positive value an entry of the nutrient list offers for
    [key], if it offers one. *)
Definition usda_value `{PyBuiltins} (key : string) (nutrient : pyval) : option Q :=
  match nutrient with
  | VDict n =>
      match usda_key (default VNone (n !! "nutrientId")) with
      | Ok (Some key') =>
          if String.eqb key' key then
            match number_of (n !! "value") with
            | Some q => if Qlt_bool 0 q then Some q else None
            | None => None
            end
          else None
      | _ => None
      end
  | _ => None
  end.

Definition candidates `{PyBuiltins} (key : string) (nutrients : list pyval) : list Q :=
  omap (usda_value key) nutrients.

(** Filling one key from the values offered for it, in order: a value is
    taken, rounded, while the key is still zero. *)
Fixpoint first_writer_wins (current : option pyval) (offered : list Q) : option pyval :=
  match offered with
  | [] => current
  | q :: rest =>
      if py_is_zero (default (VNum 0) current)
      then first_writer_wins (Some (VNum (round2 q))) rest
      else current
  end.

(** What a fill may do to a record: a key is as before, or it is a
    nutrient key and holds a number. *)
Definition fills (s s' : gmap string pyval) : Prop :=
  ∀ k, s' !! k = s !! k ∨ (k ∈ nutrient_keys ∧ ∃ q, s' !! k = Some (VNum q)).

(** The record of a scan on its way to the catalog: the nutrient keys hold
    numbers, the name is text and the auxiliary map is still empty. *)
Definition scan_record (s : gmap string pyval) : Prop :=
  is_nutrient_record s = true
  ∧ (∃ name, s !! "name" = Some (VStr name))
  ∧ s !! "custom_nutrients" = Some (VDict ∅).

(** A one-character string holding a decimal digit. *)
Definition digit_char (c : string) : Prop :=
  ∃ a, c = String a EmptyString ∧ is_digit a = true.

(** The record with the review marker and the review flag. *)
Definition flagged (s : gmap string pyval) (name : string) : gmap string pyval :=
  <["custom_nutrients" := VDict {["needs_review" := VBool true]}]>
    (<["name" := VStr (name +:+ " [REVIEW]")]> s).

(** Text that the upper-case normalisation leaves as it is. *)
Definition keeps_case `{PyBuiltins} (v : pyval) : bool :=
  match v with
  | VStr s => negb (str_isupper s)
  | _ => false
  end.

(** A product whose estimated block is absent or empty, and whose name and
    brand (with their defaults) are text not entirely in upper case. *)
Definition is_plain_product `{PyBuiltins} (product : pyval) : bool :=
  match product with
  | VDict d =>
      negb (truthy (default (VDict ∅) (d !! "nutriments_estimated")))
      && keeps_case (py_or (default VNone (d !! "product_name")) (VStr "Unknown Product"))
      && keeps_case (py_or (default VNone (d !! "brands")) (VStr ""))
  | _ => false
  end.

Definition plain_builtins : PyBuiltins :=
  {| float_of_str := λ _, None; repr_other := λ _, "";
     isupper_other := λ _, false; title_other := λ text, text |}.

(** ** The data of the start-up and of the readers *)

(** The first, resp. the last, character of [s] is one [p] holds of. *)
Definition starts_with (p : ascii → bool) (s : string) : bool :=
  match s with
  | String c _ => p c
  | EmptyString => false
  end.

Fixpoint ends_with (p : ascii → bool) (s : string) : bool :=
  match s with
  | EmptyString => false
  | String c EmptyString => p c
  | String _ s' => ends_with p s'
  end.

(** Text with no character of [p] at either end. *)
Definition trimmed (p : ascii → bool) (s : string) : Prop :=
  starts_with p s = false ∧ ends_with p s = false.

Definition has_char (c : ascii) (s : string) : bool :=
  existsb (Ascii.eqb c) (list_ascii_of_string s).

(** The barcodes the fallback reader hands over: the lines typed, stripped,
    those that are empty left out. *)
Definition typed_barcodes (lines : list string) : list string :=
  flat_map (λ line, nonempty (strip line)) lines.

(** The value a file gives a variable: that of the first line defining it. *)
Definition file_value (lines : list string) (name : string) : option string :=
  snd <$> List.find (λ kv, String.eqb kv.1 name) (omap parse_env_line lines).

(** Line 51 followed by lines 53-67: the file is loaded into the
    environment, then the settings are read from it. *)
Definition start_up (file : option (list string)) (vars : gmap string string)
    (clock : time) (date : string) (srv : list request → request → result response)
  : exn + (string + environ * string) :=
  match load_dotenv file vars with
  | (vars', None) => inr (configure vars' clock date srv)
  | (_, Some e) => inl e
  end.

(** What the environment and then the file give a variable, and the
    setting read from it with a default. *)
Definition effective (file : option (list string)) (vars : gmap string string)
    (name : string) : option string :=
  match vars !! name with
  | Some v => Some v
  | None => lines ← file; file_value lines name
  end.

Definition setting (file : option (list string)) (vars : gmap string string)
    (name dflt : string) : string :=
  default dflt (effective file vars name).

(** A device that opens, and one that opens under a name the detection
    passes over. *)
Definition opens (world : devices) (path : string) : Prop :=
  ∃ name, open_device world path = inr name.

Definition passed_over (world : devices) (path : string) : Prop :=
  ∃ name, open_device world path = inr name ∧ looks_like_scanner name = false.

(** The requests of a scan after the lookups: the food sent to the
    catalog and the entry sent to the diary. *)
Definition catalog_request (env : environ) (record : gmap string pyval) : request :=
  POST (SPARKY_URL env +:+ "/api/foods") (VDict record).

Definition diary_request (env : environ) (food_id variant_id : pyval) (meal : string)
    (weight : option Q) : request :=
  POST (SPARKY_URL env +:+ "/api/food-entries")
       (VDict (entry_body env food_id variant_id meal weight)).

(** At most [n] requests, all of the secondary lookup, none when it is
    switched off. *)
Definition usda_lookups (env : environ) (n : nat) (l : list request) : Prop :=
  (length l ≤ n)%nat
  ∧ Forall (λ r, ∃ query, r = usda_request env query) l
  ∧ (USDA_PROVIDER_ID env = "" → l = []).

(** No request, or the one reading of the configured scale. *)
Definition scale_lookup (env : environ) (l : list request) : Prop :=
  l = [] ∨ ∃ url, SCALE_URL env = Some url ∧ url ≠ "" ∧ l = [GET url [] []].

(** What a scan sends after its lookups: nothing, or the food alone, or
    the food, the reading of the scale and the diary entry, whose two ids
    are not empty. *)
Definition after_lookups (env : environ) (meal : string) (tail : list request) : Prop :=
  tail = []
  ∨ ∃ record,
      tail = [catalog_request env record]
      ∨ ∃ food_id variant_id weight scale,
          truthy food_id = true ∧ truthy variant_id = true
          ∧ scale_lookup env scale
          ∧ tail = (catalog_request env record :: scale
                    ++ [diary_request env food_id variant_id meal weight])%list.

(** The two catalog requests of barcode_scanner.py and what a scan of that
    file sends after its lookup. *)
Definition legacy_catalog_request (env : environ) (record : gmap string pyval) : request :=
  POST (SPARKY_URL env +:+ "/api/foods/create-or-get")
       (VDict {["foodSuggestion" := VDict record]}).

Definition variants_request (env : environ) (food_id : pyval) : request :=
  GET (SPARKY_URL env +:+ "/api/foods/food-variants") [("food_id", food_id)] [].

Definition legacy_after_lookup (env : environ) (meal : string) (tail : list request) : Prop :=
  tail = []
  ∨ ∃ record,
      tail = [legacy_catalog_request env record]
      ∨ ∃ food_id,
          truthy food_id = true
          ∧ (tail = [legacy_catalog_request env record; variants_request env food_id]
             ∨ ∃ variant_id weight scale,
                 truthy variant_id = true
                 ∧ scale_lookup env scale
                 ∧ tail =
                     (legacy_catalog_request env record :: variants_request env food_id
                      :: scale ++ [diary_request env food_id variant_id meal weight])%list).

(** The exception the primary lookup ends with, if any: that of the
    connection, that of a body that is not JSON, or that of a JSON body
    that is not an object. *)
Definition lookup_failure (env : environ) (sent : list request) (barcode : string)
  : option exn :=
  match server env sent (off_request env barcode) with
  | Raise e => Some e
  | Ok resp =>
      if (status_code resp =? 200)%Z then
        match json resp with
        | Raise e => Some e
        | Ok (VDict _) => None
        | Ok _ => Some AttributeError
        end
      else None
  end.

(** A key-down event of a key the reader listens to: Enter, or a key of
    [KEY_MAP]. *)
Definition is_scanner_key (event : input_event) : bool :=
  is_key_down event
  && ((code event =? KEY_ENTER)%Z || bool_decide (is_Some (key_char (code event)))).




(** Half the spacing of the subnormal doubles, and the relative error of
    one rounding to a double. *)
Definition tiny : Q := pow2 (-1075).

Definition half_ulp : Q := 1 # 9007199254740992.

(** The key press of a digit character: the scan code [KEY_MAP] maps to it. *)
Definition key_press (scancode : Z) : input_event :=
  {| ev_type := EV_KEY; code := scancode; value := key_down |}.

Definition scancode_of (c : ascii) : Z :=
  let n := Z.of_nat (nat_of_ascii c) in
  if (n =? 48)%Z then 11 else (n - 47)%Z.

Definition key_presses (barcode : string) : list input_event :=
  (λ c, key_press (scancode_of c)) <$> list_ascii_of_string barcode.

(** ** Sample data *)

Definition dict (entries : list (string * pyval)) : pyval := VDict (list_to_map entries).

(** A product with an upper-case name, a measured and an estimated block. *)
Definition cola : pyval :=
  dict [ ("product_name", VStr "COLA ZERO");
         ("brands", VStr "Acme");
         ("code", VStr "5000112548167");
         ("nutriments", dict [ ("energy-kcal_100g", VNum 42);
                               ("proteins_100g", VNum 1.234);
                               ("fat_100g", VNum 0) ]);
         ("nutriments_estimated", dict [ ("fat_100g", VNum 2.5);
                                         ("sugars_100g", VNum 0) ]) ].

(** A product without macros and without estimates. *)
Definition mystery : pyval :=
  dict [ ("product_name", VStr "Mystery bar");
         ("code", VStr "4000000000006");
         ("nutriments", dict [ ("energy-kcal_100g", VNum 10) ]) ].

Definition answer (status : Z) (body : pyval) : result response :=
  Ok {| status_code := status; json := Ok body |}.

(** A server that knows one product, creates any food and accepts any
    diary entry; the scale reads zero. *)
Definition sample_server (product : pyval) (sent : list request) (r : request)
  : result response :=
  match r with
  | GET url _ _ =>
      if String.prefix "http://sparky/api/foods/openfoodfacts/barcode/" url
      then answer 200 (dict [("status", VNum 1); ("product", product)])
      else if String.eqb url "http://sparky/api/foods/food-variants"
      then answer 200 (VList [dict [("id", VStr "v1")]])
      else if String.eqb url "http://scale/sensor/weight"
      then answer 200 (dict [("value", VNum 0)])
      else answer 404 VNone
  | POST url _ =>
      if String.eqb url "http://sparky/api/foods"
      then answer 201 (dict [("id", VStr "f1");
                             ("default_variant", dict [("id", VStr "v1")])])
      else if String.eqb url "http://sparky/api/foods/create-or-get"
      then answer 200 (dict [("foodId", VStr "f1")])
      else if String.eqb url "http://sparky/api/food-entries"
      then answer 201 (dict [])
      else answer 404 VNone
  end.

Definition sample_env (product : pyval) : environ :=
  {| SPARKY_URL := "http://sparky";
     USDA_PROVIDER_ID := "";
     BREAKFAST_WINDOW := "05:00-10:00";
     LUNCH_WINDOW := "11:00-13:00";
     DINNER_WINDOW := "14:00-16:00";
     SCALE_URL := Some "http://scale/sensor/weight";
     now := {| hour := 12; minute := 30; second := 15; microsecond := 0 |};
     today := "2024-05-01";
     server := sample_server product |}.

(** A server that knows no product. *)
Definition empty_env : environ :=
  {| SPARKY_URL := "http://sparky";
     USDA_PROVIDER_ID := "";
     BREAKFAST_WINDOW := "05:00-10:00";
     LUNCH_WINDOW := "11:00-13:00";
     DINNER_WINDOW := "14:00-16:00";
     SCALE_URL := None;
     now := {| hour := 12; minute := 30; second := 15; microsecond := 0 |};
     today := "2024-05-01";
     server := λ _ _, answer 200 (dict [("status", VNum 0)]) |}.


(** A server that cannot be reached. *)
Definition offline_env : environ :=
  {| SPARKY_URL := "http://sparky";
     USDA_PROVIDER_ID := "";
     BREAKFAST_WINDOW := "05:00-10:00";
     LUNCH_WINDOW := "11:00-13:00";
     DINNER_WINDOW := "14:00-16:00";
     SCALE_URL := None;
     now := {| hour := 12; minute := 30; second := 15; microsecond := 0 |};
     today := "2024-05-01";
     server := λ _ _, Raise RequestException |}.

(** A time on the hour. *)
Definition on_the_hour (h : Z) : time :=
  {| hour := h; minute := 0; second := 0; microsecond := 0 |}.

(** A record with protein and no fat. *)
Definition sample_record : gmap string pyval :=
  list_to_map (("protein", VNum 5) :: ((λ key, (key, VNum 0)) <$> nutrient_keys)).

Definition blank_record : gmap string pyval :=
  list_to_map ((λ key, (key, VNum 0)) <$> nutrient_keys).

Definition sample_food : pyval :=
  dict [ ("foodNutrients",
          VList [ dict [("nutrientId", VNum 1003); ("value", VNum 7)];
                  dict [("nutrientId", VNum 1004); ("value", VNum 3.456)] ]) ].


(** The scan found a product and built a record. *)
Definition has_record (r : result (option (gmap string pyval)) * list request) : bool :=
  match r.1 with Ok (Some _) => true | _ => false end.

Definition request_url (r : request) : string :=
  match r with GET url _ _ | POST url _ => url end.

(** * Properties *)

Section EnrichmentFacts.
Context `{PyBuiltins}.

Lemma NoDup_nutrient_keys : NoDup nutrient_keys.
Proof. apply (bool_decide_unpack _). vm_compute. exact I. Qed.

Lemma for_each_ok {A B : Type} (body : A → B → result A) (x : B) (l : list B) (acc acc' : A) :
  body acc x = Ok acc' → for_each body acc (x :: l) = for_each body acc' l.
Proof. intros Hb. simpl. by rewrite Hb. Qed.

Lemma truthy_dict_false (d : gmap string pyval) : truthy (VDict d) = false → d = ∅.
Proof.
  simpl. destruct (map_to_list d) eqn:E; [|done].
  intros _. by apply map_to_list_empty_iff.
Qed.

Lemma populate_loop (n : gmap string pyval) (l : list (string * string)) :
  ∀ s : gmap string pyval,
  NoDup l.*2 →
  (∀ e, e ∈ l → is_number_or_null (n !! e.1) = true) →
  ∃ s' : gmap string pyval,
    for_each (populate_step (VDict n)) s l = (s', None)
    ∧ (∀ off_key key, (off_key, key) ∈ l →
         s' !! key = Some (VNum (match number_of (n !! off_key) with
                                 | Some q => round2 q
                                 | None => 0
                                 end)))
    ∧ (∀ key, key ∉ l.*2 → s' !! key = s !! key).
Proof.
  induction l as [|[off_key key] l IH]; intros s Hnd Hwf.
  - exists s. split; [done|]. split; [|done].
    intros ?? Hin. by apply elem_of_nil in Hin.
  - apply NoDup_cons in Hnd as [Hnotin Hnd].
    assert (Hhead : is_number_or_null (n !! off_key) = true)
      by (apply (Hwf (off_key, key)); left).
    set (v := match number_of (n !! off_key) with Some q => round2 q | None => 0%Q end).
    assert (Hstep : populate_step (VDict n) s (off_key, key) = Ok (<[key := VNum v]> s)).
    { unfold populate_step, v, py_get. cbn [mbind result_bind].
      unfold is_number_or_null, number_of in *.
      destruct (n !! off_key) as [val|]; [|done]. cbn [default from_option id].
      destruct (is_none val); [done|]. by destruct (py_float val). }
    destruct (IH (<[key := VNum v]> s) Hnd) as (s' & Hrun & Hset & Hframe).
    { intros e He. apply Hwf. by right. }
    exists s'. split; [by rewrite (for_each_ok _ _ _ _ _ Hstep)|]. split.
    + intros off_key' key' Hin. apply elem_of_cons in Hin as [Heq|Hin].
      * injection Heq as -> ->. rewrite Hframe; [|done]. by rewrite lookup_insert_eq.
      * by apply Hset.
    + intros key' Hnot. simpl in Hnot. apply not_elem_of_cons in Hnot as [Hne Hnot].
      rewrite Hframe; [|done]. by rewrite lookup_insert_ne.
Qed.

(** A loop keeps every relation its body keeps, also when it is cut
    short by an exception. *)
Lemma for_each_invariant {A B : Type} (R : A → A → Prop) (body : A → B → result A)
    (l : list B) :
  (∀ a, R a a) →
  (∀ a b c, R a b → R b c → R a c) →
  (∀ a x a', x ∈ l → body a x = Ok a' → R a a') →
  ∀ acc, R acc (for_each body acc l).1.
Proof.
  intros Hrefl Htrans. induction l as [|x l IH]; intros Hbody acc; simpl.
  - apply Hrefl.
  - destruct (body acc x) as [acc'|e] eqn:E; [|apply Hrefl].
    apply Htrans with acc'.
    + apply (Hbody acc x); [left|done].
    + apply IH. intros a y a' Hy. apply Hbody. by right.
Qed.

Lemma keeps_refl k s : keeps k s s.
Proof. by intros _. Qed.

Lemma keeps_trans k a b c : keeps k a b → keeps k b c → keeps k a c.
Proof.
  intros Hab Hbc Hp. rewrite <- (Hab Hp). apply Hbc.
  destruct Hp as [Hout|(v & Hv & Hnz)]; [by left|].
  right. exists v. by rewrite (Hab (or_intror (ex_intro _ v (conj Hv Hnz)))).
Qed.

Lemma set_if_positive_cases (s s' : gmap string pyval) key val :
  set_if_positive s key val = Ok s' →
  s' = s ∨ ∃ q, (0 < q)%Q ∧ s' = <[key := VNum (round2 q)]> s.
Proof.
  unfold set_if_positive. destruct (is_none val); [intros [= <-]; by left|].
  destruct (py_float val) as [x|e]; [|done]. cbn [mbind result_bind]. unfold Qlt_bool.
  destruct (Qle_bool x 0) eqn:E; cbn [negb]; intros [= <-]; [by left|].
  right. exists x. split; [|done].
  apply Qnot_le_lt. intros Hle. apply Qle_bool_iff in Hle. congruence.
Qed.

Lemma guarded_set_keeps (s s' : gmap string pyval) key val k :
  key ∈ nutrient_keys →
  py_is_zero (get0 s key) = true →
  set_if_positive s key val = Ok s' →
  keeps k s s'.
Proof.
  intros Hkey Hzero Hset Hp.
  apply set_if_positive_cases in Hset as [->|(q & _ & ->)]; [done|].
  apply lookup_insert_ne. intros ->.
  destruct Hp as [Hout|(v & Hv & Hnz)]; [done|].
  unfold get0 in Hzero. rewrite Hv in Hzero. simpl in Hzero. congruence.
Qed.

Lemma estimated_step_keeps estimated (s s' : gmap string pyval) entry k :
  entry ∈ NUTRIENT_MAP →
  estimated_step estimated s entry = Ok s' →
  keeps k s s'.
Proof.
  destruct entry as [off_key key]. intros Hin. unfold estimated_step.
  assert (Hkey : key ∈ nutrient_keys).
  { unfold nutrient_keys. apply list_elem_of_fmap. by exists (off_key, key). }
  destruct (py_is_zero (get0 s key)) eqn:Hz; [|intros [= <-]; apply keeps_refl].
  destruct (py_get estimated off_key VNone) as [val|e]; simpl; [|done].
  by apply guarded_set_keeps.
Qed.

Lemma usda_key_nutrient nutrient_id key :
  usda_key nutrient_id = Ok (Some key) → key ∈ nutrient_keys.
Proof.
  assert (Hall : Forall (λ e : Z * string, e.2 ∈ nutrient_keys) USDA_NUTRIENT_MAP).
  { apply (bool_decide_unpack _). vm_compute. exact I. }
  assert (Hfind : ∀ q, snd <$> List.find (λ e : Z * string, Qeq_bool q (inject_Z e.1))
                          USDA_NUTRIENT_MAP = Some key → key ∈ nutrient_keys).
  { intros q Hq. destruct (List.find _ _) as [e|] eqn:E; [|done].
    injection Hq as <-. apply find_some in E as [Hin _].
    rewrite Forall_forall in Hall. apply Hall. by apply list_elem_of_In. }
  unfold usda_key. destruct nutrient_id as [|b|q|?|?|?]; try done.
  - intros [= Hq]. by apply (Hfind (if b then 1 else 0)%Q).
  - intros [= Hq]. by apply (Hfind q).
Qed.

Lemma usda_step_keeps (s s' : gmap string pyval) nutrient k :
  usda_step s nutrient = Ok s' → keeps k s s'.
Proof.
  unfold usda_step.
  destruct (py_get nutrient "nutrientId" VNone) as [nutrient_id|e]; simpl; [|done].
  destruct (usda_key nutrient_id) as [[key|]|e] eqn:Hk; simpl;
    [| intros [= <-]; apply keeps_refl | done].
  apply usda_key_nutrient in Hk.
  destruct (py_is_zero (get0 s key)) eqn:Hz; [|intros [= <-]; apply keeps_refl].
  destruct (py_get nutrient "value" VNone) as [val|e]; simpl; [|done].
  by apply guarded_set_keeps.
Qed.

Lemma fill_estimated_keeps (s : gmap string pyval) estimated k :
  keeps k s (fill_estimated s estimated).1.
Proof.
  unfold fill_estimated. destruct (truthy estimated); [|apply keeps_refl].
  apply (for_each_invariant (keeps k)); [apply keeps_refl | apply keeps_trans |].
  intros a x a' Hx. by apply estimated_step_keeps.
Qed.

Lemma enrich_from_usda_keeps (s : gmap string pyval) usda_food k :
  keeps k s (enrich_from_usda s usda_food).1.
Proof.
  unfold enrich_from_usda.
  destruct (py_get usda_food "foodNutrients" (VList []) ≫= py_iter) as [ns|e];
    [|apply keeps_refl].
  apply (for_each_invariant (keeps k)); [apply keeps_refl | apply keeps_trans |].
  intros a x a' _. apply usda_step_keeps.
Qed.

Lemma Qlt_bool_iff (x y : Q) : Qlt_bool x y = true ↔ (x < y)%Q.
Proof.
  unfold Qlt_bool. rewrite negb_true_iff. split.
  - intros E. apply Qnot_le_lt. intros Hle. apply Qle_bool_iff in Hle. congruence.
  - intros Hlt. destruct (Qle_bool y x) eqn:E; [|done].
    apply Qle_bool_iff in E. by apply Qle_not_lt in E.
Qed.

Lemma nutrient_record_lookup (s : gmap string pyval) k :
  is_nutrient_record s = true → k ∈ nutrient_keys → ∃ q, s !! k = Some (VNum q).
Proof.
  unfold is_nutrient_record. rewrite forallb_forall. intros Hall Hin.
  apply list_elem_of_In in Hin. specialize (Hall k Hin).
  destruct (s !! k) as [[| |q| | |]|]; try done. by exists q.
Qed.

Lemma nutrient_record_intro (s : gmap string pyval) :
  (∀ k, k ∈ nutrient_keys → ∃ q, s !! k = Some (VNum q)) → is_nutrient_record s = true.
Proof.
  intros Hall. unfold is_nutrient_record. apply forallb_forall. intros k Hin.
  apply list_elem_of_In in Hin. by destruct (Hall k Hin) as [q ->].
Qed.

Lemma estimated_loop (e : gmap string pyval) (l : list (string * string)) :
  ∀ s : gmap string pyval,
  NoDup l.*2 →
  (∀ x, x ∈ l → is_number_or_null (e !! x.1) = true) →
  ∃ s' : gmap string pyval,
    for_each (estimated_step (VDict e)) s l = (s', None)
    ∧ (∀ off_key key, (off_key, key) ∈ l →
         s' !! key =
           if py_is_zero (get0 s key) then
             match number_of (e !! off_key) with
             | Some q => if Qlt_bool 0 q then Some (VNum (round2 q)) else s !! key
             | None => s !! key
             end
           else s !! key)
    ∧ (∀ key, key ∉ l.*2 → s' !! key = s !! key).
Proof.
  induction l as [|[off_key key] l IH]; intros s Hnd Hwf.
  - exists s. split; [done|]. split; [|done].
    intros ?? Hin. by apply elem_of_nil in Hin.
  - apply NoDup_cons in Hnd as [Hnotin Hnd].
    assert (Hhead : is_number_or_null (e !! off_key) = true)
      by (apply (Hwf (off_key, key)); left).
    set (s1 := if py_is_zero (get0 s key) then
                 match number_of (e !! off_key) with
                 | Some q => if Qlt_bool 0 q then <[key := VNum (round2 q)]> s else s
                 | None => s
                 end
               else s).
    assert (Hstep : estimated_step (VDict e) s (off_key, key) = Ok s1).
    { unfold estimated_step, s1, py_get. destruct (py_is_zero (get0 s key)); [|done].
      cbn [mbind result_bind]. unfold set_if_positive, is_number_or_null, number_of in *.
      destruct (e !! off_key) as [val|]; [|done]. cbn [default from_option id].
      destruct (is_none val); [done|]. by destruct (py_float val). }
    assert (Hother : ∀ key', key' ≠ key → s1 !! key' = s !! key').
    { intros key' Hne. unfold s1. destruct (py_is_zero (get0 s key)); [|done].
      destruct (number_of (e !! off_key)) as [q|]; [|done].
      destruct (Qlt_bool 0 q); [|done]. by apply lookup_insert_ne. }
    destruct (IH s1 Hnd) as (s' & Hrun & Hset & Hframe).
    { intros x Hx. apply Hwf. by right. }
    exists s'. split; [by rewrite (for_each_ok _ _ _ _ _ Hstep)|]. split.
    + intros off_key' key' Hin. apply elem_of_cons in Hin as [Heq|Hin].
      * injection Heq as -> ->. rewrite Hframe; [|done]. unfold s1.
        destruct (py_is_zero (get0 s key)); [|done].
        destruct (number_of (e !! off_key)) as [q|]; [|done].
        destruct (Qlt_bool 0 q); [|done]. by rewrite lookup_insert_eq.
      * assert (Hne : key' ≠ key).
        { intros ->. apply Hnotin. apply list_elem_of_fmap. by exists (off_key', key). }
        rewrite (Hset _ _ Hin). unfold get0. by rewrite !(Hother _ Hne).
    + intros key' Hnot. simpl in Hnot. apply not_elem_of_cons in Hnot as [Hne Hnot].
      rewrite Hframe; [|done]. by apply Hother.
Qed.

Lemma text_field_is_str (v : option pyval) (dflt : string) :
  is_text_or_null v = true → ∃ s, py_or (default VNone v) (VStr dflt) = VStr s.
Proof.
  destruct v as [[| | |s| |]|]; simpl; try done; unfold py_or; simpl; eauto.
  intros _. destruct (negb (String.eqb s "")); eauto.
Qed.

Lemma nutrient_block_cases (d : gmap string pyval) (block : string) :
  is_nutrient_block (d !! block) = true →
  ∃ b : gmap string pyval,
    default (VDict ∅) (d !! block) = VDict b
    ∧ (∀ x, x ∈ NUTRIENT_MAP → is_number_or_null (b !! x.1) = true)
    ∧ (∀ off_key, block_number (VDict d) block off_key = number_of (b !! off_key)).
Proof.
  unfold block_number.
  destruct (d !! block) as [[| | | | |b]|]; unfold is_nutrient_block; try done.
  - intros Hall. exists b. split; [done|]. split; [|done].
    rewrite forallb_forall in Hall. intros x Hx. apply Hall.
    apply list_elem_of_In. apply list_elem_of_fmap. by exists x.
  - intros _. exists ∅. split; [done|]. split.
    + intros x _. by rewrite lookup_empty.
    + intros off_key. by rewrite lookup_empty.
Qed.

(** C1. For every product record of the primary source,
    [build_food_suggestion] returns a record in which every recognized
    nutrient key holds a number: the measured value rounded to two places,
    or zero when the measured block has none, and, where that is zero, the
    rounded estimate when the estimated block has a strictly positive one. *)
Theorem build_food_suggestion_nutrients (product : pyval) :
  is_product_record product = true →
  ∃ s : gmap string pyval,
    build_food_suggestion product = Ok s
    ∧ is_nutrient_record s = true
    ∧ ∀ off_key key, (off_key, key) ∈ NUTRIENT_MAP →
        s !! key = Some (VNum (with_estimate product off_key (measured product off_key))).
Proof.
  destruct product as [| | | | |d]; try done.
  unfold is_product_record. rewrite !andb_true_iff.
  intros [[[Hname Hbrand] Hmeas] Hest].
  destruct (text_field_is_str _ "Unknown Product" Hname) as [name Hn].
  destruct (text_field_is_str _ "" Hbrand) as [brand Hb].
  destruct (nutrient_block_cases _ _ Hmeas) as (n & Hn_eq & Hn_wf & Hn_num).
  destruct (nutrient_block_cases _ _ Hest) as (e & He_eq & He_wf & He_num).
  unfold build_food_suggestion, py_get. cbn [mbind result_bind].
  rewrite Hn, Hb, Hn_eq, He_eq. cbn [title_if_upper mbind result_bind].
  set (s0 := base_suggestion _ _ _).
  destruct (populate_loop n NUTRIENT_MAP s0 NoDup_nutrient_keys Hn_wf)
    as (s1 & Hrun1 & Hset1 & _).
  rewrite Hrun1. cbn [finish fst snd mbind result_bind].
  assert (Hfill : ∃ s2 : gmap string pyval,
    fill_estimated s1 (VDict e) = (s2, None)
    ∧ ∀ off_key key, (off_key, key) ∈ NUTRIENT_MAP →
        s2 !! key = Some (VNum (with_estimate (VDict d) off_key (measured (VDict d) off_key)))).
  { assert (Hval : ∀ off_key key, (off_key, key) ∈ NUTRIENT_MAP →
        s1 !! key = Some (VNum (measured (VDict d) off_key))).
    { intros off_key key Hin. rewrite (Hset1 _ _ Hin). unfold measured.
      by rewrite Hn_num. }
    unfold fill_estimated. destruct (truthy (VDict e)) eqn:Htruthy.
    - destruct (estimated_loop e NUTRIENT_MAP s1 NoDup_nutrient_keys He_wf)
        as (s2 & Hrun2 & Hset2 & _).
      exists s2. split; [done|]. intros off_key key Hin.
      rewrite (Hset2 _ _ Hin). unfold get0. rewrite (Hval _ _ Hin).
      unfold with_estimate. rewrite He_num. cbn [default from_option id py_is_zero].
      destruct (Qeq_bool (measured (VDict d) off_key) 0); [|done].
      destruct (number_of (e !! off_key)) as [q|]; [|done].
      by destruct (Qlt_bool 0 q).
    - exists s1. split; [done|]. intros off_key key Hin.
      rewrite (Hval _ _ Hin). unfold with_estimate. rewrite He_num.
      apply truthy_dict_false in Htruthy. subst e. rewrite lookup_empty.
      by destruct (Qeq_bool (measured (VDict d) off_key) 0). }
  destruct Hfill as (s2 & Hrun2 & Hset2).
  exists s2. rewrite Hrun2. split; [done|]. split; [|done].
  apply nutrient_record_intro. intros key Hin.
  apply list_elem_of_fmap in Hin as ([off_key key'] & -> & Hin).
  cbn [snd]. rewrite (Hset2 _ _ Hin). eauto.
Qed.

Lemma fills_refl (s : gmap string pyval) : fills s s.
Proof. intros k. by left. Qed.

Lemma fills_trans (a b c : gmap string pyval) : fills a b → fills b c → fills a c.
Proof.
  intros Hab Hbc k. destruct (Hbc k) as [Heq|Hnum]; [|by right].
  rewrite Heq. apply Hab.
Qed.

Lemma fills_insert (s : gmap string pyval) key q :
  key ∈ nutrient_keys → fills s (<[key := VNum q]> s).
Proof.
  intros Hkey k. destruct (decide (key = k)) as [<-|Hne].
  - right. split; [done|]. exists q. by rewrite lookup_insert_eq.
  - left. by rewrite lookup_insert_ne.
Qed.

Lemma set_if_positive_fills (s s' : gmap string pyval) key val :
  key ∈ nutrient_keys → set_if_positive s key val = Ok s' → fills s s'.
Proof.
  intros Hkey Hset. apply set_if_positive_cases in Hset as [->|(q & _ & ->)].
  - apply fills_refl.
  - by apply fills_insert.
Qed.

Lemma nutrient_map_key off_key key :
  (off_key, key) ∈ NUTRIENT_MAP → key ∈ nutrient_keys.
Proof. intros Hin. apply list_elem_of_fmap. by exists (off_key, key). Qed.

Lemma estimated_step_fills estimated (s s' : gmap string pyval) entry :
  entry ∈ NUTRIENT_MAP → estimated_step estimated s entry = Ok s' → fills s s'.
Proof.
  destruct entry as [off_key key]. intros Hin%nutrient_map_key. unfold estimated_step.
  destruct (py_is_zero (get0 s key)); [|intros [= <-]; apply fills_refl].
  destruct (py_get estimated off_key VNone) as [val|e]; simpl; [|done].
  by apply set_if_positive_fills.
Qed.

Lemma usda_step_fills (s s' : gmap string pyval) nutrient :
  usda_step s nutrient = Ok s' → fills s s'.
Proof.
  unfold usda_step.
  destruct (py_get nutrient "nutrientId" VNone) as [nutrient_id|e]; simpl; [|done].
  destruct (usda_key nutrient_id) as [[key|]|e] eqn:Hk; simpl;
    [| intros [= <-]; apply fills_refl | done].
  apply usda_key_nutrient in Hk.
  destruct (py_is_zero (get0 s key)); [|intros [= <-]; apply fills_refl].
  destruct (py_get nutrient "value" VNone) as [val|e]; simpl; [|done].
  by apply set_if_positive_fills.
Qed.

Lemma fill_estimated_fills (s : gmap string pyval) estimated :
  fills s (fill_estimated s estimated).1.
Proof.
  unfold fill_estimated. destruct (truthy estimated); [|apply fills_refl].
  apply (for_each_invariant fills); [apply fills_refl | apply fills_trans |].
  intros a x a' Hx. by apply estimated_step_fills.
Qed.

Lemma enrich_from_usda_fills (s : gmap string pyval) usda_food :
  fills s (enrich_from_usda s usda_food).1.
Proof.
  unfold enrich_from_usda.
  destruct (py_get usda_food "foodNutrients" (VList []) ≫= py_iter) as [ns|e];
    [|apply fills_refl].
  apply (for_each_invariant fills); [apply fills_refl | apply fills_trans |].
  intros a x a' _. apply usda_step_fills.
Qed.

Lemma name_not_nutrient : "name" ∉ nutrient_keys.
Proof. apply (bool_decide_unpack _). vm_compute. exact I. Qed.

Lemma custom_nutrients_not_nutrient : "custom_nutrients" ∉ nutrient_keys.
Proof. apply (bool_decide_unpack _). vm_compute. exact I. Qed.

Lemma fills_scan_record (s s' : gmap string pyval) :
  fills s s' → scan_record s → scan_record s'.
Proof.
  intros Hfills (Hrec & [name Hname] & Hcustom). split; [|split].
  - apply nutrient_record_intro. intros k Hk.
    destruct (Hfills k) as [->|[_ Hnum]]; [|done].
    by apply nutrient_record_lookup.
  - exists name. destruct (Hfills "name") as [->|[Hin _]]; [done|].
    by apply name_not_nutrient in Hin.
  - destruct (Hfills "custom_nutrients") as [->|[Hin _]]; [done|].
    by apply custom_nutrients_not_nutrient in Hin.
Qed.

Lemma populate_step_insert nutriments (s s' : gmap string pyval) off_key key :
  populate_step nutriments s (off_key, key) = Ok s' →
  ∃ q, s' = <[key := VNum q]> s.
Proof.
  unfold populate_step.
  destruct (py_get nutriments off_key VNone) as [val|e]; simpl; [|done].
  assert (Hnum : ∀ r : result Q,
    (x ← r; Ok (<[key := VNum (round2 x)]> s)) = Ok s' → ∃ q, s' = <[key := VNum q]> s).
  { intros [x|e]; simpl; [|done]. intros [= <-]. eauto. }
  destruct val; try apply Hnum. intros [= <-]. eauto.
Qed.

Lemma populate_loop_sound nutriments (l : list (string * string)) :
  ∀ s s' : gmap string pyval,
  for_each (populate_step nutriments) s l = (s', None) →
  (∀ key, key ∈ l.*2 → ∃ q, s' !! key = Some (VNum q))
  ∧ (∀ key, key ∉ l.*2 → s' !! key = s !! key).
Proof.
  induction l as [|[off_key key] l IH]; intros s s'.
  - intros [= <-]. split; [|done]. intros key Hin. by apply elem_of_nil in Hin.
  - cbn [for_each]. destruct (populate_step nutriments s (off_key, key)) as [s1|e] eqn:E;
      [|done].
    apply populate_step_insert in E as [q ->].
    intros Hrun. destruct (IH _ _ Hrun) as [Hset Hframe]. split.
    + intros key' Hin. cbn [fmap list_fmap snd] in Hin.
      destruct (decide (key' ∈ l.*2)) as [Hl|Hl]; [by apply Hset|].
      apply elem_of_cons in Hin as [->|Hin]; [|done].
      rewrite (Hframe _ Hl). exists q. by rewrite lookup_insert_eq.
    + intros key' Hnot. cbn [fmap list_fmap snd] in Hnot.
      apply not_elem_of_cons in Hnot as [Hne Hnot].
      rewrite (Hframe _ Hnot). by rewrite lookup_insert_ne.
Qed.

Lemma finish_ok {A : Type} (r : A * option exn) (a : A) :
  finish r = Ok a → r = (a, None).
Proof. destruct r as [a' [e|]]; unfold finish; simpl; [done|]. by intros [= ->]. Qed.

Lemma build_food_suggestion_scan_record (product : pyval) (s : gmap string pyval) :
  build_food_suggestion product = Ok s → scan_record s.
Proof.
  unfold build_food_suggestion.
  destruct (py_get product "nutriments" (VDict ∅)) as [nutriments|e]; cbn [mbind result_bind]; [|done].
  destruct (py_get product "product_name" VNone) as [product_name|e]; cbn [mbind result_bind]; [|done].
  destruct (py_get product "brands" VNone) as [brands|e]; cbn [mbind result_bind]; [|done].
  destruct (title_if_upper (py_or product_name _)) as [name|e] eqn:Hname; cbn [mbind result_bind]; [|done].
  destruct (title_if_upper (py_or brands _)) as [brand|e]; cbn [mbind result_bind]; [|done].
  destruct (py_get product "code" VNone) as [code|e]; cbn [mbind result_bind]; [|done].
  set (s0 := base_suggestion _ _ _).
  destruct (finish (for_each _ s0 NUTRIENT_MAP)) as [s1|e] eqn:Hrun; cbn [mbind result_bind]; [|done].
  destruct (py_get product "nutriments_estimated" (VDict ∅)) as [estimated|e]; cbn [mbind result_bind]; [|done].
  intros Hfill%finish_ok.
  pose proof (fill_estimated_fills s1 estimated) as Hfills. rewrite Hfill in Hfills.
  apply (fills_scan_record s1); [done|].
  apply finish_ok, populate_loop_sound in Hrun as [Hset Hframe].
  split; [|split].
  - apply nutrient_record_intro. apply Hset.
  - rewrite (Hframe _ name_not_nutrient).
    destruct (py_or product_name _) as [| | |raw| |]; try done.
    injection Hname as <-. eexists. reflexivity.
  - by rewrite (Hframe _ custom_nutrients_not_nutrient).
Qed.

Lemma first_writer_wins_nonzero (current : option pyval) (offered : list Q) :
  py_is_zero (default (VNum 0) current) = false →
  first_writer_wins current offered = current.
Proof. intros Hnz. destruct offered; [done|]. cbn [first_writer_wins]. by rewrite Hnz. Qed.

Lemma usda_step_value (s : gmap string pyval) (nutrient : pyval) :
  is_usda_nutrient nutrient = true →
  ∃ s1 : gmap string pyval,
    usda_step s nutrient = Ok s1
    ∧ ∀ k, s1 !! k = match usda_value k nutrient with
                     | Some q => if py_is_zero (get0 s k) then Some (VNum (round2 q))
                                 else s !! k
                     | None => s !! k
                     end.
Proof.
  destruct nutrient as [| | | | |n]; try done.
  unfold is_usda_nutrient, usda_step, usda_value, py_get. rewrite andb_true_iff.
  intros [Hid Hval]. cbn [mbind result_bind].
  destruct (usda_key (default VNone (n !! "nutrientId"))) as [[key|]|e] eqn:Hkey.
  - cbn [mbind result_bind].
    assert (Hother : ∀ k, k ≠ key → (key =? k)%string = false).
    { intros k Hne. apply String.eqb_neq. congruence. }
    set (offered := number_of (n !! "value")).
    set (s1 := if py_is_zero (get0 s key) then
                 match offered with
                 | Some q => if Qlt_bool 0 q then <[key := VNum (round2 q)]> s else s
                 | None => s
                 end
               else s).
    exists s1. split.
    + unfold s1, offered. destruct (py_is_zero (get0 s key)); [|done].
      unfold set_if_positive, is_number_or_null, number_of in *.
      destruct (n !! "value") as [val|]; [|done]. cbn [default from_option id].
      destruct (is_none val); [done|]. by destruct (py_float val).
    + intros k. unfold s1. destruct (decide (k = key)) as [->|Hne].
      * rewrite String.eqb_refl. destruct (py_is_zero (get0 s key)).
        -- destruct offered as [q|]; [|done].
           destruct (Qlt_bool 0 q); [|done]. by rewrite lookup_insert_eq.
        -- destruct offered as [q|]; [|done]. by destruct (Qlt_bool 0 q).
      * rewrite (Hother _ Hne). destruct (py_is_zero (get0 s key)); [|done].
        destruct offered as [q|]; [|done].
        destruct (Qlt_bool 0 q); [|done]. by rewrite lookup_insert_ne.
  - exists s. by split.
  - exfalso. unfold usda_key in Hkey.
    by destruct (n !! "nutrientId") as [[| | | | |]|].
Qed.

Lemma usda_loop_values (nutrients : list pyval) :
  ∀ s : gmap string pyval,
  forallb is_usda_nutrient nutrients = true →
  ∃ s' : gmap string pyval,
    for_each usda_step s nutrients = (s', None)
    ∧ ∀ k, s' !! k = first_writer_wins (s !! k) (candidates k nutrients).
Proof.
  induction nutrients as [|nutrient rest IH]; intros s Hwf.
  - by exists s.
  - cbn [forallb] in Hwf. apply andb_true_iff in Hwf as [Hhead Hrest].
    destruct (usda_step_value s nutrient Hhead) as (s1 & Hstep & Hs1).
    destruct (IH s1 Hrest) as (s' & Hrun & Hs').
    exists s'. split; [by rewrite (for_each_ok _ _ _ _ _ Hstep)|].
    intros k. rewrite Hs', Hs1. unfold candidates. cbn [omap list_omap].
    fold (candidates k rest). unfold get0.
    destruct (usda_value k nutrient) as [q|]; [|done].
    cbn [first_writer_wins].
    destruct (py_is_zero (default (VNum 0) (s !! k))) eqn:Hz; [done|].
    by apply first_writer_wins_nonzero.
Qed.

Lemma enrich_from_usda_values (s : gmap string pyval) (food : pyval) :
  is_usda_food food = true →
  ∃ s' : gmap string pyval,
    enrich_from_usda s food = (s', None)
    ∧ ∀ k, s' !! k = first_writer_wins (s !! k) (candidates k (food_nutrients food)).
Proof.
  destruct food as [| | | | |f]; try done.
  unfold is_usda_food, enrich_from_usda, food_nutrients, py_get.
  cbn [mbind result_bind].
  destruct (f !! "foodNutrients") as [[| | | |nutrients|]|]; try done.
  - cbn [default from_option id py_iter]. apply usda_loop_values.
  - intros _. by exists s.
Qed.

Lemma nutrition_complete_cases (s : gmap string pyval) :
  is_nutrient_record s = true →
  ∃ b : bool,
    is_nutrition_complete s = Ok b
    ∧ (b = true ↔
       ∃ k q, k ∈ ["protein"; "carbs"; "fat"] ∧ s !! k = Some (VNum q) ∧ (0 < q)%Q)
    ∧ ((∀ k, k ∈ ["protein"; "carbs"; "fat"] → ∃ q, s !! k = Some (VNum q) ∧ (q == 0)%Q) →
       b = false).
Proof.
  intros Hrec.
  assert (Hkey : ∀ k, k ∈ ["protein"; "carbs"; "fat"] → k ∈ nutrient_keys).
  { intros k Hk. apply list_elem_of_In. apply list_elem_of_In in Hk.
    simpl in *. tauto. }
  destruct (nutrient_record_lookup s "protein" Hrec) as [p Hp]; [apply Hkey; set_solver|].
  destruct (nutrient_record_lookup s "carbs" Hrec) as [c Hc]; [apply Hkey; set_solver|].
  destruct (nutrient_record_lookup s "fat" Hrec) as [f Hf]; [apply Hkey; set_solver|].
  exists (Qlt_bool 0 p || Qlt_bool 0 c || Qlt_bool 0 f).
  split; [|split].
  - unfold is_nutrition_complete, any_positive, get0. rewrite Hp, Hc, Hf.
    cbn [default from_option id py_gt0 mbind result_bind].
    by destruct (Qlt_bool 0 p), (Qlt_bool 0 c), (Qlt_bool 0 f).
  - rewrite !orb_true_iff, !Qlt_bool_iff. split.
    + intros [[Hpos|Hpos]|Hpos].
      * exists "protein", p. split; [set_solver|done].
      * exists "carbs", c. split; [set_solver|done].
      * exists "fat", f. split; [set_solver|done].
    + intros (k & q & Hk & Hq & Hpos).
      apply elem_of_cons in Hk as [->|Hk]; [left; left; congruence|].
      apply elem_of_cons in Hk as [->|Hk]; [left; right; congruence|].
      apply elem_of_cons in Hk as [->|Hk]; [right; congruence|].
      by apply elem_of_nil in Hk.
  - intros Hzero.
    assert (Hnot : ∀ k q, k ∈ ["protein"; "carbs"; "fat"] → s !! k = Some (VNum q) →
                          Qlt_bool 0 q = false).
    { intros k q Hk Hq. destruct (Hzero k Hk) as (q' & Hq' & Hz).
      assert (q' = q) as -> by congruence.
      destruct (Qlt_bool 0 q) eqn:E; [|done].
      apply Qlt_bool_iff in E. rewrite Hz in E. by apply Qlt_irrefl in E. }
    rewrite (Hnot "protein" p), (Hnot "carbs" c), (Hnot "fat" f); try done; set_solver.
Qed.

(** C2. On a nutrient record [is_nutrition_complete] returns true exactly
    when protein, carbs or fat holds a strictly positive value; it returns
    false when the three are zero. *)
Theorem is_nutrition_complete_iff (s : gmap string pyval) :
  is_nutrient_record s = true →
  ∃ b : bool,
    is_nutrition_complete s = Ok b
    ∧ (b = true ↔
       ∃ k q, k ∈ ["protein"; "carbs"; "fat"] ∧ s !! k = Some (VNum q) ∧ (0 < q)%Q)
    ∧ ((∀ k, k ∈ ["protein"; "carbs"; "fat"] → ∃ q, s !! k = Some (VNum q) ∧ (q == 0)%Q) →
       b = false).
Proof. apply nutrition_complete_cases. Qed.

(** C4. Neither the estimated-block fill nor the USDA fill changes a key
    that holds a value different from zero, and neither changes a key
    outside the recognized nutrient keys (name, brand, barcode, serving
    size and unit, provider); this is so for the dict as the fill leaves
    it, also when the fill is cut short by an exception. *)
Theorem enrichment_never_overwrites (s : gmap string pyval)
    (estimated usda_food : pyval) (k : string) :
  (k ∉ nutrient_keys ∨ ∃ v, s !! k = Some v ∧ py_is_zero v = false) →
  (fill_estimated s estimated).1 !! k = s !! k
  ∧ (enrich_from_usda s usda_food).1 !! k = s !! k.
Proof.
  intros Hp. split.
  - by apply fill_estimated_keeps.
  - by apply enrich_from_usda_keeps.
Qed.

End EnrichmentFacts.

(** ** Rounding *)

Section RoundingFacts.

Lemma floor_bounds (x : Q) : (inject_Z (Qfloor x) <= x < inject_Z (Qfloor x) + 1)%Q.
Proof.
  split; [apply Qfloor_le|].
  pose proof (Qlt_floor x) as Hlt. rewrite inject_Z_plus in Hlt. exact Hlt.
Qed.

Lemma inject_Z_succ (z : Z) : (inject_Z (z + 1) == inject_Z z + 1)%Q.
Proof. rewrite inject_Z_plus. reflexivity. Qed.

Lemma round_half_even_near (x : Q) :
  (x - (1 # 2) <= inject_Z (round_half_even x) <= x + (1 # 2))%Q.
Proof.
  unfold round_half_even. destruct (floor_bounds x) as [Hlo Hhi].
  destruct (Qcompare_spec (x - inject_Z (Qfloor x)) (1 # 2)) as [Heq|Hlt|Hgt].
  - destruct (Z.even (Qfloor x)); [|rewrite inject_Z_succ]; lra.
  - lra.
  - rewrite inject_Z_succ. lra.
Qed.

Lemma round_half_even_small (x : Q) :
  (0 <= x)%Q → (x < 1 # 2)%Q → round_half_even x = 0%Z.
Proof.
  intros H0 H1.
  assert (Hf : Qfloor x = 0%Z).
  { destruct (floor_bounds x) as [Hlo Hhi].
    assert (inject_Z (Qfloor x) < inject_Z 1)%Q by (change (inject_Z 1) with 1%Q; lra).
    assert (inject_Z (-1) < inject_Z (Qfloor x))%Q
      by (change (inject_Z (-1)) with (-1)%Q; lra).
    rewrite <- Zlt_Qlt in *. lia. }
  unfold round_half_even. rewrite Hf.
  destruct (Qcompare_spec (x - inject_Z 0) (1 # 2)) as [Heq|Hlt|Hgt].
  - change (inject_Z 0) with 0%Q in Heq. lra.
  - reflexivity.
  - change (inject_Z 0) with 0%Q in Hgt. lra.
Qed.

Lemma round_half_even_mono (x y : Q) :
  (x <= y)%Q → (round_half_even x <= round_half_even y)%Z.
Proof.
  intros Hxy. pose proof (Qfloor_resp_le _ _ Hxy) as Hf.
  destruct (floor_bounds x) as [Hxl Hxh]. destruct (floor_bounds y) as [Hyl Hyh].
  unfold round_half_even.
  destruct (Z.eq_dec (Qfloor x) (Qfloor y)) as [Heq|Hne].
  - rewrite <- Heq in *.
    destruct (Qcompare_spec (x - inject_Z (Qfloor x)) (1 # 2)),
             (Qcompare_spec (y - inject_Z (Qfloor x)) (1 # 2));
      try destruct (Z.even (Qfloor x)); try lia; lra.
  - assert (Qfloor x + 1 <= Qfloor y)%Z by lia.
    destruct (Qcompare_spec (x - inject_Z (Qfloor x)) (1 # 2)),
             (Qcompare_spec (y - inject_Z (Qfloor y)) (1 # 2));
      try destruct (Z.even (Qfloor x)); try destruct (Z.even (Qfloor y)); lia.
Qed.

Lemma round2_eq (x : Q) :
  (round2 x == inject_Z (round_half_even (x * 100)) * (1 # 100))%Q.
Proof.
  unfold round2. rewrite Qred_correct. unfold Qeq, Qmult, inject_Z. simpl. lia.
Qed.


Lemma round2_small (x : Q) : (0 <= x)%Q → (x < 1 # 200)%Q → (round2 x == 0)%Q.
Proof.
  intros H0 H1. rewrite round2_eq, round_half_even_small; [reflexivity|lra|lra].
Qed.

Lemma round2_mono (x y : Q) : (x <= y)%Q → (round2 x <= round2 y)%Q.
Proof.
  intros Hxy. rewrite !round2_eq.
  assert (Hm : (round_half_even (x * 100) <= round_half_even (y * 100))%Z)
    by (apply round_half_even_mono; lra).
  rewrite Zle_Qle in Hm. lra.
Qed.

Lemma per_100 (w : Q) : (w / 100 == w * (1 # 100))%Q.
Proof. reflexivity. Qed.

Lemma pow2_pos (e : Z) : (0 < pow2 e)%Q.
Proof. apply Qpower_0_lt. reflexivity. Qed.

Lemma pow2_nat (e : Z) : (0 ≤ e)%Z → (pow2 e == inject_Z (2 ^ e))%Q.
Proof. intros He. unfold pow2. rewrite Zpower_Qpower by exact He. reflexivity. Qed.

Lemma Qlog2_le (a : Q) : (0 < a)%Q → (pow2 (Qlog2 a) <= a)%Q.
Proof.
  intros Ha. unfold Qlog2.
  destruct (Qle_bool (pow2 (Z.log2 (Qnum a) - Z.log2 (Z.pos (Qden a)))) a) eqn:E.
  - apply Qle_bool_iff. exact E.
  - destruct a as [n d]. cbn [Qnum Qden] in *.
    assert (Hn : (0 < n)%Z) by (unfold Qlt in Ha; simpl in Ha; lia).
    pose proof (Z.log2_spec n Hn) as [Hnl _].
    pose proof (Z.log2_spec (Z.pos d) (Pos2Z.is_pos d)) as [_ Hdu].
    pose proof (Z.log2_nonneg n) as Hln. pose proof (Z.log2_nonneg (Z.pos d)) as Hld.
    replace (Z.log2 n - Z.log2 (Z.pos d) - 1)%Z
      with (Z.log2 n - Z.succ (Z.log2 (Z.pos d)))%Z by lia.
    unfold pow2. rewrite Qpower_minus by discriminate.
    fold (pow2 (Z.log2 n)) (pow2 (Z.succ (Z.log2 (Z.pos d)))).
    rewrite !pow2_nat by lia.
    set (A := (2 ^ Z.log2 n)%Z) in *. set (B := (2 ^ Z.succ (Z.log2 (Z.pos d)))%Z) in *.
    assert (HA : (0 < A)%Z) by (apply Z.pow_pos_nonneg; lia).
    rewrite (Qmake_Qdiv n d).
    apply Qle_shift_div_l; [reflexivity|].
    unfold Qdiv. rewrite <- Qmult_assoc, (Qmult_comm (/ inject_Z B)), Qmult_assoc.
    apply Qle_shift_div_r; [change 0%Q with (inject_Z 0); rewrite <- Zlt_Qlt; lia|].
    rewrite <- !inject_Z_mult, <- Zle_Qle. nia.
Qed.

Lemma Qabs_pos_eq (x : Q) : (0 < x)%Q → Qabs x = x.
Proof.
  destruct x as [n d]. unfold Qlt, Qabs. simpl. intros Hn. f_equal. lia.
Qed.

(** Rounding a positive number to a double: a whole number of spacings,
    within half a spacing of the number; the spacing is at most the
    number over 2^52, or that of the subnormal numbers. *)
Lemma to_double_pos (x : Q) :
  (0 < x)%Q →
  ∃ (m : Z) (ulp : Q),
    (to_double x == inject_Z m * ulp)%Q
    ∧ (0 < ulp)%Q
    ∧ (ulp <= x * (1 # 4503599627370496) + 2 * tiny)%Q
    ∧ (x - ulp * (1 # 2) <= inject_Z m * ulp <= x + ulp * (1 # 2))%Q.
Proof.
  intros Hx. unfold to_double.
  assert (Hne : Qeq_bool x 0 = false).
  { apply not_true_is_false. intros Heq%Qeq_bool_iff. rewrite Heq in Hx. discriminate. }
  assert (Hsign : Qle_bool 0 x = true) by (apply Qle_bool_iff, Qlt_le_weak, Hx).
  rewrite Hne, Hsign, (Qabs_pos_eq x Hx). cbv zeta.
  set (k := Z.max (Qlog2 x - 52) (-1074)).
  exists (round_half_even (x / pow2 k)), (pow2 k).
  pose proof (pow2_pos k) as Hulp.
  split; [rewrite Qred_correct; ring|]. split; [exact Hulp|]. split.
  - pose proof (Qlog2_le x Hx) as Hlog. pose proof (pow2_pos (-1075)) as Htiny.
    fold tiny in Htiny. unfold k.
    destruct (Z.max_spec (Qlog2 x - 52) (-1074)) as [[_ ->]|[_ ->]].
    + assert (H2 : (pow2 (-1074) == 2 * tiny)%Q) by reflexivity. rewrite H2.
      assert (0 <= x * (1 # 4503599627370496))%Q by lra. lra.
    + replace (Qlog2 x - 52)%Z with (Qlog2 x + -52)%Z by lia.
      unfold pow2 at 1. rewrite Qpower_plus by discriminate. fold (pow2 (Qlog2 x)).
      assert (H52 : (2 ^ (-52) == 1 # 4503599627370496)%Q) by reflexivity. rewrite H52.
      lra.
  - pose proof (round_half_even_near (x / pow2 k)) as [Hlo Hhi].
    set (m := inject_Z (round_half_even (x / pow2 k))) in *.
    assert (Hx' : (x == x / pow2 k * pow2 k)%Q) by (field; lra).
    apply (Qmult_le_compat_r _ _ (pow2 k)) in Hlo; [|lra].
    apply (Qmult_le_compat_r _ _ (pow2 k)) in Hhi; [|lra].
    set (q := (x / pow2 k)%Q) in *. split; lra.
Qed.

Lemma to_double_zero (x : Q) : (x == 0)%Q → to_double x = 0%Q.
Proof. intros Hx%Qeq_bool_iff. unfold to_double. by rewrite Hx. Qed.

Lemma tiny_pos : (0 < tiny)%Q.
Proof. apply pow2_pos. Qed.

Lemma tiny_small : (tiny < 1 # 1000000)%Q.
Proof. unfold Qlt. vm_compute. reflexivity. Qed.

(** One rounding to a double moves a number that is not negative by at
    most its 2^53rd part, or half the spacing of the subnormal numbers, and
    leaves it not negative. *)
Lemma to_double_near (x : Q) :
  (0 <= x)%Q →
  (0 <= to_double x)%Q
  ∧ (x - (x * half_ulp + tiny) <= to_double x <= x + (x * half_ulp + tiny))%Q.
Proof.
  intros Hx. pose proof tiny_pos as Htiny. unfold half_ulp.
  destruct (Qlt_le_dec 0 x) as [Hpos|Hzero].
  - destruct (to_double_pos x Hpos) as (m & ulp & -> & Hulp & Hspacing & Hlo & Hhi).
    split; [|split; lra].
    assert (Hm : (0 <= m)%Z).
    { destruct (Z.le_gt_cases 0 m) as [|Hneg]; [done|]. exfalso.
      assert (Hm1 : (inject_Z m <= -1)%Q).
      { change (-1)%Q with (inject_Z (-1)). rewrite <- Zle_Qle. lia. }
      assert (Hprod : (inject_Z m * ulp <= -1 * ulp)%Q)
        by (apply Qmult_le_compat_r; lra).
      lra. }
    apply Qmult_le_0_compat; [|lra].
    change 0%Q with (inject_Z 0). by rewrite <- Zle_Qle.
  - assert (Hx0 : (x == 0)%Q) by lra. rewrite (to_double_zero x Hx0).
    split; [lra|]. rewrite Hx0. split; lra.
Qed.

Lemma to_double_100 : to_double 100 = 100%Q.
Proof. vm_compute. reflexivity. Qed.

(** The division of a weight by 100 on doubles, against the exact
    quotient. *)
Lemma float_div_100_near (w : Q) :
  (0 <= w)%Q →
  (0 <= float_div w 100)%Q
  ∧ (w / 100 - (w * (1 # 100000000000000000) + 2 * tiny) <= float_div w 100
     <= w / 100 + (w * (1 # 100000000000000000) + 2 * tiny))%Q.
Proof.
  intros Hw. unfold float_div. rewrite to_double_100.
  destruct (to_double_near w Hw) as (Hw0 & Hwlo & Hwhi).
  set (x := to_double w) in *.
  change (x / 100)%Q with (x * (1 # 100))%Q.
  change (w / 100)%Q with (w * (1 # 100))%Q.
  assert (Hq : (0 <= x * (1 # 100))%Q) by lra.
  destruct (to_double_near _ Hq) as (Hq0 & Hqlo & Hqhi).
  split; [exact Hq0|]. pose proof tiny_pos as Htiny. unfold half_ulp in *.
  set (y := to_double (x * (1 # 100))) in *.
  set (t := tiny) in *. clearbody x y t. split; lra.
Qed.

Lemma round2_hundredths (x : Q) : ∃ k : Z, (round2 x == k # 100)%Q.
Proof. exists (round_half_even (x * 100)). unfold round2. apply Qred_correct. Qed.


End RoundingFacts.

(** ** The meal slot *)

Section MealFacts.

Lemma meal_of_windows_cons (t : time) meal window rest start stop :
  parse_window window = Ok (start, stop) →
  meal_of_windows t ((meal, window) :: rest) =
    if contains (meal, (start, stop)) t then Ok meal else meal_of_windows t rest.
Proof.
  unfold parse_window, contains. cbn [meal_of_windows fst snd].
  destruct (split_on "-" window) as [|a [|b [|c l]]]; try done.
  destruct (strptime_HM (strip a)) as [x|e]; [|done].
  destruct (strptime_HM (strip b)) as [y|e]; [|done].
  cbn [mbind result_bind]. by intros [= -> ->].
Qed.

(** C7. When the configured windows parse, the resolver returns the name
    of the first window, in the order of the configuration, that contains
    the time (start ≤ t < end), and "Snack" when no window contains it; a
    window that alone contains the time is the one returned. *)
Theorem current_meal_type_first_window (t : time) (config : list (string * string))
    (windows : list (string * (time * time))) :
  Forall2 (λ c w, c.1 = w.1 ∧ parse_window c.2 = Ok w.2) config windows →
  meal_of_windows t config = Ok (resolveMeal windows t)
  ∧ (∀ env, MEAL_WINDOWS env = config → now env = t →
       current_meal_type env = Ok (resolveMeal windows t))
  ∧ (∀ (i : nat) w, windows !! i = Some w → contains w t = true →
       (∀ (j : nat) w', windows !! j = Some w' → contains w' t = true → (i ≤ j)%nat) →
       resolveMeal windows t = w.1)
  ∧ (∀ (i : nat) w, windows !! i = Some w → contains w t = true →
       (∀ (j : nat) w', windows !! j = Some w' → contains w' t = true → j = i) →
       resolveMeal windows t = w.1)
  ∧ ((∀ w, w ∈ windows → contains w t = false) → resolveMeal windows t = "Snack").
Proof.
  intros Hparse.
  assert (Hloop : meal_of_windows t config = Ok (resolveMeal windows t)).
  { induction Hparse as [|[meal window] [meal' [start stop]] config windows [Hname Hw] _ IH].
    - done.
    - cbn [fst snd] in Hname, Hw. subst meal'.
      rewrite (meal_of_windows_cons _ _ _ _ _ _ Hw). unfold resolveMeal.
      cbn [List.find]. destruct (contains (meal, (start, stop)) t); [done|].
      exact IH. }
  assert (Hfirst : ∀ (i : nat) w, windows !! i = Some w → contains w t = true →
       (∀ (j : nat) w', windows !! j = Some w' → contains w' t = true → (i ≤ j)%nat) →
       resolveMeal windows t = w.1).
  { clear. unfold resolveMeal. induction windows as [|w0 windows IH]; intros i w Hi Hc Hmin.
    - by rewrite lookup_nil in Hi.
    - cbn [List.find]. destruct (contains w0 t) eqn:E0.
      + assert (i ≤ 0)%nat by (apply (Hmin 0 w0); done).
        assert (i = 0) as -> by lia. by injection Hi as ->.
      + destruct i as [|i]; [injection Hi as ->; congruence|].
        apply (IH i w); [done|done|].
        intros j w' Hj Hc'. specialize (Hmin (S j) w' Hj Hc'). lia. }
  split; [done|]. split; [|split; [done|split]].
  - intros env <- <-. exact Hloop.
  - intros i w Hi Hc Huniq. apply (Hfirst i w Hi Hc).
    intros j w' Hj Hc'. rewrite (Huniq j w' Hj Hc'). lia.
  - clear. unfold resolveMeal. intros Hnone.
    destruct (List.find _ windows) as [w|] eqn:E; [|done].
    apply find_some in E as [Hin Hc]. apply list_elem_of_In in Hin.
    rewrite (Hnone w Hin) in Hc. done.
Qed.

End MealFacts.

(** ** The scanner reader *)

Section ReaderFacts.

Lemma key_char_digit (scancode : Z) (c : string) :
  key_char scancode = Some c → digit_char c.
Proof.
  unfold key_char. destruct (List.find _ KEY_MAP) as [e|] eqn:E; [|done].
  intros [= <-]. apply find_some in E as [Hin _].
  assert (Hall : Forall (λ e : Z * string, digit_char e.2) KEY_MAP).
  { repeat constructor; eexists; split; reflexivity. }
  rewrite Forall_forall in Hall. apply Hall. by apply list_elem_of_In.
Qed.

Lemma typed_digits (events : list input_event) : Forall digit_char (typed events).
Proof.
  induction events as [|event events IH]; [constructor|].
  unfold typed. cbn [omap list_omap]. fold (typed events).
  destruct (is_key_down event); [|done].
  destruct (key_char (code event)) as [c|] eqn:E; [|done].
  constructor; [by eapply key_char_digit|done].
Qed.

Lemma typed_app (xs ys : list input_event) : typed (xs ++ ys) = (typed xs ++ typed ys)%list.
Proof. unfold typed. apply omap_app. Qed.

Lemma is_digits_app (a b : string) :
  is_digits (a +:+ b) = is_digits a && is_digits b.
Proof.
  unfold is_digits. induction a as [|c a IH]; [done|].
  simpl. by rewrite IH, andb_assoc.
Qed.

Lemma concat_digits (buffer : list string) :
  Forall digit_char buffer → is_digits (String.concat "" buffer) = true.
Proof.
  induction 1 as [|c buffer (a & -> & Ha) _ IH]; [done|].
  cbn [String.concat]. destruct buffer as [|c' buffer].
  - unfold is_digits. cbn. by rewrite Ha.
  - rewrite !is_digits_app, IH. unfold is_digits at 1. cbn. by rewrite Ha.
Qed.

Lemma nonempty_digits (barcode : string) :
  is_digits barcode = true →
  Forall (λ b, b ≠ "" ∧ is_digits b = true) (nonempty barcode).
Proof.
  intros Hd. unfold nonempty. destruct (String.eqb barcode "") eqn:E; [constructor|].
  apply String.eqb_neq in E. by repeat constructor.
Qed.

Lemma scans_digits (events : list input_event) :
  ∀ buffer, Forall digit_char buffer →
  Forall (λ b, b ≠ "" ∧ is_digits b = true) (scans buffer events).
Proof.
  induction events as [|event rest IH]; intros buffer Hbuf; [constructor|].
  cbn [scans]. destruct (is_enter_down event).
  - apply Forall_app. split.
    + by apply nonempty_digits, concat_digits.
    + apply IH. constructor.
  - apply IH. apply Forall_app. split; [done|apply typed_digits].
Qed.

Lemma scans_after_enter (pre : list input_event) enter rest :
  is_enter_down enter = true →
  ∀ buffer, scans buffer (pre ++ enter :: rest)
            = (scans buffer (pre ++ [enter]) ++ scans [] rest)%list.
Proof.
  intros Henter. induction pre as [|event pre IH]; intros buffer.
  - cbn [app scans]. rewrite Henter. by rewrite app_nil_r.
  - cbn [app scans]. destruct (is_enter_down event).
    + by rewrite IH, app_assoc.
    + apply IH.
Qed.

Lemma scans_segment (seg : list input_event) enter :
  Forall (λ e, is_enter_down e = false) seg →
  is_enter_down enter = true →
  ∀ buffer, scans buffer (seg ++ [enter])
            = nonempty (String.concat "" (buffer ++ typed seg)).
Proof.
  intros Hseg Henter. induction Hseg as [|event seg Hev _ IH]; intros buffer.
  - cbn [app scans]. rewrite Henter. by rewrite !app_nil_r.
  - cbn [app scans]. rewrite Hev, IH.
    change (event :: seg) with ([event] ++ seg)%list.
    by rewrite typed_app, app_assoc.
Qed.

Lemma read_loop_scans (process : string → io unit) (events : list input_event) :
  ∀ buffer sent,
  read_loop process buffer events sent = run_each process (scans buffer events) sent.
Proof.
  induction events as [|event rest IH]; intros buffer sent; [done|].
  cbn [read_loop scans]. unfold is_enter_down, is_key_down, typed.
  cbn [omap list_omap]. unfold is_key_down.
  destruct (ev_type event =? EV_KEY)%Z; cbn [negb andb];
    [|by rewrite app_nil_r].
  destruct (value event =? key_down)%Z; cbn [negb andb];
    [|by rewrite app_nil_r].
  destruct (code event =? KEY_ENTER)%Z.
  - unfold nonempty. destruct (String.eqb (String.concat "" buffer) ""); cbn [negb app].
    + apply IH.
    + cbn [run_each]. unfold mbind, io_bind.
      destruct (process (String.concat "" buffer) sent) as [[[]|e] sent']; [apply IH|done].
  - destruct (key_char (code event)); [apply IH|]. by rewrite app_nil_r.
Qed.

(** C10. The reader runs the pipeline on the barcodes of [scans], in order:
    each is non-empty and made of decimal digits only; what follows an Enter
    does not depend on what was typed before it; and the events up to an
    Enter give the digits typed among them, keys outside [KEY_MAP] and
    events that are not key presses left out, or no run at all when no
    digit was typed. *)
Theorem read_barcodes_evdev_scans (process : string → io unit)
    (events : list input_event) (sent : list request) :
  read_barcodes_evdev process events sent = run_each process (scans [] events) sent
  ∧ Forall (λ barcode, barcode ≠ "" ∧ is_digits barcode = true) (scans [] events)
  ∧ (∀ pre enter rest, events = (pre ++ enter :: rest)%list →
       is_enter_down enter = true →
       scans [] events = (scans [] (pre ++ [enter]) ++ scans [] rest)%list)
  ∧ (∀ seg enter, Forall (λ e, is_enter_down e = false) seg →
       is_enter_down enter = true →
       scans [] (seg ++ [enter]) = nonempty (String.concat "" (typed seg))).
Proof.
  split; [apply read_loop_scans|]. split; [apply scans_digits; constructor|]. split.
  - intros pre enter rest -> Henter. by apply scans_after_enter.
  - intros seg enter Hseg Henter. by rewrite (scans_segment seg enter Hseg Henter []).
Qed.

End ReaderFacts.

(** ** The pipeline *)

Section PipelineFacts.
Context `{PyBuiltins} (env : environ).

Lemma process_barcode_parts (barcode : string) (meal_type : option string)
    (sent : list request) :
  process_barcode env barcode meal_type sent =
    (m ← lift (resolve_meal env meal_type);
     record ← gather_record env barcode;
     match record with
     | None => mret tt
     | Some s => s' ← lift (flag_if_incomplete s); create_and_log env m s'
     end) sent.
Proof.
  unfold process_barcode, gather_record, create_and_log, resolve_meal, mbind, io_bind, lift.
  destruct meal_type as [m|]; [|destruct (current_meal_type env) as [m|e]; [|reflexivity]].
  all: cbn [mret io_ret].
  all: destruct (lookup_barcode env barcode sent) as [[product|e] sent1]; [|reflexivity].
  all: destruct (truthy product); cbn [negb]; [|reflexivity].
  all: destruct (py_get product "product_name" (VStr "?")) as [name|e]; [|reflexivity].
  all: destruct (py_get product "brands" (VStr "")) as [brand|e]; [|reflexivity].
  all: destruct (build_food_suggestion product) as [s|e]; [|reflexivity].
  all: destruct (enrich_if_incomplete env barcode brand name s sent1) as [[s1|e] sent2]; [|reflexivity].
  all: cbn [mret io_ret].
  all: destruct (flag_if_incomplete s1) as [s2|e]; [|reflexivity].
  all: reflexivity.
Qed.

Lemma io_bind_run {A B : Type} (m : io A) (f : A → io B) (sent : list request) :
  (m ≫= f) sent =
    match m sent with
    | (Ok a, sent') => f a sent'
    | (Raise e, sent') => (Raise e, sent')
    end.
Proof. done. Qed.

Lemma get_scale_weight_ok (sent : list request) :
  ∃ w sent', get_scale_weight env sent = (Ok w, sent') ∧ ∀ q, w = Some q → (0 < q)%Q.
Proof.
  unfold get_scale_weight.
  destruct (SCALE_URL env) as [[|c url]|]; try (by exists None, sent).
  unfold try_except, read_weight. rewrite io_bind_run. unfold http.
  destruct (server env sent _) as [resp|e]; [|by eexists None, _].
  destruct (status_code resp =? 200)%Z; [|by eexists None, _].
  rewrite io_bind_run. unfold lift.
  destruct (json resp) as [data|e]; [|by eexists None, _].
  rewrite io_bind_run.
  destruct (py_get data "value" (VNum 0)) as [v|e]; [|by eexists None, _].
  rewrite io_bind_run.
  destruct (py_float v) as [w|e]; [|by eexists None, _].
  cbn [mret io_ret]. destruct (Qlt_bool 0 w) eqn:E.
  - eexists (Some w), _. split; [done|]. intros q [= <-]. by apply Qlt_bool_iff.
  - eexists None, _. split; [reflexivity|]. by intros q [=].
Qed.

Lemma get_scale_weight_sent (sent : list request) :
  ∃ extra, (get_scale_weight env sent).2 = (sent ++ extra)%list.
Proof.
  unfold get_scale_weight.
  destruct (SCALE_URL env) as [[|c url]|]; try (exists []; by rewrite app_nil_r).
  exists [GET (String c url) [] []].
  unfold try_except, read_weight. rewrite io_bind_run. unfold http.
  destruct (server env sent _) as [resp|e]; [|done].
  destruct (status_code resp =? 200)%Z; [|done].
  rewrite io_bind_run. unfold lift.
  destruct (json resp) as [data|e]; [|done].
  rewrite io_bind_run.
  destruct (py_get data "value" (VNum 0)) as [v|e]; [|done].
  rewrite io_bind_run.
  by destruct (py_float v) as [w|e].
Qed.


Lemma lookup_barcode_not_found (barcode : string) (sent : list request) :
  is_not_found (server env sent (off_request env barcode)) = true →
  lookup_barcode env barcode sent = (Ok VNone, (sent ++ [off_request env barcode])%list).
Proof.
  unfold is_not_found, lookup_barcode, off_request. rewrite io_bind_run.
  unfold http. destruct (server env sent _) as [resp|e]; [|done].
  destruct (status_code resp =? 200)%Z; cbn [negb orb]; [|done].
  rewrite io_bind_run. unfold lift.
  destruct (json resp) as [[| | | | |d]|e]; try done.
  by intros ->.
Qed.

Lemma process_barcode_not_found (barcode : string) (meal_type : option string)
    (sent : list request) :
  is_not_found (server env sent (off_request env barcode)) = true →
  lookup_barcode env barcode sent = (Ok VNone, (sent ++ [off_request env barcode])%list)
  ∧ process_barcode env barcode meal_type sent =
      match resolve_meal env meal_type with
      | Ok _ => (Ok tt, (sent ++ [off_request env barcode])%list)
      | Raise e => (Raise e, sent)
      end
  ∧ ∀ url payload,
      POST url payload ∉ drop (length sent) (process_barcode env barcode meal_type sent).2.
Proof.
  intros Hnf. pose proof (lookup_barcode_not_found barcode sent Hnf) as Hlookup.
  assert (Hrun : process_barcode env barcode meal_type sent =
      match resolve_meal env meal_type with
      | Ok _ => (Ok tt, (sent ++ [off_request env barcode])%list)
      | Raise e => (Raise e, sent)
      end).
  { rewrite process_barcode_parts, io_bind_run. unfold lift.
    destruct (resolve_meal env meal_type) as [m|e]; [|done].
    rewrite io_bind_run. unfold gather_record. rewrite io_bind_run, Hlookup. done. }
  split; [done|]. split; [done|].
  intros url payload. rewrite Hrun.
  destruct (resolve_meal env meal_type) as [m|e]; cbn [snd].
  - rewrite drop_app_length. unfold off_request.
    intros Hin. by apply list_elem_of_singleton in Hin.
  - rewrite drop_all. apply not_elem_of_nil.
Qed.

(** C8. When the primary lookup answers with a status other than 200, or
    with a body whose status flag is not 1 or that has no product,
    [lookup_barcode] returns None and the run ends there: the lookup is
    the only request sent, so nothing is posted to the catalog or to the
    diary. *)
Theorem not_found_aborts (barcode : string) (meal_type : option string)
    (sent : list request) :
  is_not_found (server env sent (off_request env barcode)) = true →
  lookup_barcode env barcode sent = (Ok VNone, (sent ++ [off_request env barcode])%list)
  ∧ process_barcode env barcode meal_type sent =
      match resolve_meal env meal_type with
      | Ok _ => (Ok tt, (sent ++ [off_request env barcode])%list)
      | Raise e => (Raise e, sent)
      end
  ∧ ∀ url payload,
      POST url payload ∉ drop (length sent) (process_barcode env barcode meal_type sent).2.
Proof. apply process_barcode_not_found. Qed.

Lemma enrich_if_incomplete_fills barcode brand name (s s' : gmap string pyval)
    (sent sent' : list request) :
  enrich_if_incomplete env barcode brand name s sent = (Ok s', sent') → fills s s'.
Proof.
  unfold enrich_if_incomplete. rewrite io_bind_run. unfold lift.
  destruct (is_nutrition_complete s) as [[|]|e]; [|..|done].
  - intros [= <- _]. apply fills_refl.
  - rewrite io_bind_run.
    destruct (search_usda env barcode brand name sent) as [[food|e] sent1]; [|done].
    destruct (truthy food); [|intros [= <- _]; apply fills_refl].
    destruct (finish (enrich_from_usda s food)) as [s1|e] eqn:E; [|done].
    intros [= <- _]. apply finish_ok in E.
    pose proof (enrich_from_usda_fills s food) as Hfills. by rewrite E in Hfills.
Qed.

Lemma gather_record_scan_record barcode (s : gmap string pyval) (sent sent' : list request) :
  gather_record env barcode sent = (Ok (Some s), sent') → scan_record s.
Proof.
  unfold gather_record. rewrite io_bind_run.
  destruct (lookup_barcode env barcode sent) as [[product|e] sent1]; [|done].
  destruct (truthy product); cbn [negb]; [|done].
  rewrite io_bind_run. unfold lift.
  destruct (py_get product "product_name" (VStr "?")) as [name|e]; [|done].
  rewrite io_bind_run.
  destruct (py_get product "brands" (VStr "")) as [brand|e]; [|done].
  rewrite io_bind_run.
  destruct (build_food_suggestion product) as [s0|e] eqn:Hbuild; [|done].
  rewrite io_bind_run.
  destruct (enrich_if_incomplete env barcode brand name s0 sent1) as [[s1|e] sent2] eqn:Henrich;
    [|done].
  intros [= <- _]. apply (fills_scan_record s0).
  - by eapply enrich_if_incomplete_fills.
  - by eapply build_food_suggestion_scan_record.
Qed.

Lemma flagged_nutrient_record (s : gmap string pyval) name :
  is_nutrient_record s = true → is_nutrient_record (flagged s name) = true.
Proof.
  intros Hrec. apply nutrient_record_intro. intros k Hk. unfold flagged.
  rewrite !lookup_insert_ne.
  - by apply nutrient_record_lookup.
  - intros <-. by apply name_not_nutrient.
  - intros <-. by apply custom_nutrients_not_nutrient.
Qed.

Lemma mark_for_review_flagged (s : gmap string pyval) name :
  s !! "name" = Some (VStr name) →
  s !! "custom_nutrients" = Some (VDict ∅) →
  mark_for_review s = Ok (flagged s name).
Proof.
  intros Hname Hcustom. unfold mark_for_review. rewrite Hname.
  cbn [mbind result_bind]. rewrite lookup_insert_ne by done. by rewrite Hcustom.
Qed.

Lemma log_macros_ok (s : gmap string pyval) :
  is_nutrient_record s = true → log_macros s = Ok tt.
Proof.
  intros Hrec. unfold log_macros.
  assert (Hall : forallb (λ k, bool_decide (is_Some (s !! k)))
                         ["calories"; "protein"; "carbs"; "fat"] = true).
  { apply forallb_forall. intros k Hk. apply bool_decide_eq_true_2.
    destruct (nutrient_record_lookup s k Hrec) as [q ->]; [|done].
    apply list_elem_of_In. simpl in *. tauto. }
  by rewrite Hall.
Qed.

Lemma create_or_get_food_sent (s : gmap string pyval) (sent : list request) :
  (create_or_get_food env s sent).2
  = (sent ++ [POST (SPARKY_URL env +:+ "/api/foods") (VDict s)])%list.
Proof.
  unfold create_or_get_food. rewrite io_bind_run. unfold http.
  destruct (server env sent _) as [resp|e]; [|done].
  destruct (negb _); [done|].
  rewrite io_bind_run. unfold lift. destruct (json resp) as [data|e]; [|done].
  rewrite io_bind_run. destruct (py_get data "default_variant" _) as [variant|e]; [|done].
  rewrite io_bind_run. destruct (py_get data "id" _) as [food_id|e]; [|done].
  rewrite io_bind_run. by destruct (py_get variant "id" _).
Qed.

Lemma log_food_entry_sent food_id variant_id meal weight (sent : list request) :
  (log_food_entry env food_id variant_id meal weight sent).2
  = (sent ++ [POST (SPARKY_URL env +:+ "/api/food-entries")
                   (VDict (entry_body env food_id variant_id meal weight))])%list.
Proof.
  unfold log_food_entry. rewrite io_bind_run. unfold http.
  by destruct (server env sent _).
Qed.

Lemma log_entry_sent food_id variant_id meal (sent : list request) :
  ∃ weight extra,
    get_scale_weight env sent = (Ok weight, (sent ++ extra)%list)
    ∧ ((weight ← get_scale_weight env;
        _ ← log_food_entry env food_id variant_id meal weight;
        mret tt) sent).2
      = ((sent ++ extra) ++ [POST (SPARKY_URL env +:+ "/api/food-entries")
                                  (VDict (entry_body env food_id variant_id meal weight))])%list.
Proof.
  destruct (get_scale_weight_ok sent) as (w & sent3 & Hw & _).
  destruct (get_scale_weight_sent sent) as [extra Hextra].
  rewrite Hw in Hextra. cbn [snd] in Hextra. subst sent3.
  exists w, extra. split; [done|].
  rewrite io_bind_run, Hw, io_bind_run.
  pose proof (log_food_entry_sent food_id variant_id meal w (sent ++ extra)) as Hentry.
  by destruct (log_food_entry env _ _ _ _ _) as [[ok|e] sent4].
Qed.

(** C5. Once the meal slot is resolved and the scan has a record, the
    pipeline posts a food to the catalog: the record as it is when it is
    complete, and the record with " [REVIEW]" appended to its name and
    [needs_review] set in [custom_nutrients] when it is incomplete; in both
    cases, when the catalog answers with a food id and a variant id, the
    diary entry is posted next (after the scale is read). *)
Theorem incomplete_record_is_flagged (barcode : string) (meal_type : option string)
    (m : string) (sent sent1 : list request) (s : gmap string pyval) :
  resolve_meal env meal_type = Ok m →
  gather_record env barcode sent = (Ok (Some s), sent1) →
  ∃ (complete : bool) (name : string),
    is_nutrition_complete s = Ok complete
    ∧ s !! "name" = Some (VStr name)
    ∧ s !! "custom_nutrients" = Some (VDict ∅)
    ∧ let record := if complete then s else flagged s name in
      let create := POST (SPARKY_URL env +:+ "/api/foods") (VDict record) in
      (∃ rest, (process_barcode env barcode meal_type sent).2
               = (sent1 ++ create :: rest)%list)
      ∧ ∀ food_id variant_id sent2,
          create_or_get_food env record sent1 = (Ok (food_id, variant_id), sent2) →
          truthy food_id = true → truthy variant_id = true →
          ∃ weight sent3,
            get_scale_weight env sent2 = (Ok weight, sent3)
            ∧ (process_barcode env barcode meal_type sent).2
              = (sent3 ++ [POST (SPARKY_URL env +:+ "/api/food-entries")
                                (VDict (entry_body env food_id variant_id m weight))])%list.
Proof.
  intros Hmeal Hgather.
  destruct (gather_record_scan_record _ _ _ _ Hgather) as (Hrec & [name Hname] & Hcustom).
  destruct (nutrition_complete_cases s Hrec) as (complete & Hcomplete & _).
  exists complete, name. do 3 (split; [done|]). intros record create.
  assert (Hflag : flag_if_incomplete s = Ok record).
  { unfold flag_if_incomplete. rewrite Hcomplete. cbn [mbind result_bind].
    unfold record. destruct complete; [done|]. by apply mark_for_review_flagged. }
  assert (Hlog : log_macros record = Ok tt).
  { apply log_macros_ok. unfold record. destruct complete; [done|].
    by apply flagged_nutrient_record. }
  assert (Hrun : process_barcode env barcode meal_type sent
                 = create_and_log env m record sent1).
  { rewrite process_barcode_parts, io_bind_run. unfold lift. rewrite Hmeal.
    rewrite io_bind_run, Hgather, io_bind_run. by rewrite Hflag. }
  assert (Hcreate : create_and_log env m record sent1 =
    match create_or_get_food env record sent1 with
    | (Ok ids, sent2) =>
        if negb (truthy ids.1) || negb (truthy ids.2) then (Ok tt, sent2)
        else (weight ← get_scale_weight env;
              _ ← log_food_entry env ids.1 ids.2 m weight;
              mret tt) sent2
    | (Raise e, sent2) => (Raise e, sent2)
    end).
  { unfold create_and_log. rewrite io_bind_run. unfold lift at 1.
    rewrite Hlog, io_bind_run.
    destruct (create_or_get_food env record sent1) as [[ids|e] sent2]; [|done].
    by destruct (negb (truthy ids.1) || negb (truthy ids.2)). }
  rewrite Hrun, Hcreate.
  pose proof (create_or_get_food_sent record sent1) as Hsent.
  destruct (create_or_get_food env record sent1) as [[[food_id variant_id]|e] sent2].
  all: cbn [fst snd] in *; subst sent2.
  - destruct (log_entry_sent food_id variant_id m (sent1 ++ [create]))
      as (w & extra & Hw & Htail).
    unfold create in *.
    split.
    + destruct (negb (truthy food_id) || negb (truthy variant_id)).
      * by exists [].
      * exists (extra ++ [POST (SPARKY_URL env +:+ "/api/food-entries")
                            (VDict (entry_body env food_id variant_id m w))])%list.
        rewrite Htail. by rewrite <- !app_assoc.
    + intros food_id' variant_id' sent2 [= <- <- <-] Hfood Hvariant.
      rewrite Hfood, Hvariant. cbn [negb orb]. by eexists w, _.
  - split; [by exists []|]. by intros ???.
Qed.

Lemma lookup_usda_disabled (query : pyval) (sent : list request) :
  USDA_PROVIDER_ID env = "" → lookup_usda env query sent = (Ok VNone, sent).
Proof. intros Hid. unfold lookup_usda. by rewrite Hid. Qed.

Lemma lookup_usda_sent (query : pyval) (sent : list request) :
  USDA_PROVIDER_ID env ≠ "" →
  (lookup_usda env query sent).2 = (sent ++ [usda_request env query])%list.
Proof.
  intros Hid%String.eqb_neq. unfold lookup_usda, usda_request. rewrite Hid.
  rewrite io_bind_run. unfold http.
  destruct (server env sent _) as [resp|e]; [|done].
  destruct (negb _); [done|].
  rewrite io_bind_run. unfold lift. destruct (json resp) as [data|e]; [|done].
  rewrite io_bind_run. destruct (py_get data "foods" _) as [foods|e]; [|done].
  by destruct (truthy foods).
Qed.






Lemma populate_step_commute nutriments (s : gmap string pyval) entry k v :
  k ≠ entry.2 →
  populate_step nutriments (<[k := v]> s) entry
  = insert k v <$> populate_step nutriments s entry.
Proof.
  destruct entry as [off_key key]. cbn [snd]. intros Hne. unfold populate_step.
  destruct (py_get nutriments off_key VNone) as [val|e]; [|done].
  cbn [mbind result_bind].
  assert (Hnum : ∀ r : result Q,
    (x ← r; Ok (<[key := VNum (round2 x)]> (<[k := v]> s)))
    = insert k v <$> (x ← r; Ok (<[key := VNum (round2 x)]> s))).
  { intros [x|e]; [|done]. cbn. by rewrite (insert_insert_ne s k key). }
  destruct val; try apply Hnum. cbn. by rewrite (insert_insert_ne s k key).
Qed.

Lemma populate_loop_commute nutriments (l : list (string * string)) k v :
  k ∉ l.*2 →
  ∀ s : gmap string pyval,
  finish (for_each (populate_step nutriments) (<[k := v]> s) l)
  = insert k v <$> finish (for_each (populate_step nutriments) s l).
Proof.
  induction l as [|entry l IH]; intros Hnot s; [done|].
  cbn [fmap list_fmap] in Hnot. apply not_elem_of_cons in Hnot as [Hne Hnot].
  cbn [for_each]. rewrite (populate_step_commute _ _ _ _ _ Hne).
  destruct (populate_step nutriments s entry) as [s1|e]; [|done].
  cbn [fmap result_fmap]. by apply IH.
Qed.

Lemma base_suggestion_is_custom (name brand barcode : pyval) :
  base_suggestion name brand barcode
  = <["is_custom" := VBool true]> (Legacy.base_suggestion name brand barcode).
Proof.
  unfold base_suggestion, Legacy.base_suggestion. cbn [list_to_map foldr fst snd].
  repeat (rewrite (insert_insert_ne _ "is_custom") by done; f_equal).
Qed.

Lemma keeps_case_title (v : pyval) : keeps_case v = true → title_if_upper v = Ok v.
Proof.
  destruct v as [| | |t| |]; try done. cbn [keeps_case title_if_upper].
  by intros ->%negb_true_iff.
Qed.

Lemma legacy_build_agrees (product : pyval) :
  is_plain_product product = true →
  build_food_suggestion product
  = insert "is_custom" (VBool true) <$> Legacy.build_food_suggestion product.
Proof.
  destruct product as [| | | | |d]; try done.
  unfold is_plain_product. rewrite !andb_true_iff, negb_true_iff.
  intros [[Hest Hname] Hbrand].
  unfold build_food_suggestion, Legacy.build_food_suggestion, py_get.
  cbn [mbind result_bind].
  rewrite (keeps_case_title _ Hname), (keeps_case_title _ Hbrand).
  cbn [mbind result_bind]. rewrite base_suggestion_is_custom.
  rewrite populate_loop_commute.
  - destruct (finish (for_each _ _ NUTRIENT_MAP)) as [s|e]; [|done].
    cbn [fmap result_fmap mbind result_bind]. unfold fill_estimated. by rewrite Hest.
  - apply (bool_decide_unpack _). vm_compute. exact I.
Qed.

Lemma legacy_build_nutrient_record (product : pyval) (s : gmap string pyval) :
  Legacy.build_food_suggestion product = Ok s →
  is_nutrient_record s = true ∧ ∃ d, product = VDict d.
Proof.
  unfold Legacy.build_food_suggestion.
  destruct product as [| | | | |d]; try done. cbn [py_get mbind result_bind].
  intros Hrun%finish_ok%populate_loop_sound. split; [|by exists d].
  apply nutrient_record_intro. apply Hrun.
Qed.

Lemma legacy_process_entry (barcode : string) (meal_type : option string) (m : string)
    (product food_id variant_id : pyval) (s : gmap string pyval)
    (sent sent1 sent2 sent3 : list request) :
  resolve_meal env meal_type = Ok m →
  lookup_barcode env barcode sent = (Ok product, sent1) →
  truthy product = true →
  Legacy.build_food_suggestion product = Ok s →
  Legacy.create_or_get_food env s sent1 = (Ok food_id, sent2) →
  truthy food_id = true →
  Legacy.get_default_variant env food_id sent2 = (Ok variant_id, sent3) →
  truthy variant_id = true →
  ∃ weight sent4,
    get_scale_weight env sent3 = (Ok weight, sent4)
    ∧ (Legacy.process_barcode env barcode meal_type sent).2
      = (sent4 ++ [POST (SPARKY_URL env +:+ "/api/food-entries")
                        (VDict (entry_body env food_id variant_id m weight))])%list.
Proof.
  intros Hmeal Hlookup Hproduct Hbuild Hcreate Hfood Hvariant Hvid.
  destruct (legacy_build_nutrient_record _ _ Hbuild) as [Hrec [d ->]].
  destruct (log_entry_sent food_id variant_id m sent3) as (w & extra & Hw & Htail).
  exists w, (sent3 ++ extra)%list. split; [done|].
  rewrite <- Htail. unfold Legacy.process_barcode, resolve_meal in *.
  rewrite io_bind_run.
  assert (Hm : (match meal_type with
                | Some m0 => mret m0
                | None => lift (current_meal_type env)
                end) sent = (Ok m, sent)).
  { destruct meal_type; [by injection Hmeal as ->|]. unfold lift. by rewrite Hmeal. }
  rewrite Hm, io_bind_run, Hlookup, Hproduct. cbn [negb py_get].
  rewrite io_bind_run. unfold lift at 1. rewrite io_bind_run. unfold lift at 1.
  rewrite io_bind_run. unfold lift at 1. rewrite Hbuild.
  rewrite io_bind_run. unfold lift at 1. rewrite (log_macros_ok _ Hrec).
  rewrite io_bind_run, Hcreate, Hfood. cbn [negb].
  rewrite io_bind_run, Hvariant, Hvid. cbn [negb]. done.
Qed.

(** C9 (as amended). The simpler variant differs from the full one in
    more than steps 3 and 4.  What the two share: for a product with no
    estimated values whose name and brand are text not entirely in upper
    case, the full variant builds the record of the simpler variant with
    [is_custom] added; when the primary lookup finds nothing both end the
    run the same way; and once the simpler variant has a food id and a
    variant id, from its two catalog calls, it posts the diary entry the
    full variant would post for them. *)
Theorem legacy_variant_agreement (product : pyval) :
  is_plain_product product = true →
  build_food_suggestion product
    = insert "is_custom" (VBool true) <$> Legacy.build_food_suggestion product
  ∧ (∀ barcode meal_type sent,
       is_not_found (server env sent (off_request env barcode)) = true →
       Legacy.process_barcode env barcode meal_type sent
       = process_barcode env barcode meal_type sent)
  ∧ (∀ barcode meal_type m food_id variant_id s sent sent1 sent2 sent3,
       resolve_meal env meal_type = Ok m →
       lookup_barcode env barcode sent = (Ok product, sent1) →
       truthy product = true →
       Legacy.build_food_suggestion product = Ok s →
       Legacy.create_or_get_food env s sent1 = (Ok food_id, sent2) →
       truthy food_id = true →
       Legacy.get_default_variant env food_id sent2 = (Ok variant_id, sent3) →
       truthy variant_id = true →
       ∃ weight sent4,
         get_scale_weight env sent3 = (Ok weight, sent4)
         ∧ (Legacy.process_barcode env barcode meal_type sent).2
           = (sent4 ++ [POST (SPARKY_URL env +:+ "/api/food-entries")
                             (VDict (entry_body env food_id variant_id m weight))])%list).
Proof.
  intros Hplain. split; [by apply legacy_build_agrees|]. split.
  - intros barcode meal_type sent Hnf.
    destruct (process_barcode_not_found barcode meal_type sent Hnf) as (Hlookup & -> & _).
    unfold Legacy.process_barcode, resolve_meal. rewrite io_bind_run.
    destruct meal_type as [m|]; [|unfold lift; destruct (current_meal_type env) as [m|e]; [|done]].
    all: cbn [mret io_ret]; by rewrite io_bind_run, Hlookup.
  - intros. by eapply legacy_process_entry.
Qed.

End PipelineFacts.

(** ** The model at the sample data *)

#[local] Existing Instance plain_builtins.

Example round2_half_even :
  (round2 0.125 == 0.12 ∧ round2 0.135 == 0.14 ∧ round2 0.004 == 0
   ∧ round2 (250 / 100) == 2.5)%Q.
Proof. repeat split; reflexivity. Qed.

Example doubles :
  to_double (1 # 10) = (3602879701896397 # 36028797018963968)%Q
  ∧ to_double 250 = 250%Q
  ∧ (float_div (3 # 2) 100 < 15 # 1000)%Q
  ∧ (15 # 1000 < float_div (1 # 2) 100 * 3)%Q
  ∧ (25 # 1000 < float_div (5 # 2) 100)%Q.
Proof. repeat split; vm_compute; reflexivity. Qed.

Example title_of_upper_case :
  str_isupper "COLA ZERO" = true ∧ str_title "COLA ZERO" = "Cola Zero"
  ∧ str_isupper "Cola" = false ∧ str_isupper "123" = false.
Proof. repeat split; reflexivity. Qed.

Example strptime_examples :
  strptime_HM "05:00" = Ok {| hour := 5; minute := 0; second := 0; microsecond := 0 |}
  ∧ strptime_HM "5:7" = Ok {| hour := 5; minute := 7; second := 0; microsecond := 0 |}
  ∧ strptime_HM "24:00" = Raise ValueError
  ∧ strptime_HM "05:60" = Raise ValueError
  ∧ parse_window "05:00 - 10:00" = parse_window "05:00-10:00".
Proof. repeat split; reflexivity. Qed.

(** Digits, a key release, a letter, Enter, an Enter on an empty buffer,
    one more digit and Enter: two scans. *)
Example scans_example :
  let key c v := {| ev_type := EV_KEY; code := c; value := v |} in
  scans [] [key 2 1; key 2 0; key 11 1; key 30 1; key 28 1; key 28 1; key 5 1; key 28 1]%Z
  = ["10"; "4"].
Proof. reflexivity. Qed.

Example cola_scan_requests :
  request_url <$> (process_barcode (sample_env cola) "5000112548167" None []).2
  = [ "http://sparky/api/foods/openfoodfacts/barcode/5000112548167";
      "http://sparky/api/foods";
      "http://scale/sensor/weight";
      "http://sparky/api/food-entries" ].
Proof. vm_compute. reflexivity. Qed.

Example legacy_cola_scan_requests :
  request_url <$> (Legacy.process_barcode (sample_env cola) "5000112548167" None []).2
  = [ "http://sparky/api/foods/openfoodfacts/barcode/5000112548167";
      "http://sparky/api/foods/create-or-get";
      "http://sparky/api/foods/food-variants";
      "http://scale/sensor/weight";
      "http://sparky/api/food-entries" ].
Proof. vm_compute. reflexivity. Qed.

Example sample_food_fill :
  let s := (enrich_from_usda blank_record sample_food).1 in
  s !! "protein" = Some (VNum 7) ∧ s !! "fat" = Some (VNum (173 # 50))
  ∧ s !! "carbs" = Some (VNum 0).
Proof. repeat split; vm_compute; reflexivity. Qed.

(** ** The claims at the sample data *)


Lemma build_food_suggestion_nutrients_witness :
  ∃ s : gmap string pyval,
    build_food_suggestion cola = Ok s
    ∧ is_nutrient_record s = true
    ∧ ∀ off_key key, (off_key, key) ∈ NUTRIENT_MAP →
        s !! key = Some (VNum (with_estimate cola off_key (measured cola off_key))).
Proof. apply (@build_food_suggestion_nutrients plain_builtins cola). vm_compute. reflexivity. Defined.

Lemma is_nutrition_complete_iff_witness :
  ∃ b : bool,
    is_nutrition_complete sample_record = Ok b
    ∧ (b = true ↔
       ∃ k q, k ∈ ["protein"; "carbs"; "fat"] ∧ sample_record !! k = Some (VNum q) ∧ (0 < q)%Q)
    ∧ ((∀ k, k ∈ ["protein"; "carbs"; "fat"] →
          ∃ q, sample_record !! k = Some (VNum q) ∧ (q == 0)%Q) →
       b = false).
Proof. apply (is_nutrition_complete_iff sample_record). vm_compute. reflexivity. Defined.

Lemma enrichment_never_overwrites_witness :
  (fill_estimated sample_record (dict [("proteins_100g", VNum 9)])).1 !! "protein"
    = sample_record !! "protein"
  ∧ (enrich_from_usda sample_record sample_food).1 !! "protein"
    = sample_record !! "protein".
Proof.
  apply (@enrichment_never_overwrites plain_builtins).
  right. exists (VNum 5). split; vm_compute; reflexivity.
Defined.


Lemma incomplete_record_is_flagged_witness :
  ∃ (s : gmap string pyval) (sent1 rest : list request) (complete : bool) (name : string),
    gather_record (sample_env mystery) "4000000000006" [] = (Ok (Some s), sent1)
    ∧ is_nutrition_complete s = Ok complete
    ∧ (process_barcode (sample_env mystery) "4000000000006" None []).2
      = (sent1 ++ POST "http://sparky/api/foods"
                       (VDict (if complete then s else flagged s name)) :: rest)%list.
Proof.
  assert (Hfound : has_record (gather_record (sample_env mystery) "4000000000006" []) = true)
    by (vm_compute; reflexivity).
  assert (Hmeal : resolve_meal (sample_env mystery) None = Ok "Lunch")
    by (vm_compute; reflexivity).
  destruct (gather_record (sample_env mystery) "4000000000006" [])
    as [[[s|]|e] sent1] eqn:Hgather; try discriminate Hfound.
  destruct (incomplete_record_is_flagged (sample_env mystery) "4000000000006" None
              "Lunch" [] sent1 s Hmeal Hgather)
    as (complete & name & Hcomplete & _ & _ & [rest Hrest] & _).
  exists s, sent1, rest, complete, name. split; [reflexivity|]. split; [exact Hcomplete|].
  exact Hrest.
Defined.

Lemma current_meal_type_first_window_witness :
  current_meal_type (sample_env cola) = Ok "Lunch".
Proof.
  pose (t := now (sample_env cola)).
  pose (at_ := λ h : Z, {| hour := h; minute := 0; second := 0; microsecond := 0 |}).
  pose (windows := [("Breakfast", (at_ 5%Z, at_ 10%Z)); ("Lunch", (at_ 11%Z, at_ 13%Z));
                    ("Dinner", (at_ 14%Z, at_ 16%Z))]).
  destruct (current_meal_type_first_window t (MEAL_WINDOWS (sample_env cola)) windows)
    as (_ & Henv & _).
  - repeat (constructor; [split; reflexivity|]). constructor.
  - apply (Henv (sample_env cola)); reflexivity.
Defined.

Lemma not_found_aborts_witness :
  process_barcode empty_env "4000000000006" None []
  = (Ok tt, [off_request empty_env "4000000000006"]).
Proof.
  destruct (not_found_aborts empty_env "4000000000006" None []) as (_ & Hrun & _).
  - vm_compute. reflexivity.
  - exact Hrun.
Defined.

Lemma legacy_variant_agreement_witness :
  build_food_suggestion mystery
  = insert "is_custom" (VBool true) <$> Legacy.build_food_suggestion mystery.
Proof.
  destruct (legacy_variant_agreement (sample_env mystery) mystery) as (Hbuild & _).
  - vm_compute. reflexivity.
  - exact Hbuild.
Defined.

(** C9 (as stated) fails at [cola]: the two builders give different
    records (the name, the fat value and [is_custom] differ), and the
    simpler variant does not send the requests of the full variant without
    steps 3 and 4. *)
Lemma legacy_variant_counterexample :
  Legacy.build_food_suggestion cola ≠ build_food_suggestion cola
  ∧ Legacy.process_barcode (sample_env cola) "5000112548167" (Some "Lunch") []
    ≠ process_barcode_without_steps_3_4 (sample_env cola) "5000112548167" (Some "Lunch") [].
Proof.
  split.
  - intros Heq.
    apply (f_equal (λ r : result (gmap string pyval),
                      match r with Ok s => s !! "name" | Raise _ => None end)) in Heq.
    vm_compute in Heq. discriminate.
  - intros Heq.
    apply (f_equal (λ r : result unit * list request, request_url <$> r.2)) in Heq.
    vm_compute in Heq. discriminate.
Qed.

(** ** Strings *)

Section StringFacts.

Lemma lstrip_is_lstrip_of (s : string) : lstrip s = lstrip_of is_space s.
Proof. induction s as [|c s IH]; [done|]. cbn. by rewrite IH. Qed.

Lemma rstrip_is_rstrip_of (s : string) : rstrip s = rstrip_of is_space s.
Proof. induction s as [|c s IH]; [done|]. cbn. by rewrite IH. Qed.

Lemma strip_is_strip_of (s : string) : strip s = strip_of is_space s.
Proof. unfold strip, strip_of. by rewrite rstrip_is_rstrip_of, lstrip_is_lstrip_of. Qed.

Lemma lstrip_of_starts (p : ascii → bool) (s : string) :
  starts_with p (lstrip_of p s) = false.
Proof.
  induction s as [|c s IH]; [done|]. cbn [lstrip_of].
  destruct (p c) eqn:E; [done|]. cbn. done.
Qed.

Lemma rstrip_of_ends (p : ascii → bool) (s : string) :
  ends_with p (rstrip_of p s) = false.
Proof.
  induction s as [|c s IH]; [done|]. cbn [rstrip_of].
  destruct (rstrip_of p s) as [|c' t] eqn:E.
  - destruct (p c) eqn:Ec; [done|]. cbn. done.
  - cbn [ends_with]. exact IH.
Qed.

Lemma rstrip_of_starts (p : ascii → bool) (s : string) :
  starts_with p s = false → starts_with p (rstrip_of p s) = false.
Proof.
  destruct s as [|c s]; [done|]. cbn [starts_with rstrip_of]. intros Hc.
  destruct (rstrip_of p s); [by rewrite Hc|done].
Qed.

Lemma strip_of_trimmed (p : ascii → bool) (s : string) : trimmed p (strip_of p s).
Proof.
  split.
  - apply rstrip_of_starts, lstrip_of_starts.
  - apply rstrip_of_ends.
Qed.

Lemma lstrip_of_id (p : ascii → bool) (s : string) :
  starts_with p s = false → lstrip_of p s = s.
Proof. destruct s as [|c s]; [done|]. cbn. by intros ->. Qed.

Lemma rstrip_of_id (p : ascii → bool) (s : string) :
  ends_with p s = false → rstrip_of p s = s.
Proof.
  induction s as [|c s IH]; [done|]. cbn [ends_with rstrip_of].
  destruct s as [|c' s].
  - cbn. by intros ->.
  - intros Hends. by rewrite (IH Hends).
Qed.

Lemma strip_of_id (p : ascii → bool) (s : string) : trimmed p s → strip_of p s = s.
Proof.
  intros [Hstart Hend]. unfold strip_of. rewrite (lstrip_of_id _ _ Hstart).
  by apply rstrip_of_id.
Qed.

Lemma strip_trimmed (s : string) : trimmed is_space (strip s).
Proof. rewrite strip_is_strip_of. apply strip_of_trimmed. Qed.

Lemma strip_id (s : string) : trimmed is_space s → strip s = s.
Proof. rewrite strip_is_strip_of. apply strip_of_id. Qed.

End StringFacts.

(** ** The readers *)

Section MoreReaderFacts.

Lemma digit_not_space (c : ascii) : is_digit c = true → is_space c = false.
Proof.
  unfold is_digit, is_space. rewrite andb_true_iff, !Nat.leb_le. intros [Hlo Hhi].
  apply orb_false_iff. split; apply andb_false_iff.
  - right. apply Nat.leb_gt. lia.
  - right. apply Nat.leb_gt. lia.
Qed.

Lemma digits_trimmed (s : string) : is_digits s = true → trimmed is_space s.
Proof.
  unfold is_digits. intros Hd. split.
  - destruct s as [|c s]; [done|]. cbn in *. apply andb_true_iff in Hd as [Hc _].
    by apply digit_not_space.
  - induction s as [|c s IH]; [done|]. cbn [list_ascii_of_string forallb] in Hd.
    apply andb_true_iff in Hd as [Hc Hs]. cbn [ends_with]. destruct s as [|c' s].
    + by apply digit_not_space.
    + by apply IH.
Qed.

Lemma read_barcodes_stdin_run (process : string → io unit) (lines : list string) :
  ∀ sent, read_barcodes_stdin process lines sent
          = run_each process (typed_barcodes lines) sent.
Proof.
  induction lines as [|line rest IH]; intros sent; [done|].
  cbn [read_barcodes_stdin typed_barcodes flat_map]. fold (typed_barcodes rest).
  unfold nonempty. destruct (String.eqb (strip line) ""); cbn [negb app].
  - apply IH.
  - cbn [run_each]. unfold mbind, io_bind.
    destruct (process (strip line) sent) as [[[]|e] sent']; [apply IH|done].
Qed.

Lemma typed_barcodes_trimmed (lines : list string) :
  Forall (λ b, b ≠ "" ∧ trimmed is_space b) (typed_barcodes lines).
Proof.
  induction lines as [|line rest IH]; [constructor|].
  cbn [typed_barcodes flat_map]. apply Forall_app. split; [|exact IH].
  unfold nonempty. destruct (String.eqb (strip line) "") eqn:E; [constructor|].
  apply String.eqb_neq in E. repeat constructor; [done|apply strip_trimmed..].
Qed.

(** X1. The fallback reader runs the pipeline on the lines typed, stripped
    of blanks at both ends, in order, and skips the lines that are then
    empty: what it hands over is never empty and has no blank at either
    end, but need not be digits; a line of digits is handed over as typed. *)
Theorem read_barcodes_stdin_hands (process : string → io unit)
    (lines : list string) (sent : list request) :
  read_barcodes_stdin process lines sent = run_each process (typed_barcodes lines) sent
  ∧ Forall (λ b, b ≠ "" ∧ trimmed is_space b) (typed_barcodes lines)
  ∧ (∀ line, line ≠ "" → is_digits line = true → typed_barcodes [line] = [line])
  ∧ (∀ line, strip line ≠ "" → is_digits (strip line) = false →
       ∃ b, b ∈ typed_barcodes (lines ++ [line]) ∧ is_digits b = false).
Proof.
  split; [apply read_barcodes_stdin_run|]. split; [apply typed_barcodes_trimmed|]. split.
  - intros line Hne Hd. cbn [typed_barcodes flat_map]. rewrite app_nil_r.
    rewrite (strip_id _ (digits_trimmed _ Hd)). unfold nonempty.
    apply String.eqb_neq in Hne. by rewrite Hne.
  - intros line Hne Hnd. exists (strip line). split; [|done].
    unfold typed_barcodes. rewrite flat_map_app. apply elem_of_app. right.
    cbn [flat_map]. rewrite app_nil_r. unfold nonempty.
    apply String.eqb_neq in Hne. rewrite Hne. by left.
Qed.

Lemma scans_ignores_other_events (events : list input_event) :
  ∀ buffer, scans buffer events = scans buffer (filter (λ e, is_key_down e = true) events).
Proof.
  induction events as [|event rest IH]; intros buffer; [done|].
  rewrite filter_cons. destruct (decide (is_key_down event = true)) as [Hk|Hk].
  - cbn [scans]. destruct (is_enter_down event); [f_equal|]; apply IH.
  - apply not_true_is_false in Hk. cbn [scans]. unfold is_enter_down, typed.
    cbn [omap list_omap]. rewrite Hk. cbn [andb]. rewrite app_nil_r. apply IH.
Qed.

Lemma scans_unfinished (tail : list input_event) :
  Forall (λ e, is_enter_down e = false) tail →
  ∀ buffer, scans buffer tail = [].
Proof.
  induction 1 as [|event tail Hev _ IH]; intros buffer; [done|].
  cbn [scans]. rewrite Hev. apply IH.
Qed.

Lemma scans_app_unfinished (events tail : list input_event) :
  Forall (λ e, is_enter_down e = false) tail →
  ∀ buffer, scans buffer (events ++ tail) = scans buffer events.
Proof.
  intros Htail. induction events as [|event rest IH]; intros buffer.
  - cbn [app scans]. by apply scans_unfinished.
  - cbn [app scans]. destruct (is_enter_down event); by rewrite IH.
Qed.

(** X2. The scanner reader depends on the key-down events only: events of
    another type, key releases and key repeats can be taken out of the
    stream without changing a single run of the pipeline; and what is
    typed after the last Enter is never handed over. *)
Theorem read_barcodes_evdev_key_down_only (process : string → io unit)
    (events : list input_event) (sent : list request) :
  read_barcodes_evdev process events sent
    = read_barcodes_evdev process (filter (λ e, is_key_down e = true) events) sent
  ∧ ∀ tail, Forall (λ e, is_enter_down e = false) tail →
      read_barcodes_evdev process (events ++ tail) sent
      = read_barcodes_evdev process events sent.
Proof.
  unfold read_barcodes_evdev. split.
  - by rewrite !read_loop_scans, <- scans_ignores_other_events.
  - intros tail Htail. by rewrite !read_loop_scans, scans_app_unfinished.
Qed.

Lemma key_char_scancode (c : ascii) :
  is_digit c = true → key_char (scancode_of c) = Some (String c EmptyString).
Proof.
  destruct c as [[] [] [] [] [] [] [] []]; try discriminate; intros _; reflexivity.
Qed.

Lemma scancode_not_enter (c : ascii) :
  is_digit c = true → (scancode_of c =? KEY_ENTER)%Z = false.
Proof.
  destruct c as [[] [] [] [] [] [] [] []]; try discriminate; intros _; reflexivity.
Qed.

Lemma concat_cons_char (c : ascii) (l : list string) :
  String.concat "" (String c EmptyString :: l) = String c (String.concat "" l).
Proof. destruct l; reflexivity. Qed.

Lemma typed_key_press (c : ascii) :
  is_digit c = true → typed [key_press (scancode_of c)] = [String c EmptyString].
Proof.
  intros Hc. unfold typed. cbn [omap list_omap].
  change (is_key_down (key_press (scancode_of c))) with true.
  change (code (key_press (scancode_of c))) with (scancode_of c).
  by rewrite (key_char_scancode c Hc).
Qed.

Lemma typed_key_presses (barcode : string) :
  is_digits barcode = true →
  String.concat "" (typed (key_presses barcode)) = barcode
  ∧ Forall (λ e, is_enter_down e = false) (key_presses barcode).
Proof.
  unfold is_digits, key_presses. induction barcode as [|c barcode IH]; [done|].
  cbn [list_ascii_of_string forallb fmap list_fmap]. rewrite andb_true_iff.
  intros [Hc Hrest]. destruct (IH Hrest) as [Hconcat Hno]. split.
  - change (key_press (scancode_of c) :: ?l) with ([key_press (scancode_of c)] ++ l)%list.
    rewrite typed_app, (typed_key_press c Hc). cbn [app].
    by rewrite concat_cons_char, Hconcat.
  - constructor; [|exact Hno]. unfold is_enter_down.
    change (code (key_press (scancode_of c))) with (scancode_of c).
    rewrite (scancode_not_enter c Hc). apply andb_false_r.
Qed.

(** X3. Round trip through the scanner: the key presses of the digits of a
    barcode, followed by Enter, are read back as that barcode and nothing
    else, so the reader runs the pipeline exactly as the fallback reader
    does on the same digits typed as a line. *)
Theorem key_presses_round_trip (process : string → io unit) (barcode : string)
    (sent : list request) :
  barcode ≠ "" → is_digits barcode = true →
  scans [] (key_presses barcode ++ [key_press KEY_ENTER]) = [barcode]
  ∧ read_barcodes_evdev process (key_presses barcode ++ [key_press KEY_ENTER]) sent
    = read_barcodes_stdin process [barcode] sent.
Proof.
  intros Hne Hd. destruct (typed_key_presses barcode Hd) as [Hconcat Hno].
  assert (Hscans : scans [] (key_presses barcode ++ [key_press KEY_ENTER]) = [barcode]).
  { rewrite (scans_segment _ (key_press KEY_ENTER) Hno eq_refl []). cbn [app].
    rewrite Hconcat. unfold nonempty. apply String.eqb_neq in Hne. by rewrite Hne. }
  split; [exact Hscans|].
  unfold read_barcodes_evdev. rewrite read_loop_scans, Hscans, read_barcodes_stdin_run.
  cbn [typed_barcodes flat_map]. rewrite app_nil_r.
  rewrite (strip_id _ (digits_trimmed _ Hd)). unfold nonempty.
  apply String.eqb_neq in Hne. by rewrite Hne.
Qed.

End MoreReaderFacts.

(** ** The .env file *)

Section DotenvFacts.

Lemma environ_setdefault_cases (vars vars' : gmap string string) key value :
  environ_setdefault vars key value = Ok vars' →
  (is_Some (vars !! key) ∧ vars' = vars)
  ∨ (vars !! key = None ∧ vars' = <[key := value]> vars).
Proof.
  unfold environ_setdefault. destruct (vars !! key) as [old|] eqn:E.
  - intros [= <-]. left. eauto.
  - destruct (has_nul key || has_nul value); [done|]. intros [= <-]. by right.
Qed.

Lemma dotenv_step_subseteq (vars vars' : gmap string string) line :
  dotenv_step vars line = Ok vars' → vars ⊆ vars'.
Proof.
  unfold dotenv_step. destruct (parse_env_line line) as [[key value]|]; [|by intros [= <-]].
  intros [[_ ->]|[Hnone ->]]%environ_setdefault_cases; [done|].
  by apply insert_subseteq.
Qed.

Lemma dotenv_loop_subseteq (lines : list string) (vars : gmap string string) :
  vars ⊆ (for_each dotenv_step vars lines).1.
Proof.
  apply (for_each_invariant (⊆)); [done| |].
  - intros a b c Hab Hbc. by etrans.
  - intros a x a' _. apply dotenv_step_subseteq.
Qed.

Lemma file_value_cons (line : string) (lines : list string) (name : string) :
  file_value (line :: lines) name =
    match parse_env_line line with
    | Some (key, value) => if String.eqb key name then Some value else file_value lines name
    | None => file_value lines name
    end.
Proof.
  unfold file_value. cbn [omap list_omap].
  destruct (parse_env_line line) as [[key value]|]; [|done].
  cbn [List.find fst]. by destruct (String.eqb key name).
Qed.

Lemma dotenv_loop_lookup (lines : list string) :
  ∀ vars vars' : gmap string string,
  for_each dotenv_step vars lines = (vars', None) →
  ∀ name, vars' !! name = match vars !! name with
                          | Some v => Some v
                          | None => file_value lines name
                          end.
Proof.
  induction lines as [|line rest IH]; intros vars vars' Hrun name.
  - injection Hrun as <-. by destruct (vars !! name).
  - cbn [for_each] in Hrun. rewrite file_value_cons.
    destruct (dotenv_step vars line) as [vars1|e] eqn:Hstep; [|done].
    rewrite (IH _ _ Hrun name). unfold dotenv_step in Hstep.
    destruct (parse_env_line line) as [[key value]|]; [|by injection Hstep as <-].
    apply environ_setdefault_cases in Hstep as [[[old Hold] ->]|[Hnone ->]].
    + destruct (vars !! name) eqn:E; [done|].
      destruct (String.eqb_spec key name) as [->|Hne]; [congruence|done].
    + destruct (String.eqb_spec key name) as [->|Hne].
      * by rewrite lookup_insert_eq, Hnone.
      * by rewrite lookup_insert_ne.
Qed.

Lemma dotenv_loop_again (lines : list string) :
  ∀ (vars vars' : gmap string string) e,
  for_each dotenv_step vars lines = (vars', e) →
  for_each dotenv_step vars' lines = (vars', e).
Proof.
  induction lines as [|line rest IH]; intros vars vars' e Hrun.
  - by injection Hrun as <- <-.
  - cbn [for_each] in *.
    destruct (dotenv_step vars line) as [vars1|x] eqn:Hstep.
    + pose proof (dotenv_loop_subseteq rest vars1) as Hsub. rewrite Hrun in Hsub.
      cbn [fst] in Hsub.
      assert (Hagain : dotenv_step vars' line = Ok vars').
      { unfold dotenv_step in *.
        destruct (parse_env_line line) as [[key value]|]; [|done].
        assert (Hset : is_Some (vars1 !! key)).
        { apply environ_setdefault_cases in Hstep as [[Hold ->]|[_ ->]]; [done|].
          rewrite lookup_insert_eq. eauto. }
        destruct Hset as [v Hv]. unfold environ_setdefault.
        by rewrite (lookup_weaken _ _ _ _ Hv Hsub). }
      rewrite Hagain. by apply (IH vars1).
    + injection Hrun as <- <-. by rewrite Hstep.
Qed.

Lemma in_lstrip_of (p : ascii → bool) (s : string) (c : ascii) :
  In c (list_ascii_of_string (lstrip_of p s)) → In c (list_ascii_of_string s).
Proof.
  induction s as [|a s IH]; [done|]. cbn [lstrip_of].
  destruct (p a); [|done]. intros Hin. right. by apply IH.
Qed.

Lemma in_rstrip_of (p : ascii → bool) (s : string) (c : ascii) :
  In c (list_ascii_of_string (rstrip_of p s)) → In c (list_ascii_of_string s).
Proof.
  induction s as [|a s IH]; [done|]. cbn [rstrip_of].
  destruct (rstrip_of p s) as [|b t].
  - destruct (p a); [done|]. cbn. intros [->|[]]. by left.
  - cbn [list_ascii_of_string]. intros [->|Hin]; [by left|]. right. by apply IH.
Qed.

Lemma in_strip_of (p : ascii → bool) (s : string) (c : ascii) :
  In c (list_ascii_of_string (strip_of p s)) → In c (list_ascii_of_string s).
Proof. intros Hin%in_rstrip_of. by apply in_lstrip_of in Hin. Qed.

Lemma in_partition_at (sep : ascii) (s : string) (c : ascii) :
  (In c (list_ascii_of_string (partition_at sep s).1) → In c (list_ascii_of_string s))
  ∧ (In c (list_ascii_of_string (partition_at sep s).2) → In c (list_ascii_of_string s)).
Proof.
  induction s as [|a s [IH1 IH2]]; [done|]. cbn [partition_at].
  destruct (Ascii.eqb a sep).
  - cbn. split; [done|]. by right.
  - destruct (partition_at sep s) as [before after]. cbn in *. split.
    + intros [->|Hin]; [by left|]. right. by apply IH1.
    + intros Hin. right. by apply IH2.
Qed.

Lemma has_nul_in (s : string) :
  has_nul s = true ↔ In zero (list_ascii_of_string s).
Proof.
  unfold has_nul. rewrite existsb_exists. split.
  - intros (c & Hin & ->%Ascii.eqb_eq). done.
  - intros Hin. exists zero. split; [done|]. apply Ascii.eqb_refl.
Qed.

Lemma parse_env_line_no_nul (line key value : string) :
  has_nul line = false →
  parse_env_line line = Some (key, value) →
  has_nul key = false ∧ has_nul value = false.
Proof.
  intros Hline. unfold parse_env_line.
  destruct (String.eqb (strip line) "" || is_comment (strip line)); [done|].
  pose proof (in_partition_at "=" (strip line) zero) as [H1 H2].
  destruct (partition_at "=" (strip line)) as [before after]. cbn [fst snd] in *.
  destruct (String.eqb (strip before) ""); [done|]. intros [= <- <-].
  assert (Hno : ¬ In zero (list_ascii_of_string (strip line))).
  { rewrite strip_is_strip_of. intros Hin%in_strip_of. apply has_nul_in in Hin. congruence. }
  split; apply not_true_is_false; rewrite has_nul_in.
  - rewrite strip_is_strip_of. intros Hin%in_strip_of. auto.
  - intros Hin%in_strip_of. rewrite strip_is_strip_of in Hin. apply in_strip_of in Hin. auto.
Qed.

Lemma dotenv_loop_no_nul (lines : list string) :
  Forall (λ line, has_nul line = false) lines →
  ∀ vars, (for_each dotenv_step vars lines).2 = None.
Proof.
  induction 1 as [|line rest Hline _ IH]; intros vars; [done|].
  cbn [for_each].
  assert (Hstep : ∃ vars1, dotenv_step vars line = Ok vars1).
  { unfold dotenv_step. destruct (parse_env_line line) as [[key value]|] eqn:E; [|eauto].
    destruct (parse_env_line_no_nul _ _ _ Hline E) as [Hk Hv].
    unfold environ_setdefault. destruct (vars !! key); [eauto|]. rewrite Hk, Hv. eauto. }
  destruct Hstep as [vars1 ->]. apply IH.
Qed.

(** X4. Loading the .env file never changes a variable that is already set
    in the environment; a variable that is not set takes the value of the
    first line of the file that defines it, later lines for it are ignored;
    a file without null characters loads without an exception, and a path
    that is not a file leaves the environment as it is. *)
Theorem load_dotenv_first_wins (file : option (list string)) (vars : gmap string string) :
  (∀ name v, vars !! name = Some v → (load_dotenv file vars).1 !! name = Some v)
  ∧ (∀ lines, file = Some lines → (load_dotenv file vars).2 = None →
       ∀ name, (load_dotenv file vars).1 !! name
               = match vars !! name with
                 | Some v => Some v
                 | None => file_value lines name
                 end)
  ∧ (∀ lines, file = Some lines → Forall (λ line, has_nul line = false) lines →
       (load_dotenv file vars).2 = None)
  ∧ (file = None → load_dotenv file vars = (vars, None)).
Proof.
  split; [|split; [|split]].
  - intros name v Hv. destruct file as [lines|]; [|done]. cbn [load_dotenv].
    by apply (lookup_weaken _ _ _ _ Hv), dotenv_loop_subseteq.
  - intros lines -> Hok name. cbn [load_dotenv] in *.
    apply dotenv_loop_lookup.
    destruct (for_each dotenv_step vars lines) as [vars' e]. cbn in Hok. by subst e.
  - intros lines -> Hlines. by apply dotenv_loop_no_nul.
  - by intros ->.
Qed.

(** X5. Loading the same file a second time changes nothing: the
    environment it leaves and the exception it raises are those of the
    first load. *)
Theorem load_dotenv_idempotent (file : option (list string)) (vars : gmap string string) :
  load_dotenv file (load_dotenv file vars).1 = load_dotenv file vars.
Proof.
  destruct file as [lines|]; [|done]. cbn [load_dotenv].
  destruct (for_each dotenv_step vars lines) as [vars' e] eqn:Hrun.
  by apply (dotenv_loop_again lines vars).
Qed.

End DotenvFacts.

(** ** The lines of the .env file *)

Section EnvLineFacts.

Lemma append_cons (c : ascii) (s t : string) : String c s +:+ t = String c (s +:+ t).
Proof. reflexivity. Qed.

Lemma append_nil_r (s : string) : s +:+ "" = s.
Proof. induction s as [|c s IH]; [done|]. by rewrite append_cons, IH. Qed.

Lemma starts_with_app (p : ascii → bool) (s t : string) :
  s ≠ "" → starts_with p (s +:+ t) = starts_with p s.
Proof. by destruct s. Qed.

Lemma ends_with_app (p : ascii → bool) (s t : string) :
  t ≠ "" → ends_with p (s +:+ t) = ends_with p t.
Proof.
  intros Ht. induction s as [|c s IH]; [done|].
  rewrite append_cons. cbn [ends_with]. rewrite <- IH.
  destruct (s +:+ t) eqn:E; [|done].
  destruct s as [|c' s]; [|by rewrite append_cons in E].
  change (t = "") in E. by subst t.
Qed.

Lemma partition_at_app (sep : ascii) (key value : string) :
  has_char sep key = false →
  partition_at sep (key +:+ String sep value) = (key, value).
Proof.
  unfold has_char. induction key as [|c key IH]; intros Hno.
  - change ("" +:+ String sep value) with (String sep value).
    cbn [partition_at]. by rewrite Ascii.eqb_refl.
  - cbn in Hno. apply orb_false_elim in Hno as [Hc Hrest].
    rewrite append_cons. cbn [partition_at]. rewrite Ascii.eqb_sym, Hc, (IH Hrest). done.
Qed.

Lemma partition_at_none (sep : ascii) (s : string) :
  has_char sep s = false → partition_at sep s = (s, "").
Proof.
  unfold has_char. induction s as [|c s IH]; [done|]. cbn. intros Hno.
  apply orb_false_elim in Hno as [Hc Hrest].
  by rewrite Ascii.eqb_sym, Hc, (IH Hrest).
Qed.

Lemma partition_at_no_sep (sep : ascii) (s : string) :
  has_char sep (partition_at sep s).1 = false.
Proof.
  unfold has_char. induction s as [|c s IH]; [done|]. cbn [partition_at].
  destruct (Ascii.eqb c sep) eqn:E; [done|].
  destruct (partition_at sep s) as [before after]. cbn in *.
  by rewrite Ascii.eqb_sym, E, IH.
Qed.

Lemma partition_at_starts (q : ascii → bool) (sep : ascii) (s : string) :
  (partition_at sep s).1 ≠ "" →
  starts_with q (partition_at sep s).1 = starts_with q s.
Proof.
  destruct s as [|c s]; [done|]. cbn [partition_at].
  destruct (Ascii.eqb c sep); [done|]. by destruct (partition_at sep s).
Qed.

Lemma rstrip_of_starts_other (p q : ascii → bool) (s : string) :
  starts_with p s = false → starts_with q (rstrip_of p s) = starts_with q s.
Proof.
  destruct s as [|c s]; [done|]. cbn [starts_with rstrip_of]. intros Hc.
  destruct (rstrip_of p s); [by rewrite Hc|done].
Qed.

Lemma has_char_in (c : ascii) (s : string) :
  has_char c s = true ↔ In c (list_ascii_of_string s).
Proof.
  unfold has_char. rewrite existsb_exists. split.
  - by intros (x & Hin & ->%Ascii.eqb_eq).
  - intros Hin. exists c. split; [done|]. apply Ascii.eqb_refl.
Qed.

Lemma rstrip_of_app_one (p : ascii → bool) (q : ascii) (v : string) :
  p q = true → ends_with p v = false → rstrip_of p (v +:+ String q "") = v.
Proof.
  intros Hq. induction v as [|c v IH]; intros Hends.
  - change ("" +:+ String q "") with (String q ""). cbn. by rewrite Hq.
  - rewrite append_cons. cbn [rstrip_of]. destruct v as [|c' v].
    + change ("" +:+ String q "") with (String q ""). cbn in *. by rewrite Hq, Hends.
    + by rewrite (IH Hends).
Qed.

Lemma quote_not_space (q : ascii) : is_quote q = true → is_space q = false.
Proof.
  unfold is_quote. intros [->%Ascii.eqb_eq | ->%Ascii.eqb_eq]%orb_true_iff; done.
Qed.

Lemma parse_env_line_assignment (key value rhs : string) :
  key ≠ "" → trimmed is_space key → has_char "=" key = false →
  is_comment key = false →
  trimmed is_space rhs → strip_of is_quote rhs = value →
  parse_env_line (key +:+ String "=" rhs) = Some (key, value).
Proof.
  intros Hkey [Hks Hke] Heq Hcomment [Hrs Hre] Hvalue. unfold parse_env_line.
  assert (Hline : strip (key +:+ String "=" rhs) = key +:+ String "=" rhs).
  { apply strip_id. split.
    - by rewrite starts_with_app.
    - rewrite ends_with_app by done. destruct rhs; [done|exact Hre]. }
  rewrite Hline.
  assert (Hne : String.eqb (key +:+ String "=" rhs) "" = false) by by destruct key.
  assert (Hc : is_comment (key +:+ String "=" rhs) = false) by by destruct key.
  rewrite Hne, Hc, partition_at_app by done. cbn [orb].
  rewrite !strip_id by done. rewrite Hvalue.
  by destruct key.
Qed.

(** X6. What a line of the .env file defines has a name that is not empty,
    has no blank at either end, holds no equals sign and does not start
    with the comment sign, and a value with no quote at either end. *)
Theorem parse_env_line_shape (line key value : string) :
  parse_env_line line = Some (key, value) →
  key ≠ ""
  ∧ trimmed is_space key
  ∧ has_char "=" key = false
  ∧ is_comment key = false
  ∧ trimmed is_quote value.
Proof.
  unfold parse_env_line.
  destruct (String.eqb (strip line) "") eqn:Hempty; [done|].
  destruct (is_comment (strip line)) eqn:Hcomment; [done|]. cbn [orb].
  pose proof (partition_at_no_sep "=" (strip line)) as Hsep.
  pose proof (partition_at_starts (λ c, Ascii.eqb c "#") "=" (strip line)) as Hhash.
  pose proof (partition_at_starts is_space "=" (strip line)) as Hblank.
  destruct (partition_at "=" (strip line)) as [before after]. cbn [fst] in *.
  destruct (String.eqb_spec (strip before) "") as [|Hkey]; [done|].
  intros [= <- <-]. split; [done|]. split; [apply strip_trimmed|].
  assert (Hbefore : before ≠ "") by (by intros ->).
  split; [|split].
  - apply not_true_is_false. rewrite has_char_in, strip_is_strip_of.
    intros Hin%in_strip_of. apply has_char_in in Hin. congruence.
  - destruct (strip_trimmed line) as [Hstart _].
    specialize (Hblank Hbefore). rewrite Hstart in Hblank.
    rewrite strip_is_strip_of. unfold strip_of.
    rewrite (lstrip_of_id _ _ Hblank).
    change (starts_with (λ c, Ascii.eqb c "#") (rstrip_of is_space before) = false).
    rewrite (rstrip_of_starts_other _ _ _ Hblank), (Hhash Hbefore).
    exact Hcomment.
  - apply strip_of_trimmed.
Qed.

(** X7. A line written as NAME=VALUE is read back as that name and that
    value, when the name is one a line can define and the value has no blank
    and no quote at either end; within a pair of quotes the value may start
    and end with blanks.  A line that is such a name alone, with no equals
    sign, defines the name with the empty value. *)
Theorem parse_env_line_round_trip (key value : string) :
  key ≠ "" → trimmed is_space key → has_char "=" key = false →
  is_comment key = false → trimmed is_quote value →
  (trimmed is_space value → parse_env_line (key +:+ "=" +:+ value) = Some (key, value))
  ∧ (∀ q, is_quote q = true →
       parse_env_line (key +:+ "=" +:+ String q (value +:+ String q "")) = Some (key, value))
  ∧ parse_env_line key = Some (key, "").
Proof.
  intros Hkey Hspace Heq Hcomment [Hqs Hqe]. split; [|split].
  3: { unfold parse_env_line. rewrite (strip_id key Hspace), Hcomment.
       rewrite (partition_at_none _ _ Heq), (strip_id key Hspace).
       by destruct key. }
  - intros Hvalue. apply parse_env_line_assignment; try done.
    by apply strip_of_id.
  - intros q Hq. apply parse_env_line_assignment; try done.
    + split; [by apply quote_not_space|].
      change (String q (value +:+ String q "")) with (String q value +:+ String q "").
      rewrite ends_with_app by done. by apply quote_not_space.
    + unfold strip_of. cbn [lstrip_of]. rewrite Hq.
      destruct value as [|c value].
      * change ("" +:+ String q "") with (String q ""). cbn. by rewrite Hq.
      * rewrite lstrip_of_id by done. by apply rstrip_of_app_one.
Qed.

End EnvLineFacts.

(** ** The start-up *)

Section StartUpFacts.

Lemma load_dotenv_lookup (file : option (list string)) (vars vars' : gmap string string) :
  load_dotenv file vars = (vars', None) →
  ∀ name, vars' !! name = effective file vars name.
Proof.
  destruct file as [lines|]; cbn [load_dotenv]; intros Hload name; unfold effective.
  - by apply dotenv_loop_lookup.
  - injection Hload as <-. by destruct (vars !! name).
Qed.

Lemma getenv_setting (file : option (list string)) (vars vars' : gmap string string) :
  load_dotenv file vars = (vars', None) →
  ∀ name dflt, getenv vars' name dflt = setting file vars name dflt.
Proof. intros Hload name dflt. unfold getenv, setting. by rewrite (load_dotenv_lookup _ _ _ Hload). Qed.

(** X8. The start-up stops with the exception of the load; otherwise it
    exits exactly when SPARKY_API_KEY is empty, and each setting is the
    exported variable if there is one, else the value of the .env file, else
    the default.  The base URL never ends with a slash.  A SPARKY_API_KEY
    exported as the empty text is not replaced by the one of the file. *)
Theorem start_up_settings (file : option (list string)) (vars : gmap string string)
    (clock : time) (date : string) (srv : list request → request → result response) :
  match start_up file vars clock date srv with
  | inl e => (load_dotenv file vars).2 = Some e
  | inr (inl _) => setting file vars "SPARKY_API_KEY" "" = ""
  | inr (inr (env, scanner_device)) =>
      setting file vars "SPARKY_API_KEY" "" ≠ ""
      ∧ SPARKY_URL env
        = rstrip_of is_slash (setting file vars "SPARKY_URL" "http://localhost:3010")
      ∧ ends_with is_slash (SPARKY_URL env) = false
      ∧ USDA_PROVIDER_ID env = setting file vars "USDA_PROVIDER_ID" ""
      ∧ MEAL_WINDOWS env
        = [ ("Breakfast", setting file vars "BREAKFAST_WINDOW" "05:00-10:00");
            ("Lunch", setting file vars "LUNCH_WINDOW" "11:00-13:00");
            ("Dinner", setting file vars "DINNER_WINDOW" "14:00-16:00") ]
      ∧ SCALE_URL env = effective file vars "SCALE_URL"
      ∧ scanner_device = setting file vars "SCANNER_DEVICE" ""
      ∧ now env = clock ∧ today env = date ∧ server env = srv
  end
  ∧ (vars !! "SPARKY_API_KEY" = Some "" →
     ∀ r, start_up file vars clock date srv ≠ inr (inr r)).
Proof.
  unfold start_up.
  destruct (load_dotenv file vars) as [vars' [e|]] eqn:Hload; [by split|].
  pose proof (getenv_setting _ _ _ Hload) as Hget.
  pose proof (load_dotenv_lookup _ _ _ Hload) as Hlookup.
  unfold configure. rewrite !Hget, Hlookup.
  destruct (String.eqb_spec (setting file vars "SPARKY_API_KEY" "") "") as [Hkey|Hkey].
  - split; [done|]. intros _ r. discriminate.
  - split.
    + unfold MEAL_WINDOWS. cbn. repeat split; try done. apply rstrip_of_ends.
    + intros Hempty. contradict Hkey. unfold setting, effective. by rewrite Hempty.
Qed.

End StartUpFacts.

(** ** The input source *)

Section InputFacts.

Lemma open_all_opened (world : devices) (paths : list string)
    (opened : list (string * option string)) :
  open_all world paths = inr opened →
  opened.*1 = paths ∧ Forall (λ dev, open_device world dev.1 = inr dev.2) opened.
Proof.
  revert opened. induction paths as [|path rest IH]; intros opened.
  - intros [= <-]. by split.
  - cbn [open_all]. destruct (open_device world path) as [e|name] eqn:Hopen; [done|].
    destruct (open_all world rest) as [e|opened'] eqn:Hrest; [done|].
    intros [= <-]. destruct (IH _ eq_refl) as [Hpaths Hall].
    split; [cbn; by f_equal|]. by constructor.
Qed.

Lemma open_all_failed (world : devices) (paths : list string) (e : start_exn) :
  open_all world paths = inl e →
  ∃ before path after,
    paths = (before ++ path :: after)%list
    ∧ open_device world path = inl e
    ∧ Forall (opens world) before.
Proof.
  induction paths as [|path rest IH]; [done|]. cbn [open_all].
  destruct (open_device world path) as [e'|name] eqn:Hopen.
  - intros [= ->]. by exists [], path, rest.
  - destruct (open_all world rest) as [e'|opened'] eqn:Hrest; [|done].
    intros [= ->]. destruct (IH eq_refl) as (before & p & after & -> & Hp & Hbefore).
    exists (path :: before), p, after. repeat split; [done|].
    constructor; [by exists name|done].
Qed.

Lemma open_all_fails (world : devices) (paths : list string) (path : string)
    (e : start_exn) :
  path ∈ paths → open_device world path = inl e →
  ∃ e', open_all world paths = inl e'.
Proof.
  intros Hin Hopen. induction paths as [|p rest IH]; [by apply not_elem_of_nil in Hin|].
  cbn [open_all]. destruct (open_device world p) as [e'|name] eqn:Hp; [eauto|].
  apply elem_of_cons in Hin as [->|Hin]; [congruence|].
  destruct (IH Hin) as [e' ->]. eauto.
Qed.

Lemma find_first (A : Type) (f : A → bool) (l : list A) :
  match List.find f l with
  | Some x => ∃ before after, l = (before ++ x :: after)%list ∧ f x = true
                              ∧ Forall (λ y, f y = false) before
  | None => Forall (λ y, f y = false) l
  end.
Proof.
  induction l as [|a l IH]; [by constructor|]. cbn [List.find].
  destruct (f a) eqn:Ha.
  - by exists [], l.
  - destruct (List.find f l) as [x|].
    + destruct IH as (before & after & -> & Hx & Hbefore).
      exists (a :: before), after. repeat split; [done|]. by constructor.
    + by constructor.
Qed.

Lemma find_scanner_device_found (world : devices) (path : string) :
  find_scanner_device world = inr path →
  ∃ before after name,
    list_devices world = (before ++ path :: after)%list
    ∧ open_device world path = inr name
    ∧ looks_like_scanner name = true
    ∧ Forall (passed_over world) before
    ∧ Forall (opens world) after.
Proof.
  unfold find_scanner_device.
  destruct (open_all world (list_devices world)) as [e|opened] eqn:Hall; [done|].
  apply open_all_opened in Hall as [Hpaths Hopened].
  pose proof (find_first _ (λ dev, looks_like_scanner dev.2) opened) as Hfind.
  destruct (List.find _ opened) as [[p name]|]; [|done].
  intros [= <-]. destruct Hfind as (before & after & -> & Hname & Hbefore).
  apply Forall_app in Hopened as [Hob Hoa]. apply Forall_cons in Hoa as [Hp Hoa].
  exists before.*1, after.*1, name. rewrite <- Hpaths, fmap_app, fmap_cons.
  repeat split; try done.
  - apply Forall_fmap, Forall_forall. intros dev Hdev. exists dev.2. split.
    + by apply (proj1 (Forall_forall _ _) Hob).
    + by apply (proj1 (Forall_forall _ _) Hbefore).
  - apply Forall_fmap, Forall_forall. intros dev Hdev. exists dev.2.
    by apply (proj1 (Forall_forall _ _) Hoa).
Qed.

Lemma find_scanner_device_failed (world : devices) (e : start_exn) :
  find_scanner_device world = inl e →
  (∃ before path after,
     list_devices world = (before ++ path :: after)%list
     ∧ open_device world path = inl e
     ∧ Forall (opens world) before)
  ∨ (e = SystemExit "Set SCANNER_DEVICE in .env to the correct /dev/input/eventN path"
     ∧ Forall (passed_over world) (list_devices world)).
Proof.
  unfold find_scanner_device.
  destruct (open_all world (list_devices world)) as [e'|opened] eqn:Hall.
  - intros [= ->]. left. by apply open_all_failed.
  - apply open_all_opened in Hall as [Hpaths Hopened].
    pose proof (find_first _ (λ dev, looks_like_scanner dev.2) opened) as Hfind.
    destruct (List.find _ opened) as [[p name]|]; [done|].
    intros [= <-]. right. split; [done|]. rewrite <- Hpaths.
    apply Forall_fmap, Forall_forall. intros dev Hdev. exists dev.2. split.
    + by apply (proj1 (Forall_forall _ _) Hopened).
    + by apply (proj1 (Forall_forall _ _) Hfind).
Qed.

(** X9. The detection returns the first listed device whose name holds a
    scanner keyword, and only when every listed device opens: a device
    that does not open makes the detection fail with its exception, also
    when a scanner is listed before it.  With every device open and none
    that looks like a scanner it exits. *)
Theorem find_scanner_device_first_match (world : devices) :
  match find_scanner_device world with
  | inr path =>
      ∃ before after name,
        list_devices world = (before ++ path :: after)%list
        ∧ open_device world path = inr name
        ∧ looks_like_scanner name = true
        ∧ Forall (passed_over world) before
        ∧ Forall (opens world) after
  | inl e =>
      (∃ before path after,
         list_devices world = (before ++ path :: after)%list
         ∧ open_device world path = inl e
         ∧ Forall (opens world) before)
      ∨ (e = SystemExit "Set SCANNER_DEVICE in .env to the correct /dev/input/eventN path"
         ∧ Forall (passed_over world) (list_devices world))
  end
  ∧ (∀ path e, path ∈ list_devices world → open_device world path = inl e →
       ∃ e', find_scanner_device world = inl e').
Proof.
  split.
  - destruct (find_scanner_device world) as [e|path] eqn:Hfind.
    + by apply find_scanner_device_failed.
    + by apply find_scanner_device_found.
  - intros path e Hin Hopen. unfold find_scanner_device.
    destruct (open_all_fails _ _ _ _ Hin Hopen) as [e' ->]. eauto.
Qed.

(** X10. With SCANNER_DEVICE set, [main] reads that device without looking
    for another, and fails when it does not open.  With SCANNER_DEVICE
    empty, [main] reads the detected device, reads the standard input when
    the detection ends with FileNotFoundError, PermissionError or an exit,
    and fails only with another exception of the detection. *)
Theorem main_input_source (scanner_device : string) (world : devices)
    (events_of : string → list input_event) (lines : list string)
    (process : string → io unit) :
  (scanner_device ≠ "" →
   main scanner_device world events_of lines process
   = match open_device world scanner_device with
     | inl e => inl e
     | inr _ => inr (read_barcodes_evdev process (events_of scanner_device))
     end)
  ∧ (scanner_device = "" →
     match find_scanner_device world with
     | inr path =>
         main scanner_device world events_of lines process
         = inr (read_barcodes_evdev process (events_of path))
     | inl OtherError =>
         main scanner_device world events_of lines process = inl OtherError
     | inl _ =>
         main scanner_device world events_of lines process
         = inr (read_barcodes_stdin process lines)
     end).
Proof.
  unfold main, choose_input. split.
  - intros Hset. by destruct (String.eqb_spec scanner_device "").
  - intros ->. cbn [String.eqb negb].
    destruct (find_scanner_device world) as [[]|path] eqn:Hfind; try done.
    apply find_scanner_device_found in Hfind as (_ & _ & name & _ & -> & _). done.
Qed.

End InputFacts.

(** ** The requests of a scan *)

Section RequestFacts.
Context `{PyBuiltins} (env : environ).

Lemma usda_lookups_nil (n : nat) : usda_lookups env n [].
Proof. repeat split; [cbn; lia|constructor]. Qed.

Lemma usda_lookups_le (n m : nat) (l : list request) :
  (n ≤ m)%nat → usda_lookups env n l → usda_lookups env m l.
Proof. intros Hle (Hlen & Hall & Hoff). repeat split; [lia|done|done]. Qed.

Lemma usda_lookups_app (n m : nat) (l k : list request) :
  usda_lookups env n l → usda_lookups env m k → usda_lookups env (n + m) (l ++ k).
Proof.
  intros (Hl & Hal & Hol) (Hk & Hak & Hok). repeat split.
  - rewrite length_app. lia.
  - by apply Forall_app.
  - intros Hoff. by rewrite (Hol Hoff), (Hok Hoff).
Qed.

Lemma lookup_barcode_sent (barcode : string) (sent : list request) :
  (lookup_barcode env barcode sent).2 = (sent ++ [off_request env barcode])%list.
Proof.
  unfold lookup_barcode, off_request. rewrite io_bind_run. unfold http.
  destruct (server env sent _) as [resp|e]; [|done].
  destruct (negb _); [done|].
  rewrite io_bind_run. unfold lift.
  destruct (json resp) as [[| | | | |d]|e]; try done.
  by destruct (_ || _).
Qed.

Lemma lookup_usda_requests (query : pyval) (sent : list request) :
  ∃ l, (lookup_usda env query sent).2 = (sent ++ l)%list ∧ usda_lookups env 1 l.
Proof.
  destruct (String.eqb_spec (USDA_PROVIDER_ID env) "") as [Hid|Hid].
  - exists []. rewrite (lookup_usda_disabled env query sent Hid), app_nil_r.
    split; [done|apply usda_lookups_nil].
  - exists [usda_request env query]. rewrite (lookup_usda_sent env query sent Hid).
    repeat split; [cbn; lia| |done]. constructor; [eauto|constructor].
Qed.

Lemma search_usda_requests (barcode : string) (brand name : pyval) (sent : list request) :
  ∃ l, (search_usda env barcode brand name sent).2 = (sent ++ l)%list
       ∧ usda_lookups env 3 l.
Proof.
  unfold search_usda. rewrite io_bind_run.
  destruct (lookup_usda_requests (VStr barcode) sent) as (l1 & H1 & U1).
  destruct (lookup_usda env (VStr barcode) sent) as [[f1|e] sent1]; cbn [snd] in H1;
    subst sent1; [|exists l1; split; [done|apply (usda_lookups_le 1); [lia|done]]].
  destruct (truthy f1); [exists l1; split; [done|apply (usda_lookups_le 1); [lia|done]]|].
  rewrite io_bind_run.
  destruct (lookup_usda_requests (brand_and_name brand name) (sent ++ l1)%list) as (l2 & H2 & U2).
  pose proof (usda_lookups_app _ _ _ _ U1 U2) as U12.
  destruct (lookup_usda env (brand_and_name brand name) (sent ++ l1)%list) as [[f2|e] sent2];
    cbn [snd] in H2; subst sent2; rewrite <- app_assoc.
  2: { exists (l1 ++ l2)%list. split; [done|apply (usda_lookups_le 2); [lia|done]]. }
  destruct (truthy f2);
    [exists (l1 ++ l2)%list; split; [done|apply (usda_lookups_le 2); [lia|done]]|].
  destruct (lookup_usda_requests name (sent ++ l1 ++ l2)%list) as (l3 & H3 & U3).
  exists (l1 ++ l2 ++ l3)%list. rewrite H3, <- !app_assoc. split; [done|].
  rewrite app_assoc. by apply (usda_lookups_app 2 1).
Qed.

Lemma enrich_if_incomplete_requests (barcode : string) (brand name : pyval)
    (s : gmap string pyval) (sent : list request) :
  ∃ l, (enrich_if_incomplete env barcode brand name s sent).2 = (sent ++ l)%list
       ∧ usda_lookups env 3 l.
Proof.
  unfold enrich_if_incomplete. rewrite io_bind_run. unfold lift at 1.
  destruct (is_nutrition_complete s) as [[|]|e].
  - exists []. rewrite app_nil_r. split; [done|apply usda_lookups_nil].
  - rewrite io_bind_run.
    destruct (search_usda_requests barcode brand name sent) as (l & Hl & Ul).
    destruct (search_usda env barcode brand name sent) as [[food|e] sent1];
      cbn [snd] in Hl; subst sent1; exists l; (split; [|done]); [|done].
    by destruct (truthy food).
  - exists []. rewrite app_nil_r. split; [done|apply usda_lookups_nil].
Qed.

Lemma gather_record_requests (barcode : string) (sent : list request) :
  ∃ l, (gather_record env barcode sent).2 = (sent ++ off_request env barcode :: l)%list
       ∧ usda_lookups env 3 l.
Proof.
  unfold gather_record. rewrite io_bind_run.
  pose proof (lookup_barcode_sent barcode sent) as Hl.
  destruct (lookup_barcode env barcode sent) as [[product|e] sent1]; cbn [snd] in Hl;
    subst sent1; [|exists []; split; [done|apply usda_lookups_nil]].
  destruct (truthy product); cbn [negb];
    [|exists []; split; [done|apply usda_lookups_nil]].
  rewrite io_bind_run. unfold lift at 1.
  destruct (py_get product "product_name" _) as [name|e];
    [|exists []; split; [done|apply usda_lookups_nil]].
  rewrite io_bind_run. unfold lift at 1.
  destruct (py_get product "brands" _) as [brand|e];
    [|exists []; split; [done|apply usda_lookups_nil]].
  rewrite io_bind_run. unfold lift at 1.
  destruct (build_food_suggestion product) as [s0|e];
    [|exists []; split; [done|apply usda_lookups_nil]].
  rewrite io_bind_run.
  destruct (enrich_if_incomplete_requests barcode brand name s0
              (sent ++ [off_request env barcode])%list) as (l & Hl & Ul).
  exists l. split; [|done].
  destruct (enrich_if_incomplete env barcode brand name s0 _) as [[s1|e] sent2];
    cbn [snd] in Hl; subst sent2; by rewrite <- app_assoc.
Qed.

Lemma get_scale_weight_requests (sent : list request) :
  ∃ extra, (get_scale_weight env sent).2 = (sent ++ extra)%list ∧ scale_lookup env extra.
Proof.
  unfold get_scale_weight, scale_lookup.
  destruct (SCALE_URL env) as [[|c url]|] eqn:Hurl;
    try (exists []; rewrite app_nil_r; split; [done|by left]).
  exists [GET (String c url) [] []]. split; [|right; by exists (String c url)].
  unfold try_except, read_weight. rewrite io_bind_run. unfold http.
  destruct (server env sent _) as [resp|e]; [|done].
  destruct (status_code resp =? 200)%Z; [|done].
  rewrite io_bind_run. unfold lift.
  destruct (json resp) as [data|e]; [|done].
  rewrite io_bind_run.
  destruct (py_get data "value" (VNum 0)) as [v|e]; [|done].
  rewrite io_bind_run.
  by destruct (py_float v) as [w|e].
Qed.

Lemma log_entry_requests food_id variant_id meal (sent : list request) :
  ∃ weight scale,
    scale_lookup env scale
    ∧ ((weight ← get_scale_weight env;
        _ ← log_food_entry env food_id variant_id meal weight;
        mret tt) sent).2
      = (sent ++ scale ++ [diary_request env food_id variant_id meal weight])%list.
Proof.
  destruct (log_entry_sent env food_id variant_id meal sent) as (w & extra & Hw & Htail).
  destruct (get_scale_weight_requests sent) as (scale & Hscale & Hlookup).
  rewrite Hw in Hscale. cbn [snd] in Hscale. apply app_inv_head in Hscale as ->.
  exists w, scale. split; [done|]. rewrite Htail. by rewrite <- app_assoc.
Qed.

Lemma create_and_log_requests (meal : string) (s : gmap string pyval)
    (sent : list request) :
  ∃ tail, (create_and_log env meal s sent).2 = (sent ++ tail)%list
          ∧ after_lookups env meal tail.
Proof.
  unfold create_and_log. rewrite io_bind_run. unfold lift at 1.
  destruct (log_macros s) as [[]|e];
    [|exists []; rewrite app_nil_r; split; [done|by left]].
  rewrite io_bind_run. pose proof (create_or_get_food_sent env s sent) as Hc.
  destruct (create_or_get_food env s sent) as [[[food_id variant_id]|e] sent1];
    cbn [snd] in Hc; subst sent1.
  2: { exists [catalog_request env s]. split; [done|]. right. exists s. by left. }
  cbn [fst snd].
  destruct (truthy food_id) eqn:Hfood, (truthy variant_id) eqn:Hvariant; cbn [negb orb];
    try (exists [catalog_request env s]; split; [done|]; right; exists s; by left).
  destruct (log_entry_requests food_id variant_id meal
              (sent ++ [catalog_request env s])%list) as (w & scale & Hscale & Htail).
  exists (catalog_request env s :: scale ++ [diary_request env food_id variant_id meal w])%list.
  split.
  - unfold catalog_request in Htail. rewrite Htail. by rewrite <- app_assoc.
  - right. exists s. right. by exists food_id, variant_id, w, scale.
Qed.


Lemma legacy_create_or_get_food_sent (s : gmap string pyval) (sent : list request) :
  (Legacy.create_or_get_food env s sent).2
  = (sent ++ [legacy_catalog_request env s])%list.
Proof.
  unfold Legacy.create_or_get_food, legacy_catalog_request. rewrite io_bind_run.
  unfold http. destruct (server env sent _) as [resp|e]; [|done].
  destruct (negb _); [done|].
  rewrite io_bind_run. unfold lift. by destruct (json resp) as [data|e].
Qed.

Lemma get_default_variant_sent (food_id : pyval) (sent : list request) :
  (Legacy.get_default_variant env food_id sent).2
  = (sent ++ [variants_request env food_id])%list.
Proof.
  unfold Legacy.get_default_variant, variants_request. rewrite io_bind_run.
  unfold http. destruct (server env sent _) as [resp|e]; [|done].
  destruct (negb _); [done|].
  rewrite io_bind_run. unfold lift. destruct (json resp) as [variants|e]; [|done].
  destruct (negb _); [done|].
  rewrite io_bind_run. by destruct (py_first variants) as [first|e].
Qed.

(** X12. The requests of one scan of barcode_scanner.py: nothing when the
    meal slot cannot be resolved; otherwise the primary lookup, then
    nothing more, or the food to the catalog, then the request for its
    variants (only with a food id that is not empty), then at most one
    reading of the scale and the diary entry (only with a variant id that
    is not empty), each only after the one before it. *)
Theorem legacy_process_barcode_requests (barcode : string) (meal_type : option string)
    (sent : list request) :
  ∃ extra,
    (Legacy.process_barcode env barcode meal_type sent).2 = (sent ++ extra)%list
    ∧ match resolve_meal env meal_type with
      | Raise e =>
          extra = [] ∧ (Legacy.process_barcode env barcode meal_type sent).1 = Raise e
      | Ok meal =>
          ∃ tail, extra = (off_request env barcode :: tail)%list
                  ∧ legacy_after_lookup env meal tail
      end.
Proof.
  unfold Legacy.process_barcode, resolve_meal. rewrite io_bind_run.
  assert (Hm : (match meal_type with
                | Some m0 => mret m0
                | None => lift (current_meal_type env)
                end) sent
               = (match meal_type with
                  | Some m0 => Ok m0
                  | None => current_meal_type env
                  end, sent)) by by destruct meal_type.
  rewrite Hm. clear Hm.
  destruct (match meal_type with Some m0 => Ok m0 | None => current_meal_type env end)
    as [m|e]; [|exists []; by rewrite app_nil_r].
  rewrite io_bind_run.
  pose proof (lookup_barcode_sent barcode sent) as Hl.
  destruct (lookup_barcode env barcode sent) as [[product|e] sent1]; cbn [snd] in Hl;
    subst sent1.
  2: { exists [off_request env barcode]. split; [done|]. eexists. split; [done|by left]. }
  destruct (truthy product); cbn [negb].
  2: { exists [off_request env barcode]. split; [done|]. eexists. split; [done|by left]. }
  rewrite io_bind_run. unfold lift at 1.
  destruct (py_get product "product_name" _) as [name|e].
  2: { exists [off_request env barcode]. split; [done|]. eexists. split; [done|by left]. }
  rewrite io_bind_run. unfold lift at 1.
  destruct (py_get product "brands" _) as [brand|e].
  2: { exists [off_request env barcode]. split; [done|]. eexists. split; [done|by left]. }
  rewrite io_bind_run. unfold lift at 1.
  destruct (Legacy.build_food_suggestion product) as [s|e].
  2: { exists [off_request env barcode]. split; [done|]. eexists. split; [done|by left]. }
  rewrite io_bind_run. unfold lift at 1.
  destruct (log_macros s) as [[]|e].
  2: { exists [off_request env barcode]. split; [done|]. eexists. split; [done|by left]. }
  rewrite io_bind_run.
  pose proof (legacy_create_or_get_food_sent s (sent ++ [off_request env barcode])%list) as Hc.
  destruct (Legacy.create_or_get_food env s _) as [[food_id|e] sent2]; cbn [snd] in Hc;
    subst sent2.
  2: { exists [off_request env barcode; legacy_catalog_request env s].
       split; [by rewrite <- app_assoc|]. eexists. split; [done|].
       right. exists s. by left. }
  destruct (truthy food_id) eqn:Hfood; cbn [negb].
  2: { exists [off_request env barcode; legacy_catalog_request env s].
       split; [by rewrite <- app_assoc|]. eexists. split; [done|].
       right. exists s. by left. }
  rewrite io_bind_run.
  pose proof (get_default_variant_sent food_id
                ((sent ++ [off_request env barcode]) ++ [legacy_catalog_request env s])%list)
    as Hv.
  destruct (Legacy.get_default_variant env food_id _) as [[variant_id|e] sent3];
    cbn [snd] in Hv; subst sent3.
  2: { exists [off_request env barcode; legacy_catalog_request env s;
               variants_request env food_id].
       split; [by rewrite <- !app_assoc|]. eexists. split; [done|].
       right. exists s. right. exists food_id. split; [done|]. by left. }
  destruct (truthy variant_id) eqn:Hvariant; cbn [negb].
  2: { exists [off_request env barcode; legacy_catalog_request env s;
               variants_request env food_id].
       split; [by rewrite <- !app_assoc|]. eexists. split; [done|].
       right. exists s. right. exists food_id. split; [done|]. by left. }
  destruct (log_entry_requests food_id variant_id m
              (((sent ++ [off_request env barcode]) ++ [legacy_catalog_request env s])
               ++ [variants_request env food_id])%list) as (w & scale & Hscale & Htail).
  exists (off_request env barcode :: legacy_catalog_request env s
          :: variants_request env food_id
          :: scale ++ [diary_request env food_id variant_id m w])%list.
  split; [rewrite Htail; by rewrite <- !app_assoc|].
  eexists. split; [done|]. right. exists s. right. exists food_id. split; [done|].
  right. by exists variant_id, w, scale.
Qed.

End RequestFacts.

(** ** Failures and the readers *)

Section FailureFacts.
Context `{PyBuiltins}.

Lemma run_each_app (process : string → io unit) (before after : list string)
    (sent0 sent : list request) :
  run_each process before sent0 = (Ok tt, sent) →
  run_each process (before ++ after) sent0 = run_each process after sent.
Proof.
  revert sent0. induction before as [|b before IH]; intros sent0.
  - by intros [= ->].
  - cbn [run_each app]. rewrite !io_bind_run.
    destruct (process b sent0) as [[[]|e] sent1]; [|done]. apply IH.
Qed.

Lemma run_each_raises (process : string → io unit) (before after : list string)
    (barcode : string) (e : exn) (sent0 sent sent' : list request) :
  run_each process before sent0 = (Ok tt, sent) →
  process barcode sent = (Raise e, sent') →
  run_each process (before ++ barcode :: after) sent0 = (Raise e, sent').
Proof.
  intros Hbefore Hfail. rewrite (run_each_app _ _ _ _ _ Hbefore).
  cbn [run_each]. by rewrite io_bind_run, Hfail.
Qed.

(** X13. An exception of the pipeline ends the reader: when the barcodes
    before one are processed and that one raises, the reader ends with its
    exception and the requests sent until then; the barcodes typed or
    scanned after it are not processed.  This holds of both readers. *)
Theorem reader_stops_at_exception (process : string → io unit)
    (before after : list string) (barcode : string) (e : exn)
    (sent0 sent sent' : list request) :
  run_each process before sent0 = (Ok tt, sent) →
  process barcode sent = (Raise e, sent') →
  (∀ lines, typed_barcodes lines = (before ++ barcode :: after)%list →
     read_barcodes_stdin process lines sent0 = (Raise e, sent'))
  ∧ (∀ events, scans [] events = (before ++ barcode :: after)%list →
       read_barcodes_evdev process events sent0 = (Raise e, sent')).
Proof.
  intros Hbefore Hfail. split.
  - intros lines Hlines. rewrite read_barcodes_stdin_run, Hlines.
    by apply run_each_raises with sent.
  - intros events Hevents. unfold read_barcodes_evdev.
    rewrite read_loop_scans, Hevents. by apply run_each_raises with sent.
Qed.

Lemma lookup_barcode_fails (env : environ) (barcode : string) (e : exn)
    (sent : list request) :
  lookup_failure env sent barcode = Some e →
  lookup_barcode env barcode sent = (Raise e, (sent ++ [off_request env barcode])%list).
Proof.
  unfold lookup_failure, lookup_barcode, off_request. rewrite io_bind_run. unfold http.
  destruct (server env sent _) as [resp|e']; [|by intros [= ->]].
  destruct (status_code resp =? 200)%Z; cbn [negb]; [|done].
  rewrite io_bind_run. unfold lift.
  destruct (json resp) as [[| | | | |d]|e']; try done; by intros [= ->].
Qed.

(** X14. A failure of the primary lookup is not caught: when the
    connection fails, or the answer of status 200 is not JSON or not a JSON
    object, the scan ends with that exception after the one request, in
    both variants of the program. *)
Theorem lookup_failure_ends_scan (env : environ) (barcode : string)
    (meal_type : option string) (meal : string) (e : exn) (sent : list request) :
  resolve_meal env meal_type = Ok meal →
  lookup_failure env sent barcode = Some e →
  process_barcode env barcode meal_type sent
  = (Raise e, (sent ++ [off_request env barcode])%list)
  ∧ Legacy.process_barcode env barcode meal_type sent
    = (Raise e, (sent ++ [off_request env barcode])%list).
Proof.
  intros Hmeal Hfail%lookup_barcode_fails.
  assert (Hm : (match meal_type with
                | Some m0 => mret m0
                | None => lift (current_meal_type env)
                end) sent = (Ok meal, sent)).
  { unfold resolve_meal in Hmeal. destruct meal_type; [by injection Hmeal as ->|].
    unfold lift. by rewrite Hmeal. }
  split.
  - unfold process_barcode. by rewrite io_bind_run, Hm, io_bind_run, Hfail.
  - unfold Legacy.process_barcode. by rewrite io_bind_run, Hm, io_bind_run, Hfail.
Qed.

End FailureFacts.

(** ** The meal windows at their edges *)

Section WindowFacts.
Context `{PyBuiltins}.

Ltac by_fields :=
  repeat match goal with
         | |- context [(?x ?= ?y)%Z] => destruct (Z.compare_spec x y); try done; try lia
         end.

Lemma time_le_refl (a : time) : time_le a a = true.
Proof. unfold time_le, time_compare. by rewrite !Z.compare_refl. Qed.

Lemma time_lt_irrefl (a : time) : time_lt a a = false.
Proof. unfold time_lt, time_compare. by rewrite !Z.compare_refl. Qed.

Lemma time_le_lt_trans (a b c : time) :
  time_le a b = true → time_lt b c = true → time_lt a c = true.
Proof. unfold time_le, time_lt, time_compare. by_fields. Qed.

Lemma contains_nonempty (w : string * (time * time)) (t : time) :
  contains w t = true → time_lt w.2.1 w.2.2 = true.
Proof.
  unfold contains. intros [Hle Hlt]%andb_true_iff. by apply time_le_lt_trans with t.
Qed.

Lemma strptime_HM_raises (text : string) (e : exn) :
  strptime_HM text = Raise e → e = ValueError.
Proof.
  unfold strptime_HM. destruct (split_on ":" text) as [|h [|m [|x l]]]; try by intros [= <-].
  destruct (one_or_two_digits h), (one_or_two_digits m); try by intros [= <-].
  destruct (_ && _); [done|by intros [= <-]].
Qed.

Lemma meal_of_windows_malformed (t : time) meal window rest (e : exn) :
  parse_window window = Raise e →
  meal_of_windows t ((meal, window) :: rest) = Raise ValueError.
Proof.
  unfold parse_window. cbn [meal_of_windows].
  destruct (split_on "-" window) as [|a [|b [|c l]]]; try done.
  destruct (strptime_HM (strip a)) as [x|e1] eqn:Ha; cbn [mbind result_bind].
  - destruct (strptime_HM (strip b)) as [y|e2] eqn:Hb; cbn [mbind result_bind]; [done|].
    intros _. by rewrite (strptime_HM_raises _ _ Hb).
  - intros _. by rewrite (strptime_HM_raises _ _ Ha).
Qed.

Lemma meal_of_windows_skip (t : time) (before : list (string * string))
    (windows : list (string * (time * time))) (rest : list (string * string)) :
  Forall2 (λ c w, c.1 = w.1 ∧ parse_window c.2 = Ok w.2) before windows →
  meal_of_windows t (before ++ rest)
  = match List.find (λ w, contains w t) windows with
    | Some w => Ok w.1
    | None => meal_of_windows t rest
    end.
Proof.
  induction 1 as [|[meal window] [meal' [start stop]] before windows [Hname Hw] _ IH];
    [done|].
  cbn [fst snd] in Hname, Hw. subst meal'. cbn [app].
  rewrite (meal_of_windows_cons _ _ _ _ _ _ Hw). cbn [List.find].
  by destruct (contains (meal, (start, stop)) t).
Qed.

(** X15. A window that cannot be parsed is noticed only when the loop
    reaches it.  When the windows before it parse and none contains the
    time, the resolver raises ValueError, and a scan without a given meal
    raises before it sends anything, while a scan with a given meal is not
    affected.  When a window before it contains the time, that window is
    returned whatever follows it. *)
Theorem malformed_window_reached (t : time) (before after : list (string * string))
    (windows : list (string * (time * time))) (meal window : string) (e : exn) :
  Forall2 (λ c w, c.1 = w.1 ∧ parse_window c.2 = Ok w.2) before windows →
  parse_window window = Raise e →
  meal_of_windows t (before ++ (meal, window) :: after)
  = match List.find (λ w, contains w t) windows with
    | Some w => Ok w.1
    | None => Raise ValueError
    end
  ∧ ∀ env barcode sent,
      MEAL_WINDOWS env = (before ++ (meal, window) :: after)%list → now env = t →
      Forall (λ w, contains w t = false) windows →
      process_barcode env barcode None sent = (Raise ValueError, sent)
      ∧ Legacy.process_barcode env barcode None sent = (Raise ValueError, sent)
      ∧ ∀ given, ∃ rest,
          (process_barcode env barcode (Some given) sent).2
          = (sent ++ off_request env barcode :: rest)%list.
Proof.
  intros Hbefore Hbad.
  assert (Hloop : meal_of_windows t (before ++ (meal, window) :: after)
                  = match List.find (λ w, contains w t) windows with
                    | Some w => Ok w.1
                    | None => Raise ValueError
                    end).
  { rewrite (meal_of_windows_skip _ _ _ _ Hbefore).
    by rewrite (meal_of_windows_malformed _ _ _ _ _ Hbad). }
  split; [done|]. intros env barcode sent Hconfig Hnow Hnone.
  assert (Hmeal : current_meal_type env = Raise ValueError).
  { unfold current_meal_type. rewrite Hconfig, Hnow, Hloop.
    destruct (List.find _ windows) as [w|] eqn:Hfind; [|done].
    apply find_some in Hfind as [Hin Hw].
    apply list_elem_of_In in Hin. rewrite Forall_forall in Hnone.
    by rewrite (Hnone _ Hin) in Hw. }
  split; [|split].
  - unfold process_barcode. rewrite io_bind_run. unfold lift at 1. by rewrite Hmeal.
  - unfold Legacy.process_barcode. rewrite io_bind_run. unfold lift at 1. by rewrite Hmeal.
  - intros given. rewrite process_barcode_parts, io_bind_run. unfold lift at 1.
    cbn [resolve_meal]. rewrite io_bind_run.
    destruct (gather_record_requests env barcode sent) as (usda & Hg & _).
    destruct (gather_record env barcode sent) as [[[s|]|e'] sent1]; cbn [snd] in Hg;
      subst sent1; try (by exists usda).
    rewrite io_bind_run. unfold lift at 1.
    destruct (flag_if_incomplete s) as [s'|e']; [|by exists usda].
    destruct (create_and_log_requests env given s'
                (sent ++ off_request env barcode :: usda)%list) as (tail & Ht & _).
    exists (usda ++ tail)%list. rewrite Ht. by rewrite <- app_assoc.
Qed.

(** X16. A window is half open and never wraps around midnight: its start
    is inside it and its end is not, and a window whose end is not after
    its start (as 22:00-02:00) contains no time, so that the loop always
    passes it over. *)
Theorem window_without_span_never_matches (t : time) (meal window : string)
    (start stop : time) (rest : list (string * string)) :
  parse_window window = Ok (start, stop) →
  (time_lt start stop = false →
   meal_of_windows t ((meal, window) :: rest) = meal_of_windows t rest)
  ∧ contains (meal, (start, stop)) start = time_lt start stop
  ∧ contains (meal, (start, stop)) stop = false
  ∧ (time_le start t = true → time_lt t stop = true →
     meal_of_windows t ((meal, window) :: rest) = Ok meal).
Proof.
  intros Hw. rewrite (meal_of_windows_cons _ _ _ _ _ _ Hw). repeat split.
  - intros Hspan. destruct (contains (meal, (start, stop)) t) eqn:Hin; [|done].
    apply contains_nonempty in Hin. cbn [fst snd] in Hin. congruence.
  - unfold contains. cbn [fst snd]. by rewrite time_le_refl.
  - unfold contains. cbn [fst snd]. by rewrite time_lt_irrefl, andb_false_r.
  - intros Hle Hlt. unfold contains. cbn [fst snd]. by rewrite Hle, Hlt.
Qed.

End WindowFacts.

(** ** The name and the brand *)

Section NameFacts.
Context `{PyBuiltins}.

Lemma to_lower_cases (c : ascii) :
  is_cased (to_lower c) = is_cased c
  ∧ is_cased (to_upper c) = is_cased c
  ∧ to_lower (to_lower c) = to_lower c
  ∧ to_upper (to_upper c) = to_upper c
  ∧ to_lower (to_upper c) = to_lower c
  ∧ to_upper (to_lower c) = to_upper c.
Proof. destruct c as [[] [] [] [] [] [] [] []]; vm_compute; done. Qed.

Lemma title_from_again (s : string) :
  ∀ prev, title_from prev (title_from prev s) = title_from prev s.
Proof.
  induction s as [|c s IH]; intros prev; [done|]. cbn [title_from].
  destruct (to_lower_cases c) as (Hl & Hu & Hll & Huu & _).
  destruct prev; f_equal; try done.
  - by rewrite Hl.
  - by rewrite Hu.
Qed.

Lemma title_from_lower (s : string) :
  ∀ prev, str_lower (title_from prev s) = str_lower s.
Proof.
  unfold str_lower.
  induction s as [|c s IH]; intros prev; [done|]. cbn [title_from].
  destruct (to_lower_cases c) as (_ & _ & Hll & _ & Hlu & _).
  cbn [list_ascii_of_string fmap list_fmap string_of_list_ascii].
  f_equal; [by destruct prev|]. apply IH.
Qed.

Lemma title_from_length (s : string) :
  ∀ prev, String.length (title_from prev s) = String.length s.
Proof.
  induction s as [|c s IH]; intros prev; [done|]. cbn [title_from String.length].
  by rewrite IH.
Qed.

Lemma ascii_case_stays_ascii (c : ascii) :
  (nat_of_ascii c <? 128)%nat = true →
  (nat_of_ascii (to_lower c) <? 128)%nat = true
  ∧ (nat_of_ascii (to_upper c) <? 128)%nat = true.
Proof. destruct c as [[] [] [] [] [] [] [] []]; vm_compute; done. Qed.

Lemma title_from_ascii (s : string) :
  is_ascii s = true → ∀ prev, is_ascii (title_from prev s) = true.
Proof.
  unfold is_ascii. induction s as [|c s IH]; intros Hs prev; [done|].
  cbn [list_ascii_of_string forallb] in Hs. apply andb_true_iff in Hs as [Hc Hs].
  cbn [title_from list_ascii_of_string forallb].
  destruct (ascii_case_stays_ascii c Hc) as [Hl Hu].
  rewrite (IH Hs). by destruct prev; rewrite ?Hl, ?Hu.
Qed.

(** X17. On a name or a brand within ASCII the normalisation changes
    nothing but the case of letters: the text it gives is within ASCII,
    has the same length and the same lower-case form, a text that is not
    entirely in upper case is left as it is, and normalising a second time
    changes nothing. *)
Theorem title_if_upper_only_case (s : string) :
  is_ascii s = true →
  ∃ s', title_if_upper (VStr s) = Ok (VStr s')
        ∧ is_ascii s' = true
        ∧ String.length s' = String.length s
        ∧ str_lower s' = str_lower s
        ∧ (str_isupper s = false → s' = s)
        ∧ title_if_upper (VStr s') = Ok (VStr s').
Proof.
  intros Hascii. cbn [title_if_upper]. destruct (str_isupper s) eqn:Hupper.
  - exists (str_title s). unfold str_title. rewrite Hascii. split; [done|].
    split; [by apply title_from_ascii|].
    split; [apply title_from_length|]. split; [apply title_from_lower|].
    split; [intros [=]|]. unfold str_isupper.
    rewrite (title_from_ascii s Hascii false), title_from_again.
    by destruct (_ && _).
  - exists s. by rewrite Hupper.
Qed.

End NameFacts.

(** ** The fixed fields of a record *)

Section RecordFacts.
Context `{PyBuiltins}.

(** The fields of the literal that no step of the pipeline writes. *)
Lemma build_food_suggestion_frame (product : pyval) (s : gmap string pyval) (k : string) :
  build_food_suggestion product = Ok s →
  k ∉ nutrient_keys → k ≠ "name" → k ≠ "brand" → k ≠ "barcode" →
  s !! k = base_suggestion VNone VNone VNone !! k.
Proof.
  unfold build_food_suggestion. intros Hbuild Hk Hname Hbrand Hbarcode. revert Hbuild.
  destruct (py_get product "nutriments" (VDict ∅)) as [nutriments|e]; cbn [mbind result_bind]; [|done].
  destruct (py_get product "product_name" VNone) as [product_name|e]; cbn [mbind result_bind]; [|done].
  destruct (py_get product "brands" VNone) as [brands|e]; cbn [mbind result_bind]; [|done].
  destruct (title_if_upper (py_or product_name _)) as [name|e]; cbn [mbind result_bind]; [|done].
  destruct (title_if_upper (py_or brands _)) as [brand|e]; cbn [mbind result_bind]; [|done].
  destruct (py_get product "code" VNone) as [code|e]; cbn [mbind result_bind]; [|done].
  set (s0 := base_suggestion _ _ _).
  destruct (finish (for_each _ s0 NUTRIENT_MAP)) as [s1|e] eqn:Hrun; cbn [mbind result_bind]; [|done].
  destruct (py_get product "nutriments_estimated" (VDict ∅)) as [estimated|e]; cbn [mbind result_bind]; [|done].
  intros Hfill%finish_ok.
  pose proof (fill_estimated_keeps s1 estimated k) as Hkeeps. rewrite Hfill in Hkeeps.
  unfold keeps in Hkeeps. cbn [fst] in Hkeeps. rewrite Hkeeps by by left.
  apply finish_ok, populate_loop_sound in Hrun as [_ Hframe].
  rewrite (Hframe _ Hk). unfold s0, base_suggestion. cbn [list_to_map foldr fst snd].
  rewrite !(lookup_insert_ne _ "name"), !(lookup_insert_ne _ "brand"),
    !(lookup_insert_ne _ "barcode") by done.
  done.
Qed.

Lemma enrich_if_incomplete_keeps barcode brand name (s s' : gmap string pyval)
    (sent sent' : list request) env (k : string) :
  enrich_if_incomplete env barcode brand name s sent = (Ok s', sent') →
  k ∉ nutrient_keys → s' !! k = s !! k.
Proof.
  intros Hfills%enrich_if_incomplete_fills Hk.
  destruct (Hfills k) as [->|[Hin _]]; done.
Qed.

Lemma gather_record_frame env (barcode : string) (s : gmap string pyval)
    (sent sent' : list request) (k : string) :
  gather_record env barcode sent = (Ok (Some s), sent') →
  k ∉ nutrient_keys → k ≠ "name" → k ≠ "brand" → k ≠ "barcode" →
  s !! k = base_suggestion VNone VNone VNone !! k.
Proof.
  unfold gather_record. rewrite io_bind_run.
  destruct (lookup_barcode env barcode sent) as [[product|e] sent1]; [|done].
  destruct (truthy product); cbn [negb]; [|done].
  rewrite io_bind_run. unfold lift.
  destruct (py_get product "product_name" (VStr "?")) as [name|e]; [|done].
  rewrite io_bind_run.
  destruct (py_get product "brands" (VStr "")) as [brand|e]; [|done].
  rewrite io_bind_run.
  destruct (build_food_suggestion product) as [s0|e] eqn:Hbuild; [|done].
  rewrite io_bind_run.
  destruct (enrich_if_incomplete env barcode brand name s0 sent1) as [[s1|e] sent2] eqn:Hen;
    [|done].
  intros [= <- <-] Hk Hname Hbrand Hbarcode.
  rewrite (enrich_if_incomplete_keeps _ _ _ _ _ _ _ _ _ Hen Hk).
  by apply (build_food_suggestion_frame product).
Qed.

(** X18. Every record a scan builds, also after the secondary fill and
    after the review flag, is a custom food per serving of 100 g from the
    primary provider: the fixed fields of the literal reach the catalog as
    they were written. *)
Theorem record_is_per_100g env (barcode : string) (s : gmap string pyval)
    (sent sent' : list request) :
  gather_record env barcode sent = (Ok (Some s), sent') →
  ∃ record,
    flag_if_incomplete s = Ok record
    ∧ record !! "serving_size" = Some (VNum 100)
    ∧ record !! "serving_unit" = Some (VStr "g")
    ∧ record !! "is_custom" = Some (VBool true)
    ∧ record !! "provider_type" = Some (VStr "openfoodfacts")
    ∧ record !! "provider_external_id" = Some VNone
    ∧ record !! "shared_with_public" = Some (VBool false)
    ∧ record !! "glycemic_index" = Some VNone
    ∧ (∀ meal, ∃ rest, (create_and_log env meal record sent').2
                       = (sent' ++ catalog_request env record :: rest)%list).
Proof.
  intros Hgather.
  destruct (gather_record_scan_record _ _ _ _ _ Hgather) as (Hrec & [name Hname] & Hcustom).
  destruct (nutrition_complete_cases s Hrec) as (complete & Hcomplete & _).
  pose proof (λ k, gather_record_frame env barcode s sent sent' k Hgather) as Hframe.
  assert (Hfixed : ∀ k, k ∈ ["serving_size"; "serving_unit"; "is_custom"; "provider_type";
                             "provider_external_id"; "shared_with_public"; "glycemic_index"] →
            (k ∉ nutrient_keys) ∧ k ≠ "name" ∧ k ≠ "brand" ∧ k ≠ "barcode"
            ∧ k ≠ "custom_nutrients").
  { intros k Hk. repeat (apply elem_of_cons in Hk as [->|Hk]);
      [..|by apply not_elem_of_nil in Hk];
      (split; [apply (bool_decide_unpack _); vm_compute; exact I|done]). }
  set (record := if complete then s else flagged s name).
  assert (Hflag : flag_if_incomplete s = Ok record).
  { unfold flag_if_incomplete. rewrite Hcomplete. cbn [mbind result_bind].
    unfold record. destruct complete; [done|]. by apply mark_for_review_flagged. }
  assert (Hkeep : ∀ k, k ≠ "name" → k ≠ "custom_nutrients" → record !! k = s !! k).
  { intros k Hn Hc. unfold record. destruct complete; [done|]. unfold flagged.
    by rewrite !lookup_insert_ne. }
  assert (Hget : ∀ k, k ∈ ["serving_size"; "serving_unit"; "is_custom"; "provider_type";
                           "provider_external_id"; "shared_with_public"; "glycemic_index"] →
            record !! k = base_suggestion VNone VNone VNone !! k).
  { intros k Hk. destruct (Hfixed k Hk) as (Hnk & Hn & Hb & Hc & Hcu).
    rewrite Hkeep by done. by apply Hframe. }
  exists record. split; [done|].
  do 7 (split; [rewrite Hget by (apply (bool_decide_unpack _); vm_compute; exact I); done|]).
  assert (Hlog : log_macros record = Ok tt).
  { apply log_macros_ok. unfold record. destruct complete; [done|].
    by apply flagged_nutrient_record. }
  intros meal. unfold create_and_log. rewrite io_bind_run. unfold lift at 1. rewrite Hlog.
  rewrite io_bind_run. pose proof (create_or_get_food_sent env record sent') as Hc.
  destruct (create_or_get_food env record sent') as [[[food_id variant_id]|e] sent1];
    cbn [snd] in Hc; subst sent1; [|by exists []].
  cbn [fst snd]. destruct (negb (truthy food_id) || negb (truthy variant_id));
    [by exists []|].
  destruct (log_entry_requests env food_id variant_id meal
              (sent' ++ [catalog_request env record])%list) as (w & scale & _ & Htail).
  eexists. unfold catalog_request in *. rewrite Htail. by rewrite <- app_assoc.
Qed.

End RecordFacts.

(** ** The quantity of the diary entry *)

Section QuantityFacts.

Lemma round_half_even_within (x : Q) (k : Z) :
  (inject_Z k - (1 # 2) < x)%Q → (x < inject_Z k + (1 # 2))%Q → round_half_even x = k.
Proof.
  intros Hlo Hhi. destruct (round_half_even_near x) as [Hnlo Hnhi].
  assert (Hbelow : (inject_Z (round_half_even x) < inject_Z (k + 1))%Q)
    by (rewrite inject_Z_succ; lra).
  assert (Habove : (inject_Z (k + -1) < inject_Z (round_half_even x))%Q).
  { rewrite inject_Z_plus. change (inject_Z (-1)) with (-1)%Q. lra. }
  rewrite <- Zlt_Qlt in Hbelow, Habove. lia.
Qed.

(** X19. The quantity logged for a weight that is not negative is a whole
    number of hundredths and is not negative.  Away from the ties it is the
    hundredth nearest to the weight over 100: a weight (up to a thousand
    tonnes) within 0.49 g of a whole number k of grams gives k hundredths;
    in particular a weight of at most 0.49 g is logged with quantity 0. *)
Theorem quantity_near_weight (w : Q) :
  (0 <= w)%Q →
  (0 <= quantity_of (Some w))%Q
  ∧ (∃ k : Z, (quantity_of (Some w) == k # 100)%Q)
  ∧ (∀ k : Z, (w <= 1000000000)%Q →
       (inject_Z k - (49 # 100) <= w)%Q → (w <= inject_Z k + (49 # 100))%Q →
       (quantity_of (Some w) == k # 100)%Q)
  ∧ ((w <= 49 # 100)%Q → (quantity_of (Some w) == 0)%Q).
Proof.
  intros Hw. cbn [quantity_of].
  destruct (float_div_100_near w Hw) as (Hy0 & Hylo & Hyhi).
  pose proof tiny_pos as Htiny. pose proof tiny_small as Hsmall.
  assert (Hnearest : ∀ k : Z, (w <= 1000000000)%Q →
       (inject_Z k - (49 # 100) <= w)%Q → (w <= inject_Z k + (49 # 100))%Q →
       (round2 (float_div w 100) == k # 100)%Q).
  { intros k Hmax Hlo Hhi. unfold round2. rewrite Qred_correct.
    rewrite (round_half_even_within (float_div w 100 * 100) k); [reflexivity| |].
    - change (w / 100)%Q with (w * (1 # 100))%Q in *.
      set (y := float_div w 100) in *. set (t := tiny) in *. set (z := inject_Z k) in *.
      clearbody y t z. lra.
    - change (w / 100)%Q with (w * (1 # 100))%Q in *.
      set (y := float_div w 100) in *. set (t := tiny) in *. set (z := inject_Z k) in *.
      clearbody y t z. lra. }
  split; [|split; [apply round2_hundredths|split; [exact Hnearest|]]].
  - assert (H00 : (round2 0 == 0)%Q) by reflexivity.
    rewrite <- H00. by apply round2_mono.
  - intros Hmax. rewrite (Hnearest 0%Z); [reflexivity|lra| |].
    + change (inject_Z 0) with 0%Q. lra.
    + change (inject_Z 0) with 0%Q. lra.
Qed.

End QuantityFacts.

(** ** The name of a scanner *)

Section ScannerNameFacts.

Lemma str_lower_cons (c : ascii) (s : string) :
  str_lower (String c s) = String (to_lower c) (str_lower s).
Proof. reflexivity. Qed.

Lemma str_lower_app (a b : string) : str_lower (a +:+ b) = str_lower a +:+ str_lower b.
Proof.
  induction a as [|c a IH]; [done|].
  by rewrite append_cons, !str_lower_cons, IH, append_cons.
Qed.

Lemma prefix_app (needle post : string) : String.prefix needle (needle +:+ post) = true.
Proof.
  induction needle as [|c needle IH]; [by destruct post|].
  rewrite append_cons. cbn [String.prefix]. by destruct (ascii_dec c c).
Qed.

Lemma is_substring_prefix (needle hay : string) :
  String.prefix needle hay = true → is_substring needle hay = true.
Proof. intros Hp. destruct hay; cbn [is_substring]; by rewrite Hp. Qed.

Lemma is_substring_app (needle pre post : string) :
  is_substring needle (pre +:+ needle +:+ post) = true.
Proof.
  induction pre as [|c pre IH].
  - change ("" +:+ needle +:+ post) with (needle +:+ post).
    apply is_substring_prefix, prefix_app.
  - rewrite append_cons. cbn [is_substring]. rewrite IH. apply orb_true_r.
Qed.

(** X20. A device is taken for a scanner as soon as its name holds one of
    the words barcode, scanner and hid, in any letter case and anywhere in
    the name. *)
Theorem looks_like_scanner_keyword (pre kw post : string) :
  str_lower kw ∈ ["barcode"; "scanner"; "hid"] →
  looks_like_scanner (Some (pre +:+ kw +:+ post)) = true.
Proof.
  intros Hkw. unfold looks_like_scanner. cbn [default from_option id existsb].
  rewrite !str_lower_app.
  repeat (apply elem_of_cons in Hkw as [->|Hkw]); [..|by apply not_elem_of_nil in Hkw].
  - by rewrite is_substring_app.
  - rewrite (is_substring_app "scanner"). by rewrite orb_true_r.
  - rewrite (is_substring_app "hid"). by rewrite !orb_true_r.
Qed.

End ScannerNameFacts.

(** ** The keys of the scanner *)

Section ScannerKeyFacts.

Lemma key_char_range (scancode : Z) :
  is_Some (key_char scancode) ↔ (2 ≤ scancode ≤ 11)%Z.
Proof.
  unfold key_char, KEY_MAP. cbn [List.find fst].
  repeat match goal with
         | |- context [(?n =? scancode)%Z] => destruct (Z.eqb_spec n scancode)
         end; cbn [fmap option_fmap option_map]; split; intros Hs;
    try lia; try (by eexists); by destruct Hs.
Qed.

Lemma scans_ignores_other_keys (events : list input_event) :
  ∀ buffer,
  scans buffer events = scans buffer (filter (λ e, is_scanner_key e = true) events).
Proof.
  induction events as [|event rest IH]; intros buffer; [done|].
  rewrite filter_cons. destruct (decide (is_scanner_key event = true)) as [Hk|Hk].
  - cbn [scans]. destruct (is_enter_down event); [f_equal|]; apply IH.
  - apply not_true_is_false in Hk. cbn [scans]. unfold is_scanner_key in Hk.
    unfold is_enter_down, typed. cbn [omap list_omap].
    destruct (is_key_down event); cbn [andb] in *; [|rewrite app_nil_r; apply IH].
    apply orb_false_elim in Hk as [-> Hkey].
    destruct (key_char (code event)) as [c|] eqn:Hc.
    + apply bool_decide_eq_false in Hkey. contradict Hkey. eauto.
    + cbn [mbind option_bind]. rewrite app_nil_r. apply IH.
Qed.

(** X21. The scanner reader listens to eleven keys only: Enter and the
    ten keys of [KEY_MAP], whose scan codes are 2 to 11.  Key-down events
    of any other key (letters, the keypad, its Enter) can be taken out of
    the stream without changing a single run of the pipeline, so a code
    with letters is read as its digits alone. *)
Theorem read_barcodes_evdev_digit_keys_only (process : string → io unit)
    (events : list input_event) (sent : list request) :
  read_barcodes_evdev process events sent
  = read_barcodes_evdev process (filter (λ e, is_scanner_key e = true) events) sent
  ∧ ∀ event, is_scanner_key event = true ↔
      ev_type event = EV_KEY ∧ value event = key_down
      ∧ (code event = KEY_ENTER ∨ (2 ≤ code event ≤ 11)%Z).
Proof.
  split.
  - unfold read_barcodes_evdev. by rewrite !read_loop_scans, <- scans_ignores_other_keys.
  - intros event. unfold is_scanner_key, is_key_down.
    rewrite !andb_true_iff, orb_true_iff, !Z.eqb_eq, bool_decide_eq_true, key_char_range.
    tauto.
Qed.

End ScannerKeyFacts.

(** ** The name, the brand and the barcode of a record *)

Section IdentityFacts.
Context `{PyBuiltins}.

(** X22. The record built for a product carries the name and the brand
    of the product, normalised, and its code: a name that is missing, null
    or empty becomes "Unknown Product", a missing brand or code the empty
    text.  When the builder raises on a product whose name or brand is a
    value other than text (a number, a list), it raises AttributeError. *)
Theorem build_food_suggestion_identity (d : gmap string pyval) :
  let raw_name := py_or (default VNone (d !! "product_name")) (VStr "Unknown Product") in
  let raw_brand := py_or (default VNone (d !! "brands")) (VStr "") in
  match build_food_suggestion (VDict d) with
  | Ok s =>
      ∃ name brand,
        raw_name = VStr name ∧ raw_brand = VStr brand
        ∧ s !! "name" = Some (VStr (if str_isupper name then str_title name else name))
        ∧ s !! "brand" = Some (VStr (if str_isupper brand then str_title brand else brand))
        ∧ s !! "barcode" = Some (py_or (default VNone (d !! "code")) (VStr ""))
  | Raise e =>
      (∀ text, raw_name ≠ VStr text) ∨ (∀ text, raw_brand ≠ VStr text) → e = AttributeError
  end
  ∧ (truthy (default VNone (d !! "product_name")) = false →
     raw_name = VStr "Unknown Product")
  ∧ (truthy (default VNone (d !! "brands")) = false → raw_brand = VStr "").
Proof.
  intros raw_name raw_brand. split; [|split; intros Hfalse; unfold raw_name, raw_brand, py_or;
                                       by rewrite Hfalse].
  unfold build_food_suggestion. cbn [py_get mbind result_bind].
  fold raw_name raw_brand.
  destruct raw_name as [| | |name| |] eqn:Hname; cbn [title_if_upper mbind result_bind];
    try done.
  destruct raw_brand as [| | |brand| |] eqn:Hbrand; cbn [title_if_upper mbind result_bind];
    try (intros [Hn|Hb]; [by destruct (Hn name)|done]).
  set (s0 := base_suggestion _ _ _).
  destruct (finish (for_each _ s0 NUTRIENT_MAP)) as [s1|e] eqn:Hrun;
    cbn [mbind result_bind]; [|intros [Hn|Hb]; [by destruct (Hn name)|by destruct (Hb brand)]].
  destruct (finish (fill_estimated s1 _)) as [s|e] eqn:Hfill;
    [|intros [Hn|Hb]; [by destruct (Hn name)|by destruct (Hb brand)]].
  apply finish_ok in Hfill.
  assert (Hframe : ∀ k, k ∉ nutrient_keys → s !! k = s0 !! k).
  { intros k Hk.
    pose proof (fill_estimated_keeps s1 (default (VDict ∅) (d !! "nutriments_estimated")) k)
      as Hkeeps.
    rewrite Hfill in Hkeeps. unfold keeps in Hkeeps. cbn [fst] in Hkeeps.
    rewrite Hkeeps by by left.
    apply finish_ok, populate_loop_sound in Hrun as [_ Hrun]. by apply Hrun. }
  exists name, brand. do 2 (split; [done|]).
  rewrite !Hframe by (apply (bool_decide_unpack _); vm_compute; exact I).
  done.
Qed.

End IdentityFacts.

(** ** The secondary fill applied twice *)

Section RefillFacts.
Context `{PyBuiltins}.

Lemma first_writer_wins_again (current : option pyval) (offered : list Q) :
  first_writer_wins (first_writer_wins current offered) offered
  = first_writer_wins current offered.
Proof.
  destruct offered as [|q rest]; [done|]. cbn [first_writer_wins].
  destruct (py_is_zero (default (VNum 0) current)) eqn:Hzero.
  - destruct (py_is_zero (default (VNum 0)
                (first_writer_wins (Some (VNum (round2 q))) rest))) eqn:Hstill;
      reflexivity.
  - by rewrite Hzero.
Qed.

(** X23. Filling a record from the same food of the secondary source a
    second time changes nothing: the fill is idempotent. *)
Theorem enrich_from_usda_idempotent (s : gmap string pyval) (food : pyval) :
  is_usda_food food = true →
  ∃ s' : gmap string pyval,
    enrich_from_usda s food = (s', None)
    ∧ enrich_from_usda s' food = (s', None).
Proof.
  intros Hfood.
  destruct (enrich_from_usda_values s food Hfood) as (s1 & Hfirst & Hvalues1).
  destruct (enrich_from_usda_values s1 food Hfood) as (s2 & Hsecond & Hvalues2).
  exists s1. split; [done|]. rewrite Hsecond. f_equal. apply map_eq. intros k.
  by rewrite Hvalues2, Hvalues1, first_writer_wins_again.
Qed.

End RefillFacts.

(** ** The further properties at the sample data *)

Lemma key_presses_round_trip_witness :
  scans [] (key_presses "4006381333931" ++ [key_press KEY_ENTER])%list = ["4006381333931"].
Proof.
  destruct (key_presses_round_trip (λ _, mret tt) "4006381333931" []) as [Hscans _].
  - discriminate.
  - reflexivity.
  - exact Hscans.
Defined.

Lemma parse_env_line_shape_witness :
  has_char "=" "SPARKY_URL" = false ∧ trimmed is_quote "http://sparky/".
Proof.
  destruct (parse_env_line_shape "  SPARKY_URL = 'http://sparky/'  " "SPARKY_URL"
              "http://sparky/") as (_ & _ & Hequals & _ & Hquotes).
  - reflexivity.
  - split; [exact Hequals|exact Hquotes].
Defined.

Lemma parse_env_line_round_trip_witness :
  parse_env_line "SPARKY_API_KEY=abc=123 # key" = Some ("SPARKY_API_KEY", "abc=123 # key").
Proof.
  destruct (parse_env_line_round_trip "SPARKY_API_KEY" "abc=123 # key") as [Hplain _].
  - discriminate.
  - split; reflexivity.
  - reflexivity.
  - reflexivity.
  - split; reflexivity.
  - apply Hplain. split; reflexivity.
Defined.

Lemma reader_stops_at_exception_witness :
  read_barcodes_stdin (λ barcode, process_barcode offline_env barcode (Some "Lunch"))
    ["4006381333931"; "5000112548167"] []
  = (Raise RequestException, [off_request offline_env "4006381333931"]).
Proof.
  destruct (reader_stops_at_exception
              (λ barcode, process_barcode offline_env barcode (Some "Lunch"))
              [] ["5000112548167"] "4006381333931" RequestException
              [] [] [off_request offline_env "4006381333931"]) as [Hstdin _].
  - reflexivity.
  - vm_compute. reflexivity.
  - apply Hstdin. reflexivity.
Defined.

Lemma lookup_failure_ends_scan_witness :
  process_barcode offline_env "4006381333931" None []
  = (Raise RequestException, [off_request offline_env "4006381333931"]).
Proof.
  destruct (lookup_failure_ends_scan offline_env "4006381333931" None "Lunch"
              RequestException []) as [Hfull _].
  - vm_compute. reflexivity.
  - reflexivity.
  - exact Hfull.
Defined.

Lemma malformed_window_reached_witness :
  meal_of_windows (on_the_hour 12) [("Breakfast", "05:00-10:00"); ("Lunch", "noon")]
  = Raise ValueError.
Proof.
  destruct (malformed_window_reached (on_the_hour 12) [("Breakfast", "05:00-10:00")] []
              [("Breakfast", (on_the_hour 5, on_the_hour 10))] "Lunch" "noon" ValueError)
    as [Hloop _].
  - constructor; [split; reflexivity|constructor].
  - reflexivity.
  - exact Hloop.
Defined.

Lemma window_without_span_never_matches_witness :
  meal_of_windows (on_the_hour 23) [("Dinner", "22:00-02:00")] = Ok "Snack".
Proof.
  destruct (window_without_span_never_matches (on_the_hour 23) "Dinner" "22:00-02:00"
              (on_the_hour 22) (on_the_hour 2) []) as [Hskip _].
  - reflexivity.
  - apply Hskip. reflexivity.
Defined.

Lemma record_is_per_100g_witness :
  ∃ (s record : gmap string pyval) (sent1 : list request),
    gather_record (sample_env mystery) "4000000000006" [] = (Ok (Some s), sent1)
    ∧ flag_if_incomplete s = Ok record
    ∧ record !! "serving_size" = Some (VNum 100)
    ∧ record !! "serving_unit" = Some (VStr "g").
Proof.
  assert (Hfound : has_record (gather_record (sample_env mystery) "4000000000006" []) = true)
    by (vm_compute; reflexivity).
  destruct (gather_record (sample_env mystery) "4000000000006" [])
    as [[[s|]|e] sent1] eqn:Hgather; try discriminate Hfound.
  destruct (record_is_per_100g (sample_env mystery) "4000000000006" s [] sent1 Hgather)
    as (record & Hflag & Hsize & Hunit & _).
  exists s, record, sent1. split; [reflexivity|]. split; [exact Hflag|].
  split; [exact Hsize|exact Hunit].
Defined.

Lemma looks_like_scanner_keyword_witness :
  looks_like_scanner (Some "USB HID Keyboard") = true.
Proof.
  apply (looks_like_scanner_keyword "USB " "HID" " Keyboard").
  apply (bool_decide_unpack _). vm_compute. exact I.
Defined.

Lemma enrich_from_usda_idempotent_witness :
  ∃ s' : gmap string pyval,
    enrich_from_usda blank_record sample_food = (s', None)
    ∧ enrich_from_usda s' sample_food = (s', None).
Proof.
  apply (enrich_from_usda_idempotent blank_record sample_food).
  vm_compute. reflexivity.
Defined.

Lemma title_if_upper_only_case_witness :
  ∃ s', title_if_upper (VStr "COLA ZERO") = Ok (VStr s')
        ∧ str_lower s' = "cola zero".
Proof.
  destruct (title_if_upper_only_case "COLA ZERO") as (s' & Htitle & _ & _ & Hlower & _).
  - reflexivity.
  - exists s'. split; [exact Htitle|exact Hlower].
Defined.


Lemma quantity_near_weight_witness :
  (quantity_of (Some (3 # 10)%Q) == 0)%Q.
Proof.
  destruct (quantity_near_weight (3 # 10)%Q) as (_ & _ & _ & Hzero).
  - discriminate.
  - apply Hzero. discriminate.
Defined.
